(** * H5_Nested_Store: a shallow embedding of [zarr_stores/h5_nested_store.py]

    The store keeps a zarr hierarchy in a directory tree.  Metadata and legacy
    chunks are plain files; chunks written directly go into HDF5 container
    files ("shards") that sit in the tree where a directory of chunk files
    would be.  This file embeds the store's methods as functions over an
    explicit file-system state and proves properties of them. *)

From Stdlib Require Import Ascii String ZArith.
From Stdlib.Strings Require Import Byte.
From stdpp Require Import gmap strings list fin_maps.

Local Open Scope Z_scope.

(** ** Python [str] operations used by the store *)

Module pystr.

(** [c in s] for a single character. *)
Fixpoint contains (c : ascii) (s : string) : bool :=
  match s with
  | EmptyString => false
  | String a s' => if decide (a = c) then true else contains c s'
  end.

(** [sub in s]. *)
Fixpoint has_substring (sub s : string) : bool :=
  String.prefix sub s ||
  match s with
  | EmptyString => false
  | String _ s' => has_substring sub s'
  end.

(** [s.split(c)]: never empty, [''.split(c) == ['']]. *)
Fixpoint split (c : ascii) (s : string) : list string :=
  match s with
  | EmptyString => [EmptyString]
  | String a s' =>
      if decide (a = c) then EmptyString :: split c s'
      else match split c s' with
           | [] => [String a EmptyString]
           | h :: t => String a h :: t
           end
  end.

(** [sep.join(l)]. *)
Definition join (sep : string) (l : list string) : string := String.concat sep l.

(** [s.replace(a, b)] for single characters. *)
Fixpoint replace (a b : ascii) (s : string) : string :=
  match s with
  | EmptyString => EmptyString
  | String c s' => String (if decide (c = a) then b else c) (replace a b s')
  end.

Definition lower_char (c : ascii) : ascii :=
  let n := nat_of_ascii c in
  if ((65 <=? n) && (n <=? 90))%nat then ascii_of_nat (n + 32) else c.

(** [s.lower()] on ASCII text. *)
Fixpoint lower (s : string) : string :=
  match s with
  | EmptyString => EmptyString
  | String c s' => String (lower_char c) (lower s')
  end.

(** [s[0] == c]; [None] stands for the IndexError on the empty string. *)
Definition head (s : string) : option ascii :=
  match s with
  | EmptyString => None
  | String c _ => Some c
  end.

End pystr.

(** ** Paths

    Every path the store hands to the operating system is absolute and
    normalised ([os.path.abspath] and [os.path.normpath] in [__init__]), and
    keys reach the store as zarr normalises them (no ['.'] or ['..']
    segment).  A path is kept as the list of its components below ["/"];
    [[]] is ["/"] itself. *)

Abbreviation fspath := (list string).

Module posixpath.

(** The components of a relative key such as ["a/0/0/1"]. *)
Definition components (s : string) : fspath :=
  filter (λ x, x ≠ EmptyString) (pystr.split "/" s).

(** [os.path.join(p, key)]: an absolute [key] discards [p]. *)
Definition join (p : fspath) (key : string) : fspath :=
  if String.prefix "/" key then components key else p ++ components key.

(** [os.path.split(p)]: [(head, tail)]; [split('/') == ('/', '')]. *)
Definition split (p : fspath) : fspath * string :=
  match reverse p with
  | [] => ([], EmptyString)
  | s :: r => (reverse r, s)
  end.

(** The f-string [f'{p}{suffix}']: the text is glued to the last component;
    glued to ["/"] it is a component of its own. *)
Definition add_suffix (p : fspath) (suffix : string) : fspath :=
  match reverse p with
  | [] => [suffix]
  | s :: r => reverse r ++ [s +:+ suffix]
  end.

(** [(s[:d], s[d:])] for the last ['.'] of the name [s], at index [d]. *)
Fixpoint rsplit_dot (s : string) : option (string * string) :=
  match s with
  | EmptyString => None
  | String a s' =>
      match rsplit_dot s' with
      | Some (h, t) => Some (String a h, t)
      | None => if decide (a = "."%char) then Some (EmptyString, s) else None
      end
  end.

Fixpoint all_dots (s : string) : bool :=
  match s with
  | EmptyString => true
  | String a s' => if decide (a = "."%char) then all_dots s' else false
  end.

(** [os.path.splitext] on a file name: the extension starts at the last
    dot, leading dots of the name do not count. *)
Definition splitext_name (s : string) : string * string :=
  match rsplit_dot s with
  | Some (h, t) => if all_dots h then (s, EmptyString) else (h, t)
  | None => (s, EmptyString)
  end.

(** [os.path.splitext(p)]. *)
Definition splitext (p : fspath) : fspath * string :=
  match reverse p with
  | [] => ([], EmptyString)
  | s :: r => let '(b, e) := splitext_name s in (reverse r ++ [b], e)
  end.

(** [p.count(os.sep)] of the normalised absolute path. *)
Definition count_sep (p : fspath) : Z :=
  match p with
  | [] => 1
  | _ => Z.of_nat (length p)
  end.

End posixpath.

(** ** The store object *)

(** The attributes [__init__] sets and the methods below read.
    [container_ext] is the extension as [__init__] keeps it, with its
    leading dot; [distribuited] is what [_setup_dist_lock] leaves. *)
Record H5_Nested_Store := {
  path : fspath;
  normalize_keys : bool;
  _write_direct : bool;
  container_ext : string;
  distribuited : bool;
  _consolidate_depth : Z;
  auto_verify_write : bool;
  mode : string;
}.

Definition _normalize_key (self : H5_Nested_Store) (key : string) : string :=
  if normalize_keys self then pystr.lower key else key.

(** ** Key/path codec: [_get_archive_key_name] *)

(** The loop [for _ in range(self._consolidate_depth - 2)], [n] rounds left. *)
Fixpoint _archive_key_loop (n : nat) (path : fspath) (key : string) : fspath * string :=
  match n with
  | O => (path, key)
  | S n' =>
      let '(path, last) := posixpath.split path in
      _archive_key_loop n' path ("." +:+ last +:+ key)
  end.

Definition _get_archive_key_name (self : H5_Nested_Store) (path : fspath)
  : fspath * string :=
  let '(path, key) :=
    _archive_key_loop (Z.to_nat (_consolidate_depth self - 2)) path EmptyString in
  let '(path, last) := posixpath.split path in
  let key := last +:+ key in
  let archive := posixpath.add_suffix path (container_ext self) in
  (archive, key).

(** The text the loop of [_get_archive_key_name] puts after the first
    component of the key: each component it took off, a dot before it. *)
Definition dotted (coords : list string) : string :=
  foldr (λ c acc, "." +:+ c +:+ acc) EmptyString coords.

(** ** The file system, the surroundings and the outcome of a call *)

Abbreviation bytes := (list byte).

#[global] Instance byte_eq_dec : EqDecision byte := Byte.byte_eq_dec.

(** What sits at a path: a directory, a plain file with its content, or an
    HDF5 container with its datasets (name to content).  A file written
    through [open(fn, 'wb')] is never taken for a container. *)
Inductive node :=
| Dir
| RawFile (data : bytes)
| Hdf5File (dsets : gmap string bytes).

#[global] Instance node_eq_dec : EqDecision node.
Proof. solve_decision. Defined.

(** The state a call runs in: the tree, and the number of calls made so far
    to what the surroundings decide. *)
Record world := {
  fs : gmap fspath node;
  ticks : nat;
}.

(** What the code does not decide: whether a container is open elsewhere when
    it is opened for update, what the medium keeps of the bytes of a plain
    write, the token [uuid.uuid4().hex], the bytes of a container file on
    disk after its signature, and whether the distributed lock can be taken
    (a dask client is live).  The first three are asked once per call, by the call's number. *)
Record environment := {
  h5_busy : nat → bool;
  medium : nat → bytes → bytes;
  uuid4_hex : nat → string;
  h5_image : gmap string bytes → bytes;
  lock_available : bool;
}.

Inductive errno := ENOENT | EEXIST | ENOTDIR | EISDIR | EAGAIN | ENOTHDF5.

(** [LockError] is what [self.Lock(name=archive)] and [with lock:] raise when
    no dask client is live: an [Exception] that is neither an [OSError] nor a
    [KeyError]. *)
Inductive exn :=
| KeyError (key : string)
| OSError (code : errno)
| ValueError
| LockError.

#[global] Instance errno_eq_dec : EqDecision errno.
Proof. solve_decision. Defined.

#[global] Instance exn_eq_dec : EqDecision exn.
Proof. solve_decision. Defined.

(** A call returns a value, raises, or is still [Running] when the fuel given
    to its [while True] loop is used up. *)
Inductive outcome (A : Type) :=
| Return (a : A) (w : world)
| Raise (e : exn) (w : world)
| Running.

Arguments Return {A} a w.
Arguments Raise {A} e w.
Arguments Running {A}.

Definition M (A : Type) : Type := world → outcome A.

Definition ret {A} (a : A) : M A := λ w, Return a w.

Definition raise {A} (e : exn) : M A := λ w, Raise e w.

Definition bind {A B} (m : M A) (k : A → M B) : M B :=
  λ w, match m w with
       | Return a w' => k a w'
       | Raise e w' => Raise e w'
       | Running => Running
       end.

#[global] Instance M_ret : MRet M := @ret.

#[global] Instance M_bind : MBind M := λ A B k m, bind m k.

#[global] Instance M_fmap : FMap M := λ A B f m, bind m (λ a, ret (f a)).

(** [try: m  except <classes>: h]. *)
Definition try_except {A} (m : M A) (caught : exn → bool) (h : exn → M A) : M A :=
  λ w, match m w with
       | Raise e w' => if caught e then h e w' else Raise e w'
       | o => o
       end.

(** [try: m  finally: c]. *)
Definition try_finally {A} (m : M A) (c : M unit) : M A :=
  λ w, match m w with
       | Return a w' => bind c (λ _, ret a) w'
       | Raise e w' => bind c (λ _, raise e) w'
       | Running => Running
       end.

Definition is_OSError (e : exn) : bool :=
  match e with OSError _ => true | _ => false end.

Definition is_KeyError (e : exn) : bool :=
  match e with KeyError _ => true | _ => false end.

(** A bare [except:] or [except Exception]. *)
Definition any_exception (e : exn) : bool := true.

(** [for x in l: body x]. *)
Fixpoint for_each {A} (l : list A) (body : A → M unit) : M unit :=
  match l with
  | [] => ret tt
  | x :: l' => bind (body x) (λ _, for_each l' body)
  end.

(** The world a call leaves behind, when it ended. *)
Definition final_world {A} (o : outcome A) : option world :=
  match o with
  | Return _ w | Raise _ w => Some w
  | Running => None
  end.

(** [m] keeps the property [I] of the tree, however it ends. *)
Definition preserves {A : Type} (I : gmap fspath node → Prop) (m : M A) : Prop :=
  ∀ w w', I (fs w) → final_world (m w) = Some w' → I (fs w').

(** ** [os], [os.path] and [shutil] on the tree *)

Module os.

Definition stat (t : gmap fspath node) (p : fspath) : option node :=
  match p with
  | [] => Some Dir
  | _ => t !! p
  end.

Definition isfile (t : gmap fspath node) (p : fspath) : bool :=
  match stat t p with
  | Some (RawFile _) | Some (Hdf5File _) => true
  | _ => false
  end.

Definition isdir (t : gmap fspath node) (p : fspath) : bool :=
  match stat t p with
  | Some Dir => true
  | _ => false
  end.

Definition exists_ (t : gmap fspath node) (p : fspath) : bool :=
  match stat t p with
  | Some _ => true
  | None => false
  end.

Definition dirname (p : fspath) : fspath := (posixpath.split p).1.

(** [q] with the leading [p] taken off. *)
Fixpoint below (p q : fspath) : option fspath :=
  match p, q with
  | [], _ => Some q
  | a :: p', b :: q' => if decide (a = b) then below p' q' else None
  | _ :: _, [] => None
  end.

(** [os.scandir(p)]: the entries directly inside [p]. *)
Definition scandir (t : gmap fspath node) (p : fspath) : list (string * node) :=
  omap (λ '(q, n), match below p q with
                   | Some [s] => Some (s, n)
                   | _ => None
                   end) (map_to_list t).

Definition listdir (t : gmap fspath node) (p : fspath) : list string :=
  (scandir t p).*1.

(** [os.remove(p)]. *)
Definition remove (t : gmap fspath node) (p : fspath) : exn + gmap fspath node :=
  match stat t p with
  | Some Dir => inl (OSError EISDIR)
  | Some _ => inr (delete p t)
  | None => inl (OSError ENOENT)
  end.

(** [shutil.rmtree(p)]. *)
Definition rmtree (t : gmap fspath node) (p : fspath) : exn + gmap fspath node :=
  if isdir t p then inr (filter (λ kv, ¬ p `prefix_of` kv.1) t)
  else match stat t p with
       | Some _ => inl (OSError ENOTDIR)
       | None => inl (OSError ENOENT)
       end.

(** [os.mkdir(p)]. *)
Definition mkdir (t : gmap fspath node) (p : fspath) : exn + gmap fspath node :=
  match stat t p with
  | Some _ => inl (OSError EEXIST)
  | None =>
      match stat t (dirname p) with
      | Some Dir => inr (<[p := Dir]> t)
      | Some _ => inl (OSError ENOTDIR)
      | None => inl (OSError ENOENT)
      end
  end.

(** [os.makedirs(name, exist_ok=exist_ok)], [n] bounding the recursion on the
    head of [name]. *)
Fixpoint makedirs_rec (n : nat) (t : gmap fspath node) (name : fspath) (exist_ok : bool)
  : exn + gmap fspath node :=
  let '(head, tail) := posixpath.split name in
  let made :=
    match n with
    | O => inr t
    | S n' =>
        if negb (bool_decide (tail = EmptyString)) && negb (exists_ t head) then
          match makedirs_rec n' t head exist_ok with
          | inl (OSError EEXIST) => inr t
          | r => r
          end
        else inr t
    end in
  match made with
  | inl e => inl e
  | inr t1 =>
      match mkdir t1 name with
      | inl e => if exist_ok && isdir t1 name then inr t1 else inl e
      | inr t2 => inr t2
      end
  end.

Definition makedirs (t : gmap fspath node) (name : fspath) (exist_ok : bool)
  : exn + gmap fspath node :=
  makedirs_rec (length name) t name exist_ok.

(** [os.replace(src, dst)] for a file [src]. *)
Definition replace (t : gmap fspath node) (src dst : fspath) : exn + gmap fspath node :=
  match stat t src with
  | None => inl (OSError ENOENT)
  | Some Dir => inl (OSError EISDIR)
  | Some n =>
      if isdir t dst then inl (OSError EISDIR)
      else if isdir t (dirname dst) then inr (<[dst := n]> (delete src t))
      else inl (OSError ENOENT)
  end.

(** [os.walk(top, topdown=topdown)] as the list of its [(root, dirs, files)]. *)
Fixpoint walk_rec (n : nat) (topdown : bool) (t : gmap fspath node) (top : fspath)
  : list (fspath * list string * list string) :=
  match n with
  | O => []
  | S n' =>
      let entries := scandir t top in
      let dirs := (filter (λ e, e.2 = Dir) entries).*1 in
      let nondirs := (filter (λ e, e.2 ≠ Dir) entries).*1 in
      let deeper := mjoin ((λ d, walk_rec n' topdown t (top ++ [d])) <$> dirs) in
      if topdown then (top, dirs, nondirs) :: deeper
      else deeper ++ [(top, dirs, nondirs)]
  end.

Definition walk (t : gmap fspath node) (top : fspath) (topdown : bool)
  : list (fspath * list string * list string) :=
  if isdir t top then walk_rec (S (size t)) topdown t top else [].

End os.

(** Reading the tree inside a call. *)
Definition os_path_isfile (p : fspath) : M bool := λ w, Return (os.isfile (fs w) p) w.

Definition os_path_isdir (p : fspath) : M bool := λ w, Return (os.isdir (fs w) p) w.

Definition os_path_exists (p : fspath) : M bool := λ w, Return (os.exists_ (fs w) p) w.

(** A change of the tree inside a call: the new tree, or the exception. *)
Definition on_tree (f : gmap fspath node → exn + gmap fspath node) : M unit :=
  λ w, match f (fs w) with
       | inl e => Raise e w
       | inr t => Return tt {| fs := t; ticks := ticks w |}
       end.

Definition tick (w : world) : world := {| fs := fs w; ticks := S (ticks w) |}.

(** [uuid.uuid4().hex]. *)
Definition uuid4 (env : environment) : M string :=
  λ w, Return (uuid4_hex env (ticks w)) (tick w).

(** [with open(fn, mode='wb') as f: f.write(a)]: the medium decides what is
    kept of [a]. *)
Definition open_wb_write (env : environment) (fn : fspath) (a : bytes) : M unit :=
  λ w, if os.isdir (fs w) fn then Raise (OSError EISDIR) w
       else match os.stat (fs w) (os.dirname fn) with
            | Some Dir =>
                Return tt {| fs := <[fn := RawFile (medium env (ticks w) a)]> (fs w);
                             ticks := S (ticks w) |}
            | Some _ => Raise (OSError ENOTDIR) w
            | None => Raise (OSError ENOENT) w
            end.

(** The eight bytes every HDF5 file starts with. *)
Definition hdf5_signature : bytes := [x89; x48; x44; x46; x0d; x0a; x1a; x0a].

(** The bytes of a file on disk. *)
Definition file_bytes (env : environment) (n : node) : option bytes :=
  match n with
  | RawFile b => Some b
  | Hdf5File c => Some (hdf5_signature ++ h5_image env c)
  | Dir => None
  end.

(** ** [h5py.File] *)

Module h5py.

(** [h5py.File(archive, 'r')]. *)
Definition open_r (archive : fspath) : M (gmap string bytes) :=
  λ w, match os.stat (fs w) archive with
       | Some (Hdf5File c) => Return c w
       | Some (RawFile _) => Raise (OSError ENOTHDF5) w
       | Some Dir => Raise (OSError EISDIR) w
       | None => Raise (OSError ENOENT) w
       end.

(** [h5py.File(archive, 'a')]: an existing container may be open elsewhere
    (the OSError the source's comment speaks of); a missing one is created,
    and so is one in place of a plain file of no bytes; a plain file that has
    bytes is refused. *)
Definition open_a (env : environment) (archive : fspath) : M (gmap string bytes) :=
  λ w, match os.stat (fs w) archive with
       | Some (Hdf5File c) =>
           if h5_busy env (ticks w) then Raise (OSError EAGAIN) (tick w)
           else Return c (tick w)
       | Some (RawFile []) =>
           Return ∅ {| fs := <[archive := Hdf5File ∅]> (fs w); ticks := ticks w |}
       | Some (RawFile _) => Raise (OSError ENOTHDF5) w
       | Some Dir => Raise (OSError EISDIR) w
       | None =>
           match os.stat (fs w) (os.dirname archive) with
           | Some Dir =>
               Return ∅ {| fs := <[archive := Hdf5File ∅]> (fs w); ticks := ticks w |}
           | Some _ => Raise (OSError ENOTDIR) w
           | None => Raise (OSError ENOENT) w
           end
       end.

(** The datasets [h5py.File(archive, 'a')] finds at [archive] where it can
    open: those of the container that is there, none where it makes one. *)
Definition opens_on (t : gmap fspath node) (archive : fspath)
    (c : gmap string bytes) : Prop :=
  t !! archive = Some (Hdf5File c)
  ∨ ((t !! archive = None ∨ t !! archive = Some (RawFile [])) ∧ c = ∅).

(** Leaving the [with] block: the datasets [c] are what the file holds. *)
Definition close (archive : fspath) (c : gmap string bytes) : M unit :=
  λ w, Return tt {| fs := <[archive := Hdf5File c]> (fs w); ticks := ticks w |}.

(** [f.create_dataset(key, data=np.void(value))]: a value of no bytes is
    refused with a [ValueError]. *)
Definition create_dataset (key : string) (value : bytes) (c : gmap string bytes)
  : exn + gmap string bytes :=
  if bool_decide (value = []) then inl ValueError else inr (<[key := value]> c).

(** What [if key in f: del f[key]] then [f.create_dataset(...)] leave of [c]
    when the value has bytes. *)
Definition put (key : string) (value : bytes) (c : gmap string bytes)
  : gmap string bytes :=
  <[key := value]> (delete key c).

(** The block [if key in f: del f[key]] then
    [f.create_dataset(key, data=np.void(value))] inside
    [with h5py.File(archive, 'a') as f], and the end of the [with]: the file
    is closed on what was done, also when [create_dataset] raises, which is
    after the old dataset has gone. *)
Definition replace_dataset (archive : fspath) (key : string) (value : bytes)
    (f : gmap string bytes) : M unit :=
  match create_dataset key value (delete key f) with
  | inr f' => close archive f'
  | inl e => bind (close archive (delete key f)) (λ _, raise e)
  end.

(** What the block leaves of the datasets [c], whether it raised or not. *)
Definition left_by_replace (key : string) (value : bytes) (c : gmap string bytes)
  : gmap string bytes :=
  if bool_decide (value = []) then delete key c else put key value c.

End h5py.

(** ** Reading and writing files and containers *)

Section methods.

Context (env : environment) (self : H5_Nested_Store).

Definition _fromfile (fn : fspath) : M bytes :=
  λ w, match os.stat (fs w) fn with
       | Some (RawFile b) => Return b w
       | Some (Hdf5File c) => Return (hdf5_signature ++ h5_image env c) w
       | Some Dir => Raise (OSError EISDIR) w
       | None => Raise (OSError ENOENT) w
       end.

(** [_tofile]: the [while True] loop runs at most [fuel] rounds. *)
Fixpoint _tofile (fuel : nat) (a : bytes) (fn : fspath) : M unit :=
  match fuel with
  | O => λ _, Running
  | S fuel' =>
      open_wb_write env fn a;;
      if auto_verify_write self then
        back ← _fromfile fn;
        if bool_decide (back = a) then ret tt else _tofile fuel' a fn
      else ret tt
  end.

Definition _fromh5 (archive : fspath) (key : string) : M bytes :=
  f ← h5py.open_r archive;
  match f !! key with
  | Some data => ret data
  | None => raise (KeyError key)
  end.

(** [_toh5]: the [while True] loop runs at most [fuel] rounds.  The counter
    [times] only feeds the printed message. *)
Fixpoint _toh5 (fuel : nat) (archive : fspath) (key : string) (value : bytes) : M unit :=
  match fuel with
  | O => λ _, Running
  | S fuel' =>
      try_except
        (f ← h5py.open_a env archive; h5py.replace_dataset archive key value f)
        is_OSError (λ _, ret tt);;
      if auto_verify_write self then
        verified ← try_except
                     (back ← _fromh5 archive key; ret (bool_decide (back = value)))
                     is_KeyError (λ _, ret false);
        if verified : bool then ret tt else _toh5 fuel' archive key value
      else ret tt
  end.

(** [lock = self.Lock(name=archive)] then [with lock:]: with a live dask
    client the block runs, one caller at a time; without one the lock cannot
    be taken and the block does not run. *)
Definition with_lock {A} (name : fspath) (m : M A) : M A :=
  λ w, if lock_available env then m w else Raise LockError w.

Definition _write_direct_to_h5 (fuel : nat) (file_path : fspath) (value : bytes) : M unit :=
  let '(archive, key) := _get_archive_key_name self file_path in
  on_tree (λ t, os.makedirs t (posixpath.split archive).1 true);;
  if distribuited self then
    try_except (with_lock archive (_toh5 fuel archive key value))
      any_exception (λ _, ret tt)
  else _toh5 fuel archive key value.

Definition _read_direct_to_h5 (archive : fspath) (key : string) : M bytes :=
  if distribuited self then with_lock archive (_fromh5 archive key)
  else _fromh5 archive key.

(** ** The mapping interface *)

Definition __getitem__ (key : string) : M bytes :=
  let key := _normalize_key self key in
  let filepath := posixpath.join (path self) key in
  isf ← os_path_isfile filepath;
  raw ← (if isf : bool
         then try_except (Some <$> _fromfile filepath) any_exception (λ _, ret None)
         else ret None);
  match raw with
  | Some data => ret data
  | None =>
      let '(archive, h_key) := _get_archive_key_name self filepath in
      isa ← os_path_isfile archive;
      sharded ← (if isa : bool
                 then try_except
                        (Some <$> (if _write_direct self
                                      && negb (bool_decide (mode self = "r"))
                                   then _read_direct_to_h5 archive h_key
                                   else _fromh5 archive h_key))
                        any_exception (λ _, ret None)
                 else ret None);
      match sharded with
      | Some data => ret data
      | None => raise (KeyError key)
      end
  end.

End methods.

Section mapping.

Context (env : environment) (self : H5_Nested_Store).

(** The part of [__setitem__] below the comment "Everything below here
    mimics a NestedDirectoryStore": the value goes to a plain file, through
    a temporary file that is moved into place.
    [retry_call(os.replace, ..., exceptions=(PermissionError,))] is one call
    of [os.replace], the tree knowing no permissions. *)
Definition _setitem_nested (fuel : nat) (key : string) (file_path : fspath)
    (value : bytes) : M unit :=
  isd ← os_path_isdir file_path;
  (if isd : bool then on_tree (λ t, os.rmtree t file_path) else ret tt);;
  let '(dir_path, file_name) := posixpath.split file_path in
  dir_is_file ← os_path_isfile dir_path;
  if dir_is_file : bool then raise (KeyError key)
  else
    dir_exists ← os_path_exists dir_path;
    (if dir_exists : bool then ret tt
     else try_except (on_tree (λ t, os.makedirs t dir_path false)) is_OSError
            (λ e, if bool_decide (e = OSError EEXIST) then ret tt
                  else raise (KeyError key)));;
    hex ← uuid4 env;
    let temp_name := file_name +:+ "." +:+ hex +:+ ".partial" in
    let temp_path := dir_path ++ [temp_name] in
    try_finally
      (_tofile env self fuel value temp_path;;
       on_tree (λ t, os.replace t temp_path file_path))
      (left_over ← os_path_exists temp_path;
       if left_over : bool then on_tree (λ t, os.remove t temp_path) else ret tt).

(** [__setitem__]: [value] is the buffer [ensure_contiguous_ndarray_like]
    returns. *)
Definition __setitem__ (fuel : nat) (key : string) (value : bytes) : M unit :=
  let key := _normalize_key self key in
  let file_path := posixpath.join (path self) key in
  isf ← os_path_isfile file_path;
  if _write_direct self && negb (pystr.contains "." key) && negb isf then
    _write_direct_to_h5 env self fuel file_path value
  else _setitem_nested fuel key file_path value.

(** [if h_key in f: del f[h_key]] inside [with h5py.File(archive, 'a') as f]. *)
Definition _del_dset (archive : fspath) (h_key : string) : M unit :=
  f ← h5py.open_a env archive;
  h5py.close archive (if bool_decide (is_Some (f !! h_key)) then delete h_key f else f).

Definition __delitem__ (key : string) : M unit :=
  let key := _normalize_key self key in
  let path := posixpath.join (path self) key in
  isf ← os_path_isfile path;
  (if isf : bool then on_tree (λ t, os.remove t path)
   else isd ← os_path_isdir path;
        if isd : bool then on_tree (λ t, os.rmtree t path) else ret tt);;
  let '(archive, h_key) := _get_archive_key_name self path in
  isa ← os_path_isfile archive;
  if isa : bool then
    if distribuited self then with_lock env archive (_del_dset archive h_key)
    else _del_dset archive h_key
  else raise (KeyError key).

Definition _dset_in (archive : fspath) (key : string) : M bool :=
  f ← h5py.open_r archive;
  ret (bool_decide (is_Some (f !! key))).

Definition __contains__ (key : string) : M bool :=
  let key := _normalize_key self key in
  let file_path := posixpath.join (path self) key in
  isf ← os_path_isfile file_path;
  if isf : bool then ret true
  else
    let '(archive, key) := _get_archive_key_name self file_path in
    isa ← os_path_isfile archive;
    if isa : bool then _dset_in archive key else ret false.

End mapping.

(** A store that reads its containers under the distributed lock, where
    the lock cannot be taken: [__getitem__] then finds nothing in them. *)
Definition read_locked_out (env : environment) (self : H5_Nested_Store) : bool :=
  _write_direct self && negb (bool_decide (mode self = "r"))
  && distribuited self && negb (lock_available env).

(** A store that writes its containers under the distributed lock, where
    the lock cannot be taken: direct writes are dropped. *)
Definition write_locked_out (env : environment) (self : H5_Nested_Store) : bool :=
  distribuited self && negb (lock_available env).

(** ** [getsize] *)

Module zarr_util.

(** [zarr.util.normalize_storage_path]: backslashes become slashes, leading,
    trailing and repeated slashes go, a ['.'] or ['..'] segment is refused. *)
Definition normalize_storage_path (path : option string) : exn + string :=
  match path with
  | None => inr EmptyString
  | Some p =>
      let segments := posixpath.components (pystr.replace (ascii_of_nat 92) "/" p) in
      if existsb (λ s, bool_decide (s = "." ∨ s = "..")) segments then inl ValueError
      else inr (pystr.join "/" segments)
  end.

End zarr_util.

Section sizes.

Context (env : environment) (self : H5_Nested_Store).

(** [st_size] of a directory entry that is a file. *)
Definition st_size (n : node) : Z :=
  match file_bytes env n with
  | Some b => Z.of_nat (length b)
  | None => 0
  end.

Definition is_file (n : node) : bool :=
  match n with
  | Dir => false
  | _ => true
  end.

(** [os.path.getsize(p)] of a file. *)
Definition os_path_getsize (p : fspath) : M Z :=
  λ w, match os.stat (fs w) p with
       | Some n => Return (st_size n) w
       | None => Raise (OSError ENOENT) w
       end.

Definition os_scandir (p : fspath) : M (list (string * node)) :=
  λ w, Return (os.scandir (fs w) p) w.

Definition getsize (path_arg : option string) : M Z :=
  match zarr_util.normalize_storage_path path_arg with
  | inl e => raise e
  | inr store_path =>
      let fs_path :=
        if bool_decide (store_path = EmptyString) then path self
        else posixpath.join (path self) store_path in
      isf ← os_path_isfile fs_path;
      if isf : bool then os_path_getsize fs_path
      else
        isd ← os_path_isdir fs_path;
        if isd : bool then
          children ← os_scandir fs_path;
          ret (fold_left (λ size child,
                            if is_file child.2 then size + st_size child.2 else size)
                         children 0)
        else ret 0
  end.

End sizes.

(** ** Consolidation and key enumeration *)

Section consolidation.

Context (env : environment) (self : H5_Nested_Store).

(** The generator [_arrays], over the tree as it stands. *)
Definition _arrays (t : gmap fspath node) : list fspath :=
  if os.isfile t (path self ++ [".zarray"]) then [path self]
  else
    '(root, folder, _) ← os.walk t (path self) false;
    f ← folder;
    if os.exists_ t (root ++ [f; ".zarray"]) then [root ++ [f]] else [].

Definition path_depth (p : fspath) (compare_path : option fspath) : Z :=
  let compare_path := default (path self) compare_path in
  let startinglevel := posixpath.count_sep compare_path in
  let totallevel := posixpath.count_sep p in
  totallevel - startinglevel.

(** The dictionary [unique_archive_locations]: an archive is yielded the
    first time it is met. *)
Fixpoint yield_unique (seen l : list fspath) : list fspath :=
  match l with
  | [] => []
  | archive :: l' =>
      if decide (archive ∈ seen) then yield_unique seen l'
      else archive :: yield_unique (archive :: seen) l'
  end.

Definition get_unique_archive_locations (t : gmap fspath node) : list fspath :=
  yield_unique []
    (a ← _arrays t;
     '(root, _, files) ← os.walk t a true;
     f ← files;
     let filepath := root ++ [f] in
     if negb (pystr.has_substring ".z" f)
        && bool_decide (path_depth filepath (Some a) > _consolidate_depth self)
     then [(_get_archive_key_name self filepath).1]
     else []).

(** The files [os.walk(path_name, topdown=True)] lists, in its order. *)
Definition walk_files (t : gmap fspath node) (path_name : fspath) : list fspath :=
  '(root, _, files) ← os.walk t path_name true;
  f ← files;
  [root ++ [f]].

(** The body of [with h5py.File(archive, 'a') as h], [h] being the datasets
    so far; an exception closes the container on what was written. *)
Fixpoint _migrate_files (archive : fspath) (files : list fspath) (h : gmap string bytes)
  : M unit :=
  match files with
  | [] => h5py.close archive h
  | filepath :: rest =>
      let key := (_get_archive_key_name self filepath).2 in
      data ← try_except (_fromfile env filepath) any_exception
               (λ e, h5py.close archive h;; raise e);
      match h5py.create_dataset key data (delete key h) with
      | inl e => h5py.close archive (delete key h);; raise e
      | inr h =>
          try_except (on_tree (λ t, os.remove t filepath)) any_exception
            (λ e, h5py.close archive h;; raise e);;
          _migrate_files archive rest h
      end
  end.

Definition _migrate_path_to_archive (archive path_name : fspath) : M unit :=
  h ← h5py.open_a env archive;
  files ← (λ w, Return (walk_files (fs w) path_name) w);
  _migrate_files archive files h.

Definition os_listdir (p : fspath) : M (list string) :=
  λ w, match os.stat (fs w) p with
       | Some Dir => Return (os.listdir (fs w) p) w
       | Some _ => Raise (OSError ENOTDIR) w
       | None => Raise (OSError ENOENT) w
       end.

(** [consolidate] with dask at hand: every archive location is collected
    first, the delayed migrations then run, here one after the other in the
    order they were delayed. *)
Definition consolidate : M unit :=
  to_run ← (λ w, Return (get_unique_archive_locations (fs w)) w);
  for_each to_run
    (λ unique,
       let path_name := (posixpath.splitext unique).1 in
       let archive := unique in
       _migrate_path_to_archive archive path_name);;
  arrays ← (λ w, Return (_arrays (fs w)) w);
  for_each arrays
    (λ a,
       walked ← (λ w, Return (os.walk (fs w) a false) w);
       for_each walked
         (λ '(root, folder, _),
            for_each folder
              (λ f,
                 let filepath := root ++ [f] in
                 there ← os_path_exists filepath;
                 if there : bool then
                   inside ← os_listdir filepath;
                   if bool_decide (length inside = 0%nat)
                   then on_tree (λ t, os.rmtree t filepath)
                   else ret tt
                 else ret tt))).

(** [_get_zip_keys]: the names of the datasets of a container. *)
Definition _get_zip_keys (archive : fspath) : M (list string) :=
  f ← h5py.open_r archive;
  ret (map_to_list f).*1.

(** [os.path.relpath(dirpath, self.path)] for a directory the walk of
    [self.path] visits. *)
Definition relpath (dirpath : fspath) : string :=
  match os.below (path self) dirpath with
  | Some [] | None => "."
  | Some rel => pystr.join "/" rel
  end.

(** Collecting what a generator yields over a list. *)
Fixpoint yield_from {A B} (l : list A) (gen : A → M (list B)) : M (list B) :=
  match l with
  | [] => ret []
  | x :: l' => ys ← gen x; zs ← yield_from l' gen; ret (ys ++ zs)
  end.

Definition _keys_fast : M (list string) :=
  walked ← (λ w, Return (os.walk (fs w) (path self) true) w);
  yield_from walked
    (λ '(dirpath_abs, _, filenames),
       let dirpath := relpath dirpath_abs in
       if bool_decide (dirpath = ".") then ret filenames
       else
         yield_from filenames
           (λ f,
              let '(basefile, ext) := posixpath.splitext_name f in
              if bool_decide (ext = container_ext self) then
                names ← _get_zip_keys (dirpath_abs ++ [f]);
                ret ((λ x, pystr.join "/" [dirpath; basefile; pystr.replace "." "/" x])
                       <$> names)
              else ret [pystr.join "/" [dirpath; f]])).

Definition keys : M (list string) :=
  there ← os_path_exists (path self);
  if there : bool then _keys_fast else ret [].

End consolidation.

(** ** Stores, surroundings and trees used in the examples *)

(** Surroundings in which nothing goes wrong: no container is ever busy, the
    medium keeps every byte. *)
Definition nominal (image : gmap string bytes → bytes) : environment :=
  {| h5_busy := λ _, false;
     medium := λ _ b, b;
     uuid4_hex := λ _, "0f3a";
     h5_image := image;
     lock_available := true |}.

Definition quiet : environment := nominal (λ _, []).

(** [H5_Nested_Store('/data')] with the defaults of [__init__]. *)
Definition default_store : H5_Nested_Store :=
  {| path := ["data"];
     normalize_keys := false;
     _write_direct := true;
     container_ext := ".h5";
     distribuited := false;
     _consolidate_depth := 3;
     auto_verify_write := false;
     mode := "a" |}.


(** A tree in which the key [a/0/0/1] has both a plain file and a dataset in
    its container, with different contents. *)
Definition tree_both : gmap fspath node :=
  {[ ["data"] := Dir;
     ["data"; "a"] := Dir;
     ["data"; "a"; "0"] := Dir;
     ["data"; "a"; "0"; "0"] := Dir;
     ["data"; "a"; "0"; "0"; "1"] := RawFile [x01];
     ["data"; "a"; "0.h5"] := Hdf5File {[ "0.1" := [x02] ]} ]}.

Definition world_both : world := {| fs := tree_both; ticks := 0 |}.

(** Every entry of the tree sits in a directory. *)
Definition well_formed (t : gmap fspath node) : Prop :=
  map_Forall (λ p _, os.isdir t (os.dirname p) = true) t.

(** The store with [auto_verify_write=True]. *)
Definition verifying_store : H5_Nested_Store :=
  {| path := ["data"];
     normalize_keys := false;
     _write_direct := true;
     container_ext := ".h5";
     distribuited := false;
     _consolidate_depth := 3;
     auto_verify_write := true;
     mode := "a" |}.

(** Surroundings that never recover: every container is busy at every
    attempt, the medium keeps nothing of what is written, and no dask client
    is live. *)
Definition hostile : environment :=
  {| h5_busy := λ _, true;
     medium := λ _ _, [];
     uuid4_hex := λ _, "0f3a";
     h5_image := λ _, [];
     lock_available := false |}.

(** Surroundings that recover: the first two attempts meet a busy container
    or a medium that keeps nothing, every later one goes through. *)
Definition flaky : environment :=
  {| h5_busy := λ n, bool_decide (n < 2)%nat;
     medium := λ n b, if bool_decide (n < 2)%nat then [] else b;
     uuid4_hex := λ _, "0f3a";
     h5_image := λ _, [];
     lock_available := true |}.

#[global] Instance well_formed_dec (t : gmap fspath node) : Decision (well_formed t).
Proof. unfold well_formed. apply _. Defined.

(** Surroundings in which the first attempt to open a container for update
    finds it open elsewhere, and nothing else goes wrong. *)
Definition busy_once : environment :=
  {| h5_busy := λ n, bool_decide (n = 0%nat);
     medium := λ _ b, b;
     uuid4_hex := λ _, "0f3a";
     h5_image := λ _, [];
     lock_available := true |}.

(** The array [a] with one chunk, [a/0/0/2], in its container. *)
Definition tree_sharded : gmap fspath node :=
  {[ ["data"] := Dir;
     ["data"; "a"] := Dir;
     ["data"; "a"; ".zarray"] := RawFile [x7b; x7d];
     ["data"; "a"; "0.h5"] := Hdf5File {[ "0.2" := [x02] ]} ]}.

Definition world_sharded : world := {| fs := tree_sharded; ticks := 0 |}.

(** The same array where a directory stands at the container's path, as
    [store['a/0.h5/.zattrs'] = ...] leaves one. *)
Definition tree_obstructed : gmap fspath node :=
  {[ ["data"] := Dir;
     ["data"; "a"] := Dir;
     ["data"; "a"; ".zarray"] := RawFile [x7b; x7d];
     ["data"; "a"; "0.h5"] := Dir;
     ["data"; "a"; "0.h5"; ".zattrs"] := RawFile [x7b; x7d] ]}.

Definition world_obstructed : world := {| fs := tree_obstructed; ticks := 0 |}.

(** A flat-file array of rank 6 with one chunk, [a/0/1/2/3/4/5]. *)
Definition tree_rank6 : gmap fspath node :=
  {[ ["data"] := Dir;
     ["data"; "a"] := Dir;
     ["data"; "a"; ".zarray"] := RawFile [x7b; x7d];
     ["data"; "a"; "0"] := Dir;
     ["data"; "a"; "0"; "1"] := Dir;
     ["data"; "a"; "0"; "1"; "2"] := Dir;
     ["data"; "a"; "0"; "1"; "2"; "3"] := Dir;
     ["data"; "a"; "0"; "1"; "2"; "3"; "4"] := Dir;
     ["data"; "a"; "0"; "1"; "2"; "3"; "4"; "5"] := RawFile [x01; x02] ]}.

Definition world_rank6 : world := {| fs := tree_rank6; ticks := 0 |}.

(** The rank-6 array after one consolidation, and after two. *)
Definition tree_rank6_once : gmap fspath node :=
  {[ ["data"] := Dir;
     ["data"; "a"] := Dir;
     ["data"; "a"; ".zarray"] := RawFile [x7b; x7d];
     ["data"; "a"; "0"] := Dir;
     ["data"; "a"; "0"; "1"] := Dir;
     ["data"; "a"; "0"; "1"; "2"] := Dir;
     ["data"; "a"; "0"; "1"; "2"; "3.h5"] := Hdf5File {[ "4.5" := [x01; x02] ]} ]}.

Definition tree_rank6_twice (image : gmap string bytes → bytes) : gmap fspath node :=
  {[ ["data"] := Dir;
     ["data"; "a"] := Dir;
     ["data"; "a"; ".zarray"] := RawFile [x7b; x7d];
     ["data"; "a"; "0"] := Dir;
     ["data"; "a"; "0"; "1.h5"] :=
       Hdf5File {[ "2.3.h5" := hdf5_signature ++ image {[ "4.5" := [x01; x02] ]} ]} ]}.

(** A flat-file array of rank 5 with two chunks, the layout of the module's
    docstring. *)
Definition tree_rank5 : gmap fspath node :=
  {[ ["data"] := Dir;
     ["data"; "a"] := Dir;
     ["data"; "a"; ".zarray"] := RawFile [x7b; x7d];
     ["data"; "a"; "0"] := Dir;
     ["data"; "a"; "0"; "0"] := Dir;
     ["data"; "a"; "0"; "0"; "4"] := Dir;
     ["data"; "a"; "0"; "0"; "4"; "6"] := Dir;
     ["data"; "a"; "0"; "0"; "4"; "6"; "7"] := RawFile [x01];
     ["data"; "a"; "0"; "0"; "4"; "6"; "9"] := RawFile [x02] ]}.

Definition tree_rank5_once : gmap fspath node :=
  {[ ["data"] := Dir;
     ["data"; "a"] := Dir;
     ["data"; "a"; ".zarray"] := RawFile [x7b; x7d];
     ["data"; "a"; "0"] := Dir;
     ["data"; "a"; "0"; "0"] := Dir;
     ["data"; "a"; "0"; "0"; "4.h5"] :=
       Hdf5File {[ "6.7" := [x01]; "6.9" := [x02] ]} ]}.

(** The store with [write_direct=False]: every value goes to a plain file. *)
Definition flat_store : H5_Nested_Store :=
  {| path := ["data"];
     normalize_keys := false;
     _write_direct := false;
     container_ext := ".h5";
     distribuited := false;
     _consolidate_depth := 3;
     auto_verify_write := false;
     mode := "a" |}.

Definition world_rank5 : world := {| fs := tree_rank5; ticks := 0 |}.

(** The rank-5 array after [store['a/0'] = b'\x09'] on the flat store. *)
Definition tree_rank5_overwritten : gmap fspath node :=
  {[ ["data"] := Dir;
     ["data"; "a"] := Dir;
     ["data"; "a"; ".zarray"] := RawFile [x7b; x7d];
     ["data"; "a"; "0"] := RawFile [x09] ]}.

(** The claim's rule for a metadata key: the final segment of the key starts
    with a dot. *)
Definition final_segment_dot_prefixed (key : string) : bool :=
  match pystr.head (posixpath.split (posixpath.components key)).2 with
  | Some c => bool_decide (c = "."%char)
  | None => false
  end.

(** The sharded array after [store['a/0/0/1.5'] = b'\x01'] and after
    [store['a/0/0/1'] = b'\x01'] on the default store. *)
Definition tree_sharded_dotted : gmap fspath node :=
  {[ ["data"] := Dir;
     ["data"; "a"] := Dir;
     ["data"; "a"; ".zarray"] := RawFile [x7b; x7d];
     ["data"; "a"; "0.h5"] := Hdf5File {[ "0.2" := [x02] ]};
     ["data"; "a"; "0"] := Dir;
     ["data"; "a"; "0"; "0"] := Dir;
     ["data"; "a"; "0"; "0"; "1.5"] := RawFile [x01] ]}.

Definition tree_sharded_put : gmap fspath node :=
  {[ ["data"] := Dir;
     ["data"; "a"] := Dir;
     ["data"; "a"; ".zarray"] := RawFile [x7b; x7d];
     ["data"; "a"; "0.h5"] := Hdf5File {[ "0.2" := [x02]; "0.1" := [x01] ]} ]}.

(** The sizes of directory entries, added up. *)
Definition sum_sizes (env : environment) (children : list (string * node)) : Z :=
  foldr (λ child acc, st_size env child.2 + acc) 0 children.

(** The claim's reading of the size of a directory: the bytes of every plain
    file at any depth below [p]. *)
Definition raw_bytes_below (t : gmap fspath node) (p : fspath) : Z :=
  foldr (λ entry acc,
           match entry.2 with
           | RawFile b => if bool_decide (p `prefix_of` entry.1)
                          then Z.of_nat (length b) + acc else acc
           | _ => acc
           end) 0 (map_to_list t).

(** The outcome [o] as a call would give it from the world [w]. *)
Definition with_world {A} (o : outcome A) (w : world) : outcome A :=
  match o with
  | Return a _ => Return a w
  | Raise e _ => Raise e w
  | Running => Running
  end.

(** ** Removing directories: [rmdir] and [clear] *)

Section removal.

Context (self : H5_Nested_Store).

Definition rmdir (path_arg : option string) : M unit :=
  match zarr_util.normalize_storage_path path_arg with
  | inl e => raise e
  | inr store_path =>
      let dir_path :=
        if bool_decide (store_path = EmptyString) then path self
        else posixpath.join (path self) store_path in
      isd ← os_path_isdir dir_path;
      if isd : bool then on_tree (λ t, os.rmtree t dir_path) else ret tt
  end.

Definition clear : M unit := on_tree (λ t, os.rmtree t (path self)).

End removal.

(** A store whose root directory [/data] has the container of the chunk
    [0/1] beside it, at [/data.h5]. *)
Definition tree_beside : gmap fspath node :=
  {[ ["data"] := Dir;
     ["data"; ".zarray"] := RawFile [x7b; x7d];
     ["data.h5"] := Hdf5File {[ "0.1" := [x01] ]} ]}.

(** ** Construction: [__init__] and [_setup_dist_lock] *)

(** What construction asks of the surroundings: whether [distributed] can be
    imported, and whether the [i]-th call of [worker_client] gives a client
    (it raises, or gives [None], otherwise). *)
Record cluster := {
  distributed_importable : bool;
  worker_client : nat → bool;
}.

(** The arguments of [__init__]; [dimension_separator=None] is [None]. *)
Record init_args := {
  arg_path : fspath;
  arg_normalize_keys : bool;
  arg_dimension_separator : option string;
  arg_write_direct : bool;
  arg_swmr : bool;
  arg_container_ext : string;
  arg_distribuited_lock : bool;
  arg_consolidate : bool;
  arg_consolidate_depth : Z;
  arg_consolidate_parallel : bool;
  arg_auto_verify_write : bool;
  arg_mode : string;
}.

(** The object [__init__] leaves: the attributes the methods read, and the
    others it sets ([uuid], [dist_client] and [Lock] are left out). *)
Record instance := {
  store : H5_Nested_Store;
  _dimension_separator : string;
  swmr : bool;
  distribuited_lock : bool;
  _consolidate : bool;
  _consolidate_parallel : bool;
}.

Inductive init_exn :=
| FSPathExistNotDir (p : fspath)
| SeparatorValueError
| IndexError
| ImportError
| NotImplementedError
| Propagated (e : exn).

Inductive init_outcome :=
| Built (i : instance) (w : world)
| Failed (e : init_exn) (w : world)
| Unfinished.

(** The loop [for _ in range(10)] of [_setup_dist_lock], [remaining] rounds
    left: whether a round got a client. *)
Fixpoint _connect (cl : cluster) (remaining attempt : nat) : bool :=
  match remaining with
  | O => false
  | S remaining' =>
      if worker_client cl attempt then true
      else _connect cl remaining' (S attempt)
  end.

(** [_setup_dist_lock]: the value it leaves in [self.distribuited]. *)
Definition _setup_dist_lock (cl : cluster) (write_direct lock : bool) : init_exn + bool :=
  if write_direct && lock then
    if distributed_importable cl then
      if _connect cl 10 0 then inr true else inl NotImplementedError
    else inl ImportError
  else inr false.

Definition __init__ (env : environment) (cl : cluster) (a : init_args) : world → init_outcome :=
  λ w,
    if os.exists_ (fs w) (arg_path a) && negb (os.isdir (fs w) (arg_path a))
    then Failed (FSPathExistNotDir (arg_path a)) w
    else
      let separator_ok :=
        match arg_dimension_separator a with
        | None => true
        | Some sep => bool_decide (sep = "/")
        end in
      if negb separator_ok then Failed SeparatorValueError w
      else
        match pystr.head (arg_container_ext a) with
        | None => Failed IndexError w
        | Some c =>
            let ext := if bool_decide (c = "."%char) then arg_container_ext a
                       else "." +:+ arg_container_ext a in
            let lock :=
              if arg_distribuited_lock a && arg_write_direct a
              then distributed_importable cl else false in
            match _setup_dist_lock cl (arg_write_direct a) lock with
            | inl e => Failed e w
            | inr connected =>
                let self := {| path := arg_path a;
                               normalize_keys := arg_normalize_keys a;
                               _write_direct := arg_write_direct a;
                               container_ext := ext;
                               distribuited := connected;
                               _consolidate_depth := arg_consolidate_depth a;
                               auto_verify_write := arg_auto_verify_write a;
                               mode := arg_mode a |} in
                let built := {| store := self;
                                _dimension_separator := "/";
                                swmr := arg_swmr a;
                                distribuited_lock := lock;
                                _consolidate := false;
                                _consolidate_parallel := arg_consolidate_parallel a |} in
                if arg_consolidate a then
                  match consolidate env self w with
                  | Return _ w' => Built built w'
                  | Raise e w' => Failed (Propagated e) w'
                  | Running => Unfinished
                  end
                else Built built w
            end
        end.

(** [H5_Nested_Store('/data')]: the defaults of [__init__]. *)
Definition default_args : init_args :=
  {| arg_path := ["data"];
     arg_normalize_keys := false;
     arg_dimension_separator := Some "/";
     arg_write_direct := true;
     arg_swmr := false;
     arg_container_ext := "h5";
     arg_distribuited_lock := false;
     arg_consolidate := false;
     arg_consolidate_depth := 3;
     arg_consolidate_parallel := true;
     arg_auto_verify_write := false;
     arg_mode := "a" |}.

(** No [distributed] at hand. *)
Definition no_cluster : cluster :=
  {| distributed_importable := false; worker_client := λ _, false |}.

(** ** [examples/migrate_s3_store_to_local_h5_nested_store_recompress_arrays.py]

    The two helpers that cut an array into the slices of its chunks.  Python
    integers are unbounded: [Z], with [//] and [%] as [Z.div] and
    [Z.modulo]. *)

(** [itertools.product] of the lists [ls], in its order. *)
Definition product (ls : list (list Z)) : list (list Z) :=
  foldr (λ l acc, a ← l; t ← acc; [a :: t]) [[]] ls.

(** [chunk_generator(array_shape, chunk_shape)]: the index tuples and
    [max_chunks]; [None] is the [ZeroDivisionError] of [x//y]. *)
Definition chunk_generator (array_shape chunk_shape : list Z)
  : option (list (list Z) * list Z) :=
  if existsb (λ '(x, y), bool_decide (y = 0)) (zip array_shape chunk_shape) then None
  else
    let chunks := (λ '(x, y), x `div` y) <$> zip array_shape chunk_shape in
    let mod_ := (λ '(x, y), x `mod` y) <$> zip array_shape chunk_shape in
    let chunks := (λ '(c, m), if bool_decide (m = 0) then c else c + 1)
                    <$> zip chunks mod_ in
    let max_chunks := chunks in
    let chunks := (λ x, seqZ 0 (x + 1)) <$> chunks in
    Some (product chunks, max_chunks).

(** [chunk_to_slice(chunk, array_shape, chunk_shape)]: [slice(x, y)] is the
    pair [(x, y)]. *)
Definition chunk_to_slice (chunk array_shape chunk_shape : list Z) : list (Z * Z) :=
  let chunks_start := (λ '(x, y), x * y) <$> zip chunk chunk_shape in
  let chunks_stop :=
    (λ '(x, y, z), if bool_decide (x + y < z) then x + y else z)
      <$> zip (zip chunks_start chunk_shape) array_shape in
  zip chunks_start chunks_stop.

(** [H5_Nested_Store('/data/a/.zarray')]: the path of a file. *)
Definition args_path_of_a_file : init_args :=
  {| arg_path := ["data"; "a"; ".zarray"];
     arg_normalize_keys := false;
     arg_dimension_separator := Some "/";
     arg_write_direct := true;
     arg_swmr := false;
     arg_container_ext := "h5";
     arg_distribuited_lock := false;
     arg_consolidate := false;
     arg_consolidate_depth := 3;
     arg_consolidate_parallel := true;
     arg_auto_verify_write := false;
     arg_mode := "a" |}.

(** [H5_Nested_Store('/data', dimension_separator=None, container_ext='')]. *)
Definition args_empty_extension : init_args :=
  {| arg_path := ["data"];
     arg_normalize_keys := false;
     arg_dimension_separator := None;
     arg_write_direct := true;
     arg_swmr := false;
     arg_container_ext := EmptyString;
     arg_distribuited_lock := false;
     arg_consolidate := false;
     arg_consolidate_depth := 3;
     arg_consolidate_parallel := true;
     arg_auto_verify_write := false;
     arg_mode := "a" |}.

(** [H5_Nested_Store('/data', container_ext='.h5')]. *)
Definition args_dotted_extension : init_args :=
  {| arg_path := ["data"];
     arg_normalize_keys := false;
     arg_dimension_separator := Some "/";
     arg_write_direct := true;
     arg_swmr := false;
     arg_container_ext := ".h5";
     arg_distribuited_lock := false;
     arg_consolidate := false;
     arg_consolidate_depth := 3;
     arg_consolidate_parallel := true;
     arg_auto_verify_write := false;
     arg_mode := "a" |}.
(** ** Properties of the string and path operations *)

Lemma append_assoc (a b c : string) : (a +:+ b) +:+ c = a +:+ (b +:+ c).
Proof.
  induction a as [|x a IH]; [done|].
  change (String x ((a +:+ b) +:+ c) = String x (a +:+ b +:+ c)). by rewrite IH.
Qed.

Lemma append_empty_r (a : string) : a +:+ EmptyString = a.
Proof.
  induction a as [|x a IH]; [done|].
  change (String x (a +:+ EmptyString) = String x a). by rewrite IH.
Qed.

Lemma split_snoc (p : fspath) (s : string) : posixpath.split (p ++ [s]) = (p, s).
Proof. unfold posixpath.split. by rewrite reverse_snoc, reverse_involutive. Qed.

Lemma add_suffix_snoc (p : fspath) (s suffix : string) :
  posixpath.add_suffix (p ++ [s]) suffix = p ++ [s +:+ suffix].
Proof. unfold posixpath.add_suffix. by rewrite reverse_snoc, reverse_involutive. Qed.

Lemma dotted_snoc (coords : list string) (c key : string) :
  dotted (coords ++ [c]) +:+ key = dotted coords +:+ "." +:+ c +:+ key.
Proof.
  induction coords as [|d coords IH].
  - change (("." +:+ c +:+ EmptyString) +:+ key = "." +:+ c +:+ key).
    by rewrite !append_assoc.
  - change (dotted ((d :: coords) ++ [c]))
      with ("." +:+ d +:+ dotted (coords ++ [c])).
    change (dotted (d :: coords)) with ("." +:+ d +:+ dotted coords).
    rewrite !append_assoc. by rewrite IH.
Qed.

Lemma archive_key_loop_spec (n : nat) :
  ∀ (coords : list string) (prefix : fspath) (key : string),
    length coords = n →
    _archive_key_loop n (prefix ++ coords) key = (prefix, dotted coords +:+ key).
Proof.
  induction n as [|n IH]; intros coords prefix key Hlen.
  - destruct coords; [|done]. by rewrite app_nil_r.
  - destruct (decide (coords = [])) as [->|Hne]; [done|].
    destruct (exists_last Hne) as (coords' & c & ->).
    rewrite length_app in Hlen. simpl in Hlen.
    cbn [_archive_key_loop]. rewrite app_assoc, split_snoc.
    rewrite IH by lia. by rewrite dotted_snoc.
Qed.

Lemma join_dotted (c : string) (coords : list string) :
  pystr.join "." (c :: coords) = c +:+ dotted coords.
Proof.
  revert c. induction coords as [|d coords IH]; intros c.
  - simpl. by rewrite append_empty_r.
  - change (pystr.join "." (c :: d :: coords))
      with (c +:+ "." +:+ pystr.join "." (d :: coords)).
    by rewrite IH.
Qed.

(** ** C3: the key/path codec *)

(** The codec takes [range(D - 2)] components off in its loop and one more
    after it. *)
Lemma archive_key_name_coords (self : H5_Nested_Store) (prefix : fspath)
    (coords : list string) :
  length coords = S (Z.to_nat (_consolidate_depth self - 2)) →
  _get_archive_key_name self (prefix ++ coords)
  = (posixpath.add_suffix prefix (container_ext self), pystr.join "." coords).
Proof.
  intros Hlen. unfold _get_archive_key_name.
  destruct coords as [|c coords]; [done|].
  rewrite (cons_middle c prefix coords), app_assoc.
  rewrite (archive_key_loop_spec _ coords (prefix ++ [c]) EmptyString)
    by (simpl in Hlen; lia).
  rewrite split_snoc, append_empty_r. by rewrite join_dotted.
Qed.

(** C3, as amended.  For a depth D of at least 2 and a path that ends in D-1
    components [coords], [_get_archive_key_name] gives the container path made
    of all components before them, the extension glued to the last of these,
    and the intra-container key made of the D-1 components joined by ['.']. *)
Theorem C3_archive_key_name (self : H5_Nested_Store) (prefix : fspath) (coords : list string) :
  2 ≤ _consolidate_depth self →
  Z.of_nat (length coords) = _consolidate_depth self - 1 →
  _get_archive_key_name self (prefix ++ coords)
  = (posixpath.add_suffix prefix (container_ext self), pystr.join "." coords).
Proof. intros HD Hlen. apply archive_key_name_coords. lia. Qed.

(** C3 as stated fails on the spec's own example: with D = 3 the key
    [array/0/0/4/6/7] goes to the container [array/0/0/4.h5] under the name
    ["6.7"], not to [array/0/0.h5] under ["4.6.7"]. *)
Lemma C3_counterexample :
  _get_archive_key_name default_store
    (posixpath.join (path default_store) "array/0/0/4/6/7")
  = (posixpath.join (path default_store) "array/0/0/4.h5", "6.7")
  ∧ _get_archive_key_name default_store
      (posixpath.join (path default_store) "array/0/0/4/6/7")
    ≠ (posixpath.join (path default_store) "array/0/0.h5", "4.6.7").
Proof. split; [by vm_compute | vm_compute; discriminate]. Qed.

(** The amended C3 on the spec's example. *)
Lemma C3_witness :
  _get_archive_key_name default_store (["data"; "array"; "0"; "0"; "4"] ++ ["6"; "7"])
  = (posixpath.add_suffix ["data"; "array"; "0"; "0"; "4"] ".h5",
     pystr.join "." ["6"; "7"]).
Proof. apply (C3_archive_key_name default_store); [simpl; lia | reflexivity]. Defined.

(** ** Reading: [__getitem__] *)

Lemma fromfile_stat env fn w n data :
  os.stat (fs w) fn = Some n → file_bytes env n = Some data →
  _fromfile env fn w = Return data w.
Proof. intros Hn Hb. unfold _fromfile. rewrite Hn. by destruct n; simplify_eq/=. Qed.

Lemma isfile_stat env t p n data :
  os.stat t p = Some n → file_bytes env n = Some data → os.isfile t p = true.
Proof. intros Hn Hb. unfold os.isfile. rewrite Hn. by destruct n. Qed.

Lemma fromh5_hdf5 archive key w c :
  os.stat (fs w) archive = Some (Hdf5File c) →
  _fromh5 archive key w
  = match c !! key with
    | Some data => Return data w
    | None => Raise (KeyError key) w
    end.
Proof.
  intros Hc. unfold _fromh5, mbind, M_bind, bind, h5py.open_r. rewrite Hc.
  by destruct (c !! key).
Qed.

(** The read of the container inside [__getitem__]: nothing comes of it when
    the lock it takes cannot be taken. *)
Lemma sharded_read env self archive h_key w :
  try_except
    (Some <$> (if _write_direct self && negb (bool_decide (mode self = "r"))
               then _read_direct_to_h5 env self archive h_key
               else _fromh5 archive h_key))
    any_exception (λ _, ret None) w
  = if read_locked_out env self then Return None w
    else try_except (Some <$> _fromh5 archive h_key) any_exception (λ _, ret None) w.
Proof.
  unfold read_locked_out, _read_direct_to_h5, with_lock.
  destruct (_write_direct self && negb (bool_decide (mode self = "r"))); [|done].
  destruct (distribuited self); [|done].
  by destruct (lock_available env).
Qed.

(** A file at the key's path is what [__getitem__] returns. *)
Lemma getitem_file env self key w n data :
  let filepath := posixpath.join (path self) (_normalize_key self key) in
  os.stat (fs w) filepath = Some n → file_bytes env n = Some data →
  __getitem__ env self key w = Return data w.
Proof.
  intros filepath Hn Hb. unfold __getitem__. fold filepath.
  unfold mbind, M_bind, bind, os_path_isfile.
  rewrite (isfile_stat env _ _ _ _ Hn Hb).
  unfold try_except, fmap, M_fmap, bind.
  by rewrite (fromfile_stat env _ _ _ _ Hn Hb).
Qed.

(** With no file at the key's path, the container's dataset for the key is
    what [__getitem__] returns. *)
Lemma getitem_dataset env self key w c data :
  let filepath := posixpath.join (path self) (_normalize_key self key) in
  read_locked_out env self = false →
  os.isfile (fs w) filepath = false →
  os.stat (fs w) (_get_archive_key_name self filepath).1 = Some (Hdf5File c) →
  c !! (_get_archive_key_name self filepath).2 = Some data →
  __getitem__ env self key w = Return data w.
Proof.
  intros filepath Hlock Hnofile Hst Hk. unfold __getitem__. fold filepath.
  unfold mbind, M_bind, bind, os_path_isfile. rewrite Hnofile. unfold ret at 1.
  destruct (_get_archive_key_name self filepath) as [archive h_key].
  cbn [fst snd] in *. unfold os.isfile. rewrite Hst.
  rewrite sharded_read, Hlock.
  unfold try_except, fmap, M_fmap, bind. rewrite (fromh5_hdf5 _ _ _ _ Hst), Hk.
  done.
Qed.

(** C2.  A file at the key's path is what [__getitem__] returns, whatever the
    container holds for the key; and a value that comes back when no file is
    at the key's path is the container's dataset for the key. *)
Theorem C2_raw_file_precedence (env : environment) (self : H5_Nested_Store)
    (key : string) (w : world) :
  let filepath := posixpath.join (path self) (_normalize_key self key) in
  let archive := (_get_archive_key_name self filepath).1 in
  let h_key := (_get_archive_key_name self filepath).2 in
  (∀ n data,
     os.stat (fs w) filepath = Some n → file_bytes env n = Some data →
     __getitem__ env self key w = Return data w)
  ∧ (∀ data w',
       __getitem__ env self key w = Return data w' →
       os.isfile (fs w) filepath = false →
       ∃ c, os.stat (fs w) archive = Some (Hdf5File c) ∧ c !! h_key = Some data).
Proof.
  intros filepath archive h_key. split.
  - intros n data Hn Hb. by eapply getitem_file.
  - intros data w' Hget Hnofile. unfold __getitem__ in Hget.
    fold filepath in Hget. revert Hget.
    unfold mbind, M_bind, bind, os_path_isfile. rewrite Hnofile.
    unfold ret at 1. subst archive h_key.
    destruct (_get_archive_key_name self filepath) as [archive h_key].
    cbn [fst snd].
    unfold os.isfile.
    destruct (os.stat (fs w) archive) as [[| b | c]|] eqn:Hst;
      try (unfold ret, raise; discriminate).
    + rewrite sharded_read. destruct (read_locked_out env self); [done|].
      unfold try_except, fmap, M_fmap, bind, _fromh5, mbind, M_bind, bind, h5py.open_r.
      rewrite Hst. unfold any_exception, ret, raise. discriminate.
    + rewrite sharded_read. destruct (read_locked_out env self); [done|].
      unfold try_except, fmap, M_fmap, bind.
      rewrite (fromh5_hdf5 _ _ _ _ Hst).
      destruct (c !! h_key) as [d|] eqn:Hk; unfold any_exception, ret, raise;
        [|discriminate].
      intros [= -> ->]. eauto.
Qed.

(** C2 on a tree where the key has a plain file holding [01] and a dataset
    holding [02]: the file's content comes back. *)
Lemma C2_witness :
  __getitem__ quiet default_store "a/0/0/1" world_both = Return [x01] world_both
  ∧ ∃ c, fs world_both !! ["data"; "a"; "0.h5"] = Some (Hdf5File c)
         ∧ c !! "0.1" = Some [x02].
Proof.
  split.
  - apply (proj1 (C2_raw_file_precedence quiet default_store "a/0/0/1" world_both)
             (RawFile [x01]) [x01]); by vm_compute.
  - eexists. split; by vm_compute.
Defined.

(** ** The tree under insertion and removal *)

Lemma stat_insert_ne t p q x : p ≠ q → os.stat (<[p := x]> t) q = os.stat t q.
Proof. intros Hne. destruct q; [done|]. simpl. by rewrite lookup_insert_ne. Qed.

Lemma stat_insert_eq t p x : p ≠ [] → os.stat (<[p := x]> t) p = Some x.
Proof. intros Hne. destruct p; [done|]. simpl. by rewrite lookup_insert_eq. Qed.

Lemma stat_lookup t p : p ≠ [] → os.stat t p = t !! p.
Proof. by destruct p. Qed.

Lemma isdir_stat t p : os.isdir t p = true ↔ os.stat t p = Some Dir.
Proof.
  unfold os.isdir. destruct (os.stat t p) as [[]|]; split; intros; simplify_eq; done.
Qed.

Lemma isdir_false_ne_root t p : os.isdir t p = false → p ≠ [].
Proof. by intros H ->. Qed.

Lemma dirname_snoc p s : os.dirname (p ++ [s]) = p.
Proof. unfold os.dirname. by rewrite split_snoc. Qed.

Lemma dirname_ne p : p ≠ [] → os.dirname p ≠ p.
Proof.
  intros Hne. destruct (exists_last Hne) as (q & s & ->). rewrite dirname_snoc.
  intros Heq. apply (f_equal length) in Heq. rewrite length_app in Heq.
  simpl in Heq. lia.
Qed.

(** ** Steps of a call *)

Lemma mbind_return {A B} (m : M A) (k : A → M B) w a w1 :
  m w = Return a w1 → (m ≫= k) w = k a w1.
Proof. intros H. unfold mbind, M_bind, bind. by rewrite H. Qed.

Lemma mbind_raise {A B} (m : M A) (k : A → M B) w e w1 :
  m w = Raise e w1 → (m ≫= k) w = Raise e w1.
Proof. intros H. unfold mbind, M_bind, bind. by rewrite H. Qed.

(** The block that replaces a dataset, for a value that has bytes and for
    one that has none. *)
Lemma replace_dataset_value archive key value f w :
  value ≠ [] →
  h5py.replace_dataset archive key value f w
  = Return tt {| fs := <[archive := Hdf5File (h5py.put key value f)]> (fs w);
                 ticks := ticks w |}.
Proof.
  intros Hv. unfold h5py.replace_dataset, h5py.create_dataset.
  by rewrite bool_decide_eq_false_2.
Qed.

Lemma replace_dataset_empty archive key f w :
  h5py.replace_dataset archive key [] f w
  = Raise ValueError {| fs := <[archive := Hdf5File (delete key f)]> (fs w);
                        ticks := ticks w |}.
Proof. done. Qed.
(** ** The write-then-verify loops *)

Section loops.

Context (env : environment) (self : H5_Nested_Store).
Hypothesis verify : auto_verify_write self = true.





(** A round of [_toh5] at a container that is open elsewhere: the failure to
    open it is caught, the read-back differs, and the loop goes on. *)
Lemma toh5_round_busy archive key value c w :
  os.stat (fs w) archive = Some (Hdf5File c) →
  h5_busy env (ticks w) = true →
  c !! key ≠ Some value →
  ∀ fuel,
    _toh5 env self (S fuel) archive key value w
    = _toh5 env self fuel archive key value (tick w).
Proof.
  intros Hst Hbusy Hne fuel. cbn [_toh5]. rewrite verify.
  rewrite (mbind_return _ _ w tt (tick w)).
  2: { unfold try_except, mbind, M_bind, bind, h5py.open_a. by rewrite Hst, Hbusy. }
  rewrite (mbind_return _ _ (tick w) false (tick w)); [done|].
  unfold try_except, mbind, M_bind, bind.
  rewrite fromh5_hdf5 with (c := c) by done.
  destruct (c !! key) as [d|] eqn:Hk; [|done].
  unfold ret. rewrite bool_decide_eq_false_2; [done|]. congruence.
Qed.

(** A round of [_toh5] at a free container, for a value that has bytes. *)
Lemma toh5_round_free archive key value c w :
  os.stat (fs w) archive = Some (Hdf5File c) →
  h5_busy env (ticks w) = false →
  value ≠ [] →
  ∀ fuel,
    _toh5 env self (S fuel) archive key value w
    = Return tt {| fs := <[archive := Hdf5File (h5py.put key value c)]> (fs w);
                   ticks := S (ticks w) |}.
Proof.
  intros Hst Hfree Hv fuel. cbn [_toh5]. rewrite verify.
  set (w1 := {| fs := <[archive := Hdf5File (h5py.put key value c)]> (fs w);
                ticks := S (ticks w) |}).
  rewrite (mbind_return _ _ w tt w1).
  2: { unfold try_except, mbind, M_bind, bind, h5py.open_a. rewrite Hst, Hfree.
       by rewrite replace_dataset_value. }
  rewrite (mbind_return _ _ w1 true w1); [done|].
  unfold try_except, mbind, M_bind, bind.
  rewrite fromh5_hdf5 with (c := h5py.put key value c).
  2: { cbn [fs w1]. apply stat_insert_eq. intros ->. done. }
  unfold h5py.put at 1. rewrite lookup_insert_eq. unfold ret.
  by rewrite bool_decide_eq_true_2.
Qed.


(** As long as the container is busy, the loop goes on and nothing is raised. *)
Lemma toh5_busy_running archive key value c n :
  ∀ w,
    os.stat (fs w) archive = Some (Hdf5File c) →
    c !! key ≠ Some value →
    (∀ i, (i < n)%nat → h5_busy env (ticks w + i) = true) →
    _toh5 env self n archive key value w = Running.
Proof.
  induction n as [|n IH]; intros w Hst Hne Hbusy; [done|].
  rewrite toh5_round_busy with (c := c); [|done| |done].
  2: { specialize (Hbusy 0%nat). rewrite Nat.add_0_r in Hbusy. apply Hbusy. lia. }
  apply IH; cbn [tick fs ticks]; [done..|].
  intros i Hi. replace (S (ticks w) + i)%nat with (ticks w + S i)%nat by lia.
  apply Hbusy. lia.
Qed.

(** The bytes are stored by the first round that finds the container free. *)
Lemma toh5_first_free archive key value c n :
  value ≠ [] →
  ∀ w,
    os.stat (fs w) archive = Some (Hdf5File c) →
    c !! key ≠ Some value →
    (∀ i, (i < n)%nat → h5_busy env (ticks w + i) = true) →
    h5_busy env (ticks w + n) = false →
    ∀ fuel, (n < fuel)%nat →
      _toh5 env self fuel archive key value w
      = Return tt {| fs := <[archive := Hdf5File (h5py.put key value c)]> (fs w);
                     ticks := S (ticks w + n) |}.
Proof.
  intros Hv.
  induction n as [|n IH]; intros w Hst Hne Hbusy Hfree fuel Hfuel;
    (destruct fuel as [|fuel]; [lia|]).
  - rewrite Nat.add_0_r in Hfree. rewrite toh5_round_free with (c := c) by done.
    by rewrite Nat.add_0_r.
  - rewrite toh5_round_busy with (c := c); [|done| |done].
    2: { specialize (Hbusy 0%nat). rewrite Nat.add_0_r in Hbusy. apply Hbusy. lia. }
    rewrite IH; cbn [tick fs ticks]; [|done..| | |lia].
    + do 2 f_equal. lia.
    + intros i Hi. replace (S (ticks w) + i)%nat with (ticks w + S i)%nat by lia.
      apply Hbusy. lia.
    + replace (S (ticks w) + n)%nat with (ticks w + S n)%nat by lia. done.
Qed.


End loops.

(** ** C7: the write-then-verify loops *)



(** ** C6: a put into a container that is open elsewhere *)

Lemma split_nonempty (p : fspath) :
  p ≠ [] → ∃ q s, p = q ++ [s] ∧ posixpath.split p = (q, s).
Proof.
  intros Hne. destruct (exists_last Hne) as (q & s & ->).
  exists q, s. by rewrite split_snoc.
Qed.

(** [os.makedirs(d, exist_ok=True)] leaves a tree alone in which [d] is a
    directory that sits in a directory. *)
Lemma makedirs_existing_dir t d :
  os.isdir t d = true → os.exists_ t (os.dirname d) = true →
  os.makedirs t d true = inr t.
Proof.
  intros Hd Hpar. unfold os.makedirs.
  assert (os.mkdir t d = inl (OSError EEXIST)) as Hmk.
  { unfold os.mkdir. apply isdir_stat in Hd. by rewrite Hd. }
  destruct d as [|x d'] using rev_ind.
  - done.
  - clear IHd'. rewrite length_app, Nat.add_comm. cbn [length Nat.add os.makedirs_rec].
    rewrite split_snoc. rewrite dirname_snoc in Hpar. rewrite Hpar.
    rewrite andb_false_r. rewrite Hmk, Hd. done.
Qed.

Lemma well_formed_parent t p n :
  well_formed t → t !! p = Some n → os.isdir t (os.dirname p) = true.
Proof. intros Hwf Hp. exact (Hwf p n Hp). Qed.

Lemma well_formed_makedirs_parent t p n :
  well_formed t → os.stat t p = Some n → n ≠ Dir →
  os.makedirs t (os.dirname p) true = inr t.
Proof.
  intros Hwf Hp Hn.
  assert (p ≠ []) as Hne by (intros ->; simplify_eq/=).
  rewrite stat_lookup in Hp by done.
  pose proof (well_formed_parent _ _ _ Hwf Hp) as Hd.
  apply makedirs_existing_dir; [done|].
  destruct (decide (os.dirname p = [])) as [->|Hne']; [done|].
  pose proof Hd as Hd'. apply isdir_stat in Hd'. rewrite stat_lookup in Hd' by done.
  pose proof (well_formed_parent _ _ _ Hwf Hd') as Hdd.
  unfold os.exists_. apply isdir_stat in Hdd. by rewrite Hdd.
Qed.

(** Without verification one round is all there is: a busy container makes
    the put return normally with nothing stored. *)
Lemma toh5_unverified_busy_dropped env self archive key value c w fuel :
  auto_verify_write self = false →
  os.stat (fs w) archive = Some (Hdf5File c) →
  h5_busy env (ticks w) = true →
  _toh5 env self (S fuel) archive key value w = Return tt (tick w).
Proof.
  intros Hnv Hst Hbusy. cbn [_toh5]. rewrite Hnv.
  unfold mbind, M_bind, bind, try_except, h5py.open_a. by rewrite Hst, Hbusy.
Qed.

(** With the container in place in a well-formed tree, and the lock, if the
    store takes one, at hand, the put is the loop of [_toh5], as far as that
    loop raises nothing. *)
Lemma write_direct_is_toh5 env self file_path value c w fuel :
  let archive := (_get_archive_key_name self file_path).1 in
  let key := (_get_archive_key_name self file_path).2 in
  write_locked_out env self = false →
  well_formed (fs w) →
  os.stat (fs w) archive = Some (Hdf5File c) →
  (∀ e w', _toh5 env self fuel archive key value w ≠ Raise e w') →
  _write_direct_to_h5 env self fuel file_path value w
  = _toh5 env self fuel archive key value w.
Proof.
  intros archive key Hlock tree_ok container Hnoraise.
  unfold _write_direct_to_h5. subst archive key.
  destruct (_get_archive_key_name self file_path) as [archive key]. cbn [fst snd] in *.
  unfold mbind, M_bind, bind, on_tree.
  change (posixpath.split archive).1 with (os.dirname archive).
  rewrite (well_formed_makedirs_parent _ _ _ tree_ok container) by done.
  replace {| fs := fs w; ticks := ticks w |} with w by by destruct w.
  unfold write_locked_out in Hlock.
  destruct (distribuited self); [|done].
  unfold try_except, with_lock. cbn [andb] in Hlock.
  destruct (lock_available env); [|done].
  destruct (_toh5 env self fuel archive key value w) eqn:Hr; try done.
  by destruct (Hnoraise e w0).
Qed.

(** C6 as stated fails: with verification on and a container that stays
    busy, the put is neither given up with an error nor completed, however
    many rounds it is given. *)
Lemma C6_counterexample :
  ¬ (∃ fuel, _write_direct_to_h5 hostile verifying_store fuel
               ["data"; "a"; "0"; "0"; "1"] [x01] world_both ≠ Running).
Proof.
  intros [fuel Hstop]. apply Hstop.
  assert (_toh5 hostile verifying_store fuel ["data"; "a"; "0.h5"] "0.1" [x01]
            world_both = Running) as Hrun.
  { apply toh5_busy_running with (c := {[ "0.1" := [x02] ]});
      [done|by vm_compute| |done].
    rewrite lookup_singleton_eq. intros [=]. }
  rewrite write_direct_is_toh5 with (c := {[ "0.1" := [x02] ]}).
  - exact Hrun.
  - done.
  - apply (bool_decide_unpack (well_formed (fs world_both))). by vm_compute.
  - by vm_compute.
  - intros e w'.
    change (_get_archive_key_name verifying_store ["data"; "a"; "0"; "0"; "1"])
      with (["data"; "a"; "0.h5"], "0.1"). cbn [fst snd]. by rewrite Hrun.
Qed.

(** C6, as amended.  A put whose container is open elsewhere catches the
    failure to open it.  With write-verification on, the put is tried again
    after every read-back that fails: while the container stays busy the
    call is still running, after any number [n] of rounds, and surfaces no
    error; the bytes are stored by the first round that finds the container
    free, when the value has bytes.  This is for a store that takes no
    distributed lock or can take it. *)
Theorem C6_busy_put_retried_unbounded (env : environment) (self : H5_Nested_Store)
    (file_path : fspath) (value : bytes) (c : gmap string bytes) (w : world) (n : nat) :
  let archive := (_get_archive_key_name self file_path).1 in
  let key := (_get_archive_key_name self file_path).2 in
  auto_verify_write self = true →
  write_locked_out env self = false →
  well_formed (fs w) →
  os.stat (fs w) archive = Some (Hdf5File c) →
  c !! key ≠ Some value →
  (∀ i, (i < n)%nat → h5_busy env (ticks w + i) = true) →
  _write_direct_to_h5 env self n file_path value w = Running
  ∧ (h5_busy env (ticks w + n) = false →
     value ≠ [] →
     ∀ fuel, (n < fuel)%nat →
       _write_direct_to_h5 env self fuel file_path value w
       = Return tt {| fs := <[archive := Hdf5File (h5py.put key value c)]> (fs w);
                      ticks := S (ticks w + n) |}).
Proof.
  intros archive key Hverify Hlock Hwf Hst Hne Hbusy.
  assert (_toh5 env self n archive key value w = Running) as Hrun
    by by eapply toh5_busy_running.
  split.
  - rewrite write_direct_is_toh5 with (c := c); [done..|].
    intros e w'. fold archive key. by rewrite Hrun.
  - intros Hfree Hvalue fuel Hfuel.
    pose proof (toh5_first_free env self Hverify archive key value c n Hvalue w
                  Hst Hne Hbusy Hfree fuel Hfuel) as Hret.
    rewrite write_direct_is_toh5 with (c := c); [done..|].
    intros e w'. fold archive key. by rewrite Hret.
Qed.

(** The amended C6 on a container that is busy twice: two rounds leave the
    put running, the third stores the bytes. *)
Lemma C6_witness :
  _write_direct_to_h5 flaky verifying_store 2 ["data"; "a"; "0"; "0"; "1"] [x01]
    world_both = Running
  ∧ _write_direct_to_h5 flaky verifying_store 3 ["data"; "a"; "0"; "0"; "1"] [x01]
      world_both
    = Return tt
        {| fs := <[["data"; "a"; "0.h5"] :=
                     Hdf5File (h5py.put "0.1" [x01] {[ "0.1" := [x02] ]})]>
                   (fs world_both);
           ticks := 3 |}.
Proof.
  destruct (C6_busy_put_retried_unbounded flaky verifying_store
              ["data"; "a"; "0"; "0"; "1"] [x01] {[ "0.1" := [x02] ]} world_both 2)
    as [Hrun Hret].
  - done.
  - done.
  - apply (bool_decide_unpack (well_formed (fs world_both))). by vm_compute.
  - by vm_compute.
  - rewrite lookup_singleton_eq. intros [=].
  - intros i Hi. cbn. by rewrite bool_decide_eq_true_2 by lia.
  - split; [exact Hrun|]. apply Hret; [done|done|lia].
Defined.

(** ** C1: a value set and read back *)

(** C1 fails on the code.  A put into a container that cannot be opened is
    dropped without an error when verification is off: [__setitem__] returns
    normally, nothing is stored, and [__getitem__] raises [KeyError].  Once
    with a container that is busy at the one attempt, once with a directory
    at the container's path. *)
Theorem C1_set_dropped_then_get_fails (fuel : nat) :
  (__setitem__ busy_once default_store (S fuel) "a/0/0/1" [x01] world_sharded
   = Return tt (tick world_sharded)
   ∧ __getitem__ busy_once default_store "a/0/0/1" (tick world_sharded)
     = Raise (KeyError "a/0/0/1") (tick world_sharded))
  ∧ (__setitem__ quiet default_store (S fuel) "a/0/0/1" [x01] world_obstructed
     = Return tt world_obstructed
     ∧ __getitem__ quiet default_store "a/0/0/1" world_obstructed
       = Raise (KeyError "a/0/0/1") world_obstructed).
Proof. repeat split; by vm_compute. Qed.

(** ** C4: deleting a key *)

(** C4 fails on the code, both ways.  Deleting a key that has a plain file
    and no container removes the file and then raises [KeyError]; deleting a
    key that has neither a file nor a dataset, next to a container that
    exists, removes nothing and returns normally. *)
Theorem C4_delitem_not_found_follows_container :
  (__delitem__ quiet default_store "a/.zarray" world_rank6
   = Raise (KeyError "a/.zarray")
       {| fs := delete ["data"; "a"; ".zarray"] tree_rank6; ticks := 0 |})
  ∧ (os.isfile tree_sharded ["data"; "a"; "0"; "0"; "7"] = false
     ∧ __contains__ default_store "a/0/0/7" world_sharded
       = Return false world_sharded
     ∧ __delitem__ quiet default_store "a/0/0/7" world_sharded
       = Return tt (tick world_sharded)).
Proof. repeat split; by vm_compute. Qed.

(** ** C8: consolidating twice *)

(** C8 fails on the code for an array whose chunks lie 2D or more levels
    below the array root (here D = 3 and rank 6).  The first run moves the
    chunk into [a/0/1/2/3.h5] and leaves [keys()] as it was.  The second run
    finds that container file to be a flat file deep enough to migrate: it
    stores the container's bytes as the dataset ["2.3.h5"] of [a/0/1.h5] and
    removes the container, so [keys()] changes and the chunk is lost to
    [__getitem__]. *)
Theorem C8_second_run_migrates_the_container (image : gmap string bytes → bytes) :
  let env := nominal image in
  let once := {| fs := tree_rank6_once; ticks := 0 |} in
  let twice := {| fs := tree_rank6_twice image; ticks := 0 |} in
  consolidate env default_store world_rank6 = Return tt once
  ∧ keys default_store world_rank6 = Return ["a/.zarray"; "a/0/1/2/3/4/5"] world_rank6
  ∧ keys default_store once = Return ["a/.zarray"; "a/0/1/2/3/4/5"] once
  ∧ __getitem__ env default_store "a/0/1/2/3/4/5" once = Return [x01; x02] once
  ∧ get_unique_archive_locations default_store (fs once) = [["data"; "a"; "0"; "1.h5"]]
  ∧ consolidate env default_store once = Return tt twice
  ∧ keys default_store twice = Return ["a/.zarray"; "a/0/1/2/3/h5"] twice
  ∧ __getitem__ env default_store "a/0/1/2/3/4/5" twice
    = Raise (KeyError "a/0/1/2/3/4/5") twice.
Proof. repeat split; by vm_compute. Qed.

(** X6.  On the layout of the module's docstring (D = 3, rank 5) [consolidate]
    keeps the keys and what each key reads, and a second run finds nothing
    to migrate and changes nothing. *)
Lemma consolidate_twice_rank5 :
  let before := {| fs := tree_rank5; ticks := 0 |} in
  let once := {| fs := tree_rank5_once; ticks := 0 |} in
  consolidate quiet default_store before = Return tt once
  ∧ (∃ ks ks', keys default_store before = Return ks before
               ∧ keys default_store once = Return ks' once ∧ ks ≡ₚ ks')
  ∧ (∀ key, key ∈ ["a/.zarray"; "a/0/0/4/6/7"; "a/0/0/4/6/9"] →
            __getitem__ quiet default_store key once
            = match __getitem__ quiet default_store key before with
              | Return data _ => Return data once
              | _ => Running
              end)
  ∧ get_unique_archive_locations default_store (fs once) = []
  ∧ consolidate quiet default_store once = Return tt once.
Proof.
  split; [by vm_compute|]. split.
  { exists ["a/.zarray"; "a/0/0/4/6/9"; "a/0/0/4/6/7"],
           ["a/.zarray"; "a/0/0/4/6/7"; "a/0/0/4/6/9"].
    split; [by vm_compute|]. split; [by vm_compute|].
    apply perm_skip, perm_swap. }
  split.
  { intros key Hkey. repeat (apply elem_of_cons in Hkey as [->|Hkey]; [by vm_compute|]).
    by apply elem_of_nil in Hkey. }
  split; by vm_compute.
Qed.

(** ** Writing a plain file: the steps of [_setitem_nested] *)

Lemma string_length_append (a b : string) :
  String.length (a +:+ b) = (String.length a + String.length b)%nat.
Proof.
  induction a as [|x a IH]; [done|].
  change (S (String.length (a +:+ b)) = S (String.length a + String.length b)).
  by rewrite IH.
Qed.

(** The temporary name is never the file's name. *)
Lemma temp_name_ne (file_name hex : string) :
  file_name +:+ "." +:+ hex +:+ ".partial" ≠ file_name.
Proof.
  intros Heq. apply (f_equal String.length) in Heq.
  rewrite string_length_append in Heq.
  change (String.length ("." +:+ hex +:+ ".partial"))
    with (S (String.length (hex +:+ ".partial"))) in Heq.
  lia.
Qed.

Lemma dirname_prefix (p : fspath) : os.dirname p `prefix_of` p.
Proof.
  destruct (decide (p = [])) as [->|Hne]; [done|].
  destruct (exists_last Hne) as (q & s & ->). rewrite dirname_snoc.
  by apply prefix_app_r.
Qed.

Lemma mkdir_inv t p t' :
  os.mkdir t p = inr t' → t' = <[p := Dir]> t ∧ t !! p = None ∧ p ≠ [].
Proof.
  unfold os.mkdir. intros H.
  destruct (os.stat t p) eqn:Hp; [done|].
  destruct (os.stat t (os.dirname p)) as [[]|]; simplify_eq.
  split; [done|]. by destruct p.
Qed.

(** [os.makedirs] creates directories along [name], where nothing was, and
    touches nothing else. *)
Lemma makedirs_rec_frame n :
  ∀ t name exist_ok t',
    os.makedirs_rec n t name exist_ok = inr t' →
    ∀ q, t' !! q = t !! q
         ∨ (t !! q = None ∧ t' !! q = Some Dir ∧ q `prefix_of` name).
Proof.
  induction n as [|n IH]; intros t name exist_ok t' Hmk q.
  - cbn [os.makedirs_rec] in Hmk. destruct (posixpath.split name) as [head tail].
    destruct (os.mkdir t name) as [e|t2] eqn:Hm.
    + destruct (exist_ok && os.isdir t name); simplify_eq. by left.
    + simplify_eq. apply mkdir_inv in Hm as (-> & Hnone & _).
      destruct (decide (q = name)) as [->|Hne].
      * right. by rewrite lookup_insert_eq.
      * left. by rewrite lookup_insert_ne.
  - cbn [os.makedirs_rec] in Hmk.
    pose proof (dirname_prefix name) as Hpre. unfold os.dirname in Hpre.
    destruct (posixpath.split name) as [head tail]. cbn [fst] in Hpre.
    assert (∃ t1, (t1 = t ∨ os.makedirs_rec n t head exist_ok = inr t1)
                  ∧ match os.mkdir t1 name with
                    | inl e => if exist_ok && os.isdir t1 name then inr t1 else inl e
                    | inr t2 => inr t2
                    end = inr t') as (t1 & Ht1 & Hlast).
    { destruct (negb (bool_decide (tail = EmptyString)) && negb (os.exists_ t head)).
      - destruct (os.makedirs_rec n t head exist_ok) as [[k|[]| |]|t1] eqn:Hrec;
          try done; eauto.
      - eauto. }
    assert (∀ q, t1 !! q = t !! q
                 ∨ (t !! q = None ∧ t1 !! q = Some Dir ∧ q `prefix_of` name)) as Hq1.
    { intros q'. destruct Ht1 as [->|Hrec]; [by left|].
      destruct (IH _ _ _ _ Hrec q') as [?|(? & ? & ?)]; [by left|right].
      split; [done|]. split; [done|]. by etrans. }
    destruct (os.mkdir t1 name) as [e|t2] eqn:Hm.
    + destruct (exist_ok && os.isdir t1 name); simplify_eq. done.
    + simplify_eq. apply mkdir_inv in Hm as (-> & Hnone & _).
      destruct (decide (q = name)) as [->|Hne].
      * right. rewrite lookup_insert_eq. split; [|done].
        destruct (Hq1 name) as [Heq|(? & ? & ?)]; congruence.
      * rewrite lookup_insert_ne by done. apply Hq1.
Qed.

Lemma makedirs_frame t name exist_ok t' :
  os.makedirs t name exist_ok = inr t' →
  ∀ q, t' !! q = t !! q
       ∨ (t !! q = None ∧ t' !! q = Some Dir ∧ q `prefix_of` name).
Proof. apply makedirs_rec_frame. Qed.

(** What [_tofile] leaves when it returns: the last round's bytes at [fn],
    which are the bytes written when verification is on. *)
Lemma tofile_return env self fuel a fn :
  ∀ w w',
    _tofile env self fuel a fn w = Return tt w' →
    fn ≠ []
    ∧ ∃ k, fs w' = <[fn := RawFile (medium env k a)]> (fs w)
           ∧ (auto_verify_write self = true → medium env k a = a).
Proof.
  induction fuel as [|fuel IH]; intros w w' Hret; [done|].
  cbn [_tofile] in Hret. unfold mbind, M_bind, bind, open_wb_write in Hret.
  destruct (os.isdir (fs w) fn) eqn:Hnd; [done|].
  pose proof (isdir_false_ne_root _ _ Hnd) as Hne.
  destruct (os.stat (fs w) (os.dirname fn)) as [[]|]; try done.
  split; [done|].
  destruct (auto_verify_write self).
  - unfold _fromfile in Hret. cbn [fs] in Hret.
    rewrite stat_insert_eq in Hret by done.
    case_bool_decide.
    + unfold ret in Hret. simplify_eq. eauto.
    + apply IH in Hret as [_ (k & Hk & Hv)]. cbn [fs] in Hk.
      rewrite insert_insert_eq in Hk. eauto.
  - unfold ret in Hret. simplify_eq. eexists. split; [done|]. done.
Qed.

Lemma bind_raise_never_returns {A B} (c : M A) (e : exn) (w : world) (b : B) (w' : world) :
  bind c (λ _, raise e) w ≠ Return b w'.
Proof. unfold bind, raise. by destruct (c w). Qed.

(** What [os.replace] does when it succeeds. *)
Lemma replace_inv t src dst t' :
  os.replace t src dst = inr t' →
  dst ≠ []
  ∧ os.isdir t (os.dirname dst) = true
  ∧ ∃ n, os.stat t src = Some n ∧ n ≠ Dir ∧ t' = <[dst := n]> (delete src t).
Proof.
  unfold os.replace. intros H.
  destruct (os.stat t src) as [n|] eqn:Hsrc; [|done].
  destruct (os.isdir t dst) eqn:Hdst.
  { by destruct n. }
  destruct (os.isdir t (os.dirname dst)) eqn:Hpar.
  2: { by destruct n. }
  split; [by eapply isdir_false_ne_root|]. split; [done|].
  exists n. by destruct n; simplify_eq.
Qed.

(** What [_setitem_nested] leaves when it returns: the value in a plain file
    at [fp], inside a directory; apart from [fp], every entry is a directory
    on the way to [fp] or was there before, outside the directory tree that
    stood at [fp]. *)
Lemma setitem_nested_return env self fuel key fp value w w' :
  _setitem_nested env self fuel key fp value w = Return tt w' →
  fp ≠ []
  ∧ os.isdir (fs w') (os.dirname fp) = true
  ∧ (∃ k, fs w' !! fp = Some (RawFile (medium env k value))
          ∧ (auto_verify_write self = true → medium env k value = value))
  ∧ (∀ q n, q ≠ fp → fs w' !! q = Some n →
       (n = Dir ∧ q `prefix_of` os.dirname fp)
       ∨ (fs w !! q = Some n ∧ (os.isdir (fs w) fp = true → ¬ fp `prefix_of` q))).
Proof.
  unfold _setitem_nested, mbind, M_bind, bind, os_path_isdir.
  intros Hret.
  (* the directory in the way *)
  assert (∃ w1, (if os.isdir (fs w) fp
                 then on_tree (λ t, os.rmtree t fp) else ret tt) w = Return tt w1
                ∧ ∀ q n, fs w1 !! q = Some n →
                    fs w !! q = Some n
                    ∧ (os.isdir (fs w) fp = true → ¬ fp `prefix_of` q))
    as (w1 & Hw1 & Hframe1).
  { destruct (os.isdir (fs w) fp) eqn:Hisd.
    - unfold on_tree, os.rmtree. rewrite Hisd. eexists. split; [done|].
      cbn [fs]. intros q n [Hq Hp]%map_lookup_filter_Some. done.
    - exists w. split; [done|]. intros q n Hq. done. }
  rewrite Hw1 in Hret. clear Hw1.
  destruct (posixpath.split fp) as [dir_path file_name] eqn:Hsplit.
  unfold os_path_isfile, os_path_exists in Hret.
  destruct (os.isfile (fs w1) dir_path); [done|].
  (* the containing directory *)
  assert (∃ w2, (if os.exists_ (fs w1) dir_path then ret tt
                 else try_except (on_tree (λ t, os.makedirs t dir_path false))
                        is_OSError
                        (λ e, if bool_decide (e = OSError EEXIST) then ret tt
                              else raise (KeyError key))) w1 = Return tt w2
                ∧ ∀ q, fs w2 !! q = fs w1 !! q
                       ∨ (fs w1 !! q = None ∧ fs w2 !! q = Some Dir
                          ∧ q `prefix_of` dir_path))
    as (w2 & Hw2 & Hframe2).
  { destruct (os.exists_ (fs w1) dir_path).
    - exists w1. split; [done|]. by left.
    - unfold try_except, on_tree in Hret |- *.
      destruct (os.makedirs (fs w1) dir_path false) as [e|t2] eqn:Hmk.
      + destruct e as [k|c| |]; [done| |done|done].
        destruct c; try (cbn in Hret; done).
        exists w1. split; [done|]. by left.
      + eexists. split; [done|]. cbn [fs]. by eapply makedirs_frame. }
  rewrite Hw2 in Hret. clear Hw2.
  (* the temporary file and its move into place *)
  unfold uuid4, try_finally in Hret.
  set (temp_path := dir_path ++ [file_name +:+ "." +:+ uuid4_hex env (ticks w2)
                                   +:+ ".partial"]) in *.
  destruct (_tofile env self fuel value temp_path (tick w2)) as [[] w3| |] eqn:Hto;
    [|by apply bind_raise_never_returns in Hret|done].
  apply tofile_return in Hto as [Htemp (k & Hw3 & Hkept)]. cbn [tick fs] in Hw3.
  unfold on_tree in Hret.
  destruct (os.replace (fs w3) temp_path fp) as [e|t4] eqn:Hrep.
  { by apply bind_raise_never_returns in Hret. }
  apply replace_inv in Hrep as (Hfp & Hpar & n & Hsrc & Hn & ->).
  rewrite Hw3, stat_insert_eq in Hsrc by done. simplify_eq.
  destruct (split_nonempty fp Hfp) as (d & s & Hfp' & Hsplit').
  rewrite Hsplit in Hsplit'. simplify_eq.
  assert (temp_path ≠ d ++ [s]) as Hne.
  { unfold temp_path. intros Heq%app_inj_tail. destruct Heq as [_ Heq].
    by apply temp_name_ne in Heq. }
  unfold bind, os_path_exists, os.exists_ in Hret. cbn [fs] in Hret.
  rewrite stat_insert_ne, stat_lookup, lookup_delete_eq in Hret by done.
  unfold ret in Hret. simplify_eq. cbn [fs].
  split; [done|]. rewrite dirname_snoc. split; [|split].
  - rewrite dirname_snoc in Hpar. unfold os.isdir in *.
    rewrite stat_insert_ne; [|intros Heq; by apply (dirname_ne (d ++ [s]));
                               [|rewrite dirname_snoc]].
    destruct (decide (d = [])) as [->|Hd]; [done|].
    rewrite stat_lookup by done. rewrite stat_lookup in Hpar by done.
    rewrite lookup_delete_ne; [done|].
    unfold temp_path. intros Heq. apply (f_equal length) in Heq.
    rewrite length_app in Heq. simpl in Heq. lia.
  - exists k. by rewrite lookup_insert_eq.
  - intros q n Hq Hlook. rewrite lookup_insert_ne in Hlook by done.
    destruct (decide (q = temp_path)) as [->|Hqt].
    { by rewrite lookup_delete_eq in Hlook. }
    rewrite lookup_delete_ne, Hw3, lookup_insert_ne in Hlook by done.
    destruct (Hframe2 q) as [Heq|(_ & Hdir' & Hpre)].
    + right. apply Hframe1. congruence.
    + left. split; [congruence|done].
Qed.

(** ** Writing into a container: the steps of [_write_direct_to_h5] *)

Lemma add_suffix_ne_root p suffix : posixpath.add_suffix p suffix ≠ [].
Proof.
  unfold posixpath.add_suffix. destruct (reverse p); [done|].
  intros Heq. apply (f_equal length) in Heq. rewrite length_app in Heq.
  simpl in Heq. lia.
Qed.

Lemma archive_ne_root self p : (_get_archive_key_name self p).1 ≠ [].
Proof.
  unfold _get_archive_key_name.
  destruct (_archive_key_loop _ _ _) as [p1 k1].
  destruct (posixpath.split p1) as [p2 last]. apply add_suffix_ne_root.
Qed.

Lemma split_length p : length (posixpath.split p).1 = (length p - 1)%nat.
Proof.
  destruct (decide (p = [])) as [->|Hne]; [done|].
  destruct (exists_last Hne) as (q & s & ->). rewrite split_snoc, length_app.
  simpl. lia.
Qed.

Lemma archive_key_loop_length n :
  ∀ p key, (length (_archive_key_loop n p key).1 ≤ length p)%nat.
Proof.
  induction n as [|n IH]; intros p key; [done|]. cbn [_archive_key_loop].
  pose proof (split_length p) as Hlen.
  destruct (posixpath.split p) as [h t]. cbn [fst] in Hlen.
  etrans; [apply IH|]. lia.
Qed.

Lemma add_suffix_length p suffix :
  length (posixpath.add_suffix p suffix) = Nat.max 1 (length p).
Proof.
  destruct (decide (p = [])) as [->|Hne]; [done|].
  destruct (exists_last Hne) as (q & s & ->). rewrite add_suffix_snoc, !length_app.
  simpl. lia.
Qed.

(** The container's path is shorter than the path of any key that lies
    below a directory. *)
Lemma archive_shorter self p :
  (2 ≤ length p)%nat → (length (_get_archive_key_name self p).1 < length p)%nat.
Proof.
  intros Hlen. unfold _get_archive_key_name.
  pose proof (archive_key_loop_length
                (Z.to_nat (_consolidate_depth self - 2)) p EmptyString) as Hloop.
  destruct (_archive_key_loop _ p EmptyString) as [p1 k1]. cbn [fst] in Hloop.
  pose proof (split_length p1) as Hsplit.
  destruct (posixpath.split p1) as [p2 last]. cbn [fst] in *.
  rewrite add_suffix_length. lia.
Qed.

Lemma archive_ne_path self p : (2 ≤ length p)%nat → (_get_archive_key_name self p).1 ≠ p.
Proof.
  intros Hlen Heq. pose proof (archive_shorter self p Hlen) as Hlt.
  rewrite Heq in Hlt. lia.
Qed.

Lemma makedirs_isdir t name t' :
  os.makedirs t name true = inr t' → os.isdir t' name = true.
Proof.
  unfold os.makedirs. generalize (length name). intros n.
  destruct n as [|n]; cbn [os.makedirs_rec]; destruct (posixpath.split name) as [h tl].
  - destruct (os.mkdir t name) as [e|t2] eqn:Hmk.
    + cbn [andb]. destruct (os.isdir t name) eqn:Hd; [intros [=]; congruence|done].
    + intros [= <-]. apply mkdir_inv in Hmk as (-> & _ & Hne).
      unfold os.isdir. by rewrite stat_insert_eq.
  - match goal with
    | |- match ?made with _ => _ end = _ → _ => destruct made as [e|t1]; [done|]
    end.
    destruct (os.mkdir t1 name) as [e|t2] eqn:Hmk.
    + cbn [andb]. destruct (os.isdir t1 name) eqn:Hd; [intros [=]; congruence|done].
    + intros [= <-]. apply mkdir_inv in Hmk as (-> & _ & Hne).
      unfold os.isdir. by rewrite stat_insert_eq.
Qed.

Lemma put_put key value c : h5py.put key value (h5py.put key value c) = h5py.put key value c.
Proof.
  unfold h5py.put. apply map_eq. intros k.
  destruct (decide (k = key)) as [->|Hne].
  - by rewrite !lookup_insert_eq.
  - assert (key ≠ k) as Hne' by done.
    rewrite (lookup_insert_ne _ key k) by done.
    by rewrite (lookup_delete_ne _ key k) by done.
Qed.

Lemma put_lookup_ne key value c k : k ≠ key → h5py.put key value c !! k = c !! k.
Proof.
  intros Hne. assert (key ≠ k) as Hne' by done.
  unfold h5py.put. rewrite lookup_insert_ne by done.
  by rewrite lookup_delete_ne.
Qed.

Lemma left_by_replace_twice key value c :
  h5py.left_by_replace key value (h5py.left_by_replace key value c)
  = h5py.left_by_replace key value c.
Proof.
  unfold h5py.left_by_replace. case_bool_decide; [|apply put_put].
  apply map_eq. intros k. destruct (decide (k = key)) as [->|Hne].
  - by rewrite !lookup_delete_eq.
  - assert (key ≠ k) as Hne' by done. by rewrite !lookup_delete_ne.
Qed.

Lemma left_by_replace_lookup_ne key value c k :
  k ≠ key → h5py.left_by_replace key value c !! k = c !! k.
Proof.
  intros Hne. unfold h5py.left_by_replace. case_bool_decide.
  - assert (key ≠ k) as Hne' by done. by rewrite lookup_delete_ne.
  - by apply put_lookup_ne.
Qed.

(** The block of [_toh5] on open datasets: the file is closed on what the
    block leaves, and a value of no bytes is refused. *)
Lemma replace_dataset_cases archive key value f w :
  h5py.replace_dataset archive key value f w
  = let w1 := {| fs := <[archive := Hdf5File (h5py.left_by_replace key value f)]> (fs w);
                 ticks := ticks w |} in
    if bool_decide (value = []) then Raise ValueError w1 else Return tt w1.
Proof.
  unfold h5py.replace_dataset, h5py.create_dataset, h5py.left_by_replace.
  by case_bool_decide.
Qed.

(** One attempt of [_toh5] at the container ends, with a [ValueError] and
    nothing else if it raises, and then the value has no bytes.  It leaves
    every other path alone, and the container's path as it was or with the
    datasets that were (none if it made the container) after the block. *)
Lemma toh5_attempt env archive key value w :
  archive ≠ [] →
  ∃ o w1,
    try_except (f ← h5py.open_a env archive; h5py.replace_dataset archive key value f)
      is_OSError (λ _, ret tt) w = o
    ∧ (o = Return tt w1 ∨ (value = [] ∧ o = Raise ValueError w1))
    ∧ (∀ q, q ≠ archive → fs w1 !! q = fs w !! q)
    ∧ (fs w1 !! archive = fs w !! archive
       ∨ ∃ c, h5py.opens_on (fs w) archive c
              ∧ fs w1 !! archive = Some (Hdf5File (h5py.left_by_replace key value c))).
Proof.
  intros Hne.
  assert (∀ c w0, fs w0 !! archive = Some (Hdf5File c) → h5py.opens_on (fs w) archive c →
            (∀ q, q ≠ archive → fs w0 !! q = fs w !! q) →
            ∃ o w1,
              try_except (h5py.replace_dataset archive key value c)
                is_OSError (λ _, ret tt) w0 = o
              ∧ (o = Return tt w1 ∨ (value = [] ∧ o = Raise ValueError w1))
              ∧ (∀ q, q ≠ archive → fs w1 !! q = fs w !! q)
              ∧ (fs w1 !! archive = fs w !! archive
                 ∨ ∃ c, h5py.opens_on (fs w) archive c
                        ∧ fs w1 !! archive
                          = Some (Hdf5File (h5py.left_by_replace key value c))))
    as Hblock.
  { intros c w0 Hw0 Hopen Hother. unfold try_except.
    rewrite replace_dataset_cases. cbv zeta.
    eexists _, {| fs := <[archive := Hdf5File (h5py.left_by_replace key value c)]> (fs w0);
                  ticks := ticks w0 |}.
    split; [done|]. split; [|split].
    - case_bool_decide; [right|left]; done.
    - intros q Hq. cbn [fs]. rewrite lookup_insert_ne by done. by apply Hother.
    - right. exists c. cbn [fs]. by rewrite lookup_insert_eq. }
  unfold mbind, M_bind. unfold try_except at 1, bind, h5py.open_a.
  rewrite (stat_lookup _ _ Hne).
  destruct (fs w !! archive) as [[| [|b0 b] | c]|] eqn:Hst.
  - exists (Return tt w), w. by split_and!; [|left| |left].
  - apply (Hblock ∅).
    + cbn [fs]. by rewrite lookup_insert_eq.
    + right. eauto.
    + intros q Hq. cbn [fs]. by rewrite lookup_insert_ne.
  - exists (Return tt w), w. by split_and!; [|left| |left].
  - destruct (h5_busy env (ticks w)).
    + exists (Return tt (tick w)), (tick w). by split_and!; [|left| |left].
    + apply (Hblock c); [done|by left|done].
  - destruct (os.stat (fs w) (os.dirname archive)) as [[| b | c]|].
    + apply (Hblock ∅).
      * cbn [fs]. by rewrite lookup_insert_eq.
      * right. eauto.
      * intros q Hq. cbn [fs]. by rewrite lookup_insert_ne.
    + exists (Return tt w), w. by split_and!; [|left| |left].
    + exists (Return tt w), w. by split_and!; [|left| |left].
    + exists (Return tt w), w. by split_and!; [|left| |left].
Qed.

(** The read-back of [_toh5] changes nothing. *)
Lemma toh5_verify_world archive key value w :
  ∃ o, try_except
         (back ← _fromh5 archive key; ret (bool_decide (back = value)))
         is_KeyError (λ _, ret false) w = o
       ∧ final_world o = Some w.
Proof.
  unfold try_except, mbind, M_bind, bind, _fromh5, mbind, M_bind, bind, h5py.open_r.
  destruct (os.stat (fs w) archive) as [[| b | c]|]; try (eexists; split; done).
  destruct (c !! key); eexists; split; done.
Qed.

(** However [_toh5] ends, only the container's path can have changed, and
    there the container is as it was or holds what the block leaves of the
    datasets that were. *)
Lemma toh5_frame env self fuel archive key value :
  archive ≠ [] →
  ∀ w w',
    final_world (_toh5 env self fuel archive key value w) = Some w' →
    (∀ q, q ≠ archive → fs w' !! q = fs w !! q)
    ∧ (fs w' !! archive = fs w !! archive
       ∨ ∃ c, h5py.opens_on (fs w) archive c
              ∧ fs w' !! archive = Some (Hdf5File (h5py.left_by_replace key value c))).
Proof.
  intros Hne.
  induction fuel as [|fuel IH]; intros w w' Hfin; [done|].
  cbn [_toh5] in Hfin.
  destruct (toh5_attempt env archive key value w Hne)
    as (o & w1 & Hatt & Ho & Hother & Harch).
  destruct Ho as [->|[_ ->]].
  2: { rewrite (mbind_raise _ _ _ _ _ Hatt) in Hfin. cbn in Hfin. by simplify_eq. }
  rewrite (mbind_return _ _ _ _ _ Hatt) in Hfin.
  destruct (auto_verify_write self).
  2: { cbn in Hfin. by simplify_eq. }
  destruct (toh5_verify_world archive key value w1) as (o & Ho & Hfo).
  destruct o as [verified w2|e w2|]; cbn in Hfo; simplify_eq.
  - rewrite (mbind_return _ _ _ _ _ Ho) in Hfin. destruct verified.
    + cbn in Hfin. by simplify_eq.
    + apply IH in Hfin as [Hother' Harch']. split.
      * intros q Hq. rewrite Hother' by done. by apply Hother.
      * destruct Harch' as [Heq|(c' & Hc' & Hw')].
        { rewrite Heq. done. }
        destruct Harch as [Heq|(c & Hc & Hw1)].
        { right. exists c'. split; [|done]. unfold h5py.opens_on in *.
          by rewrite <- Heq. }
        right. exists c. split; [done|].
        destruct Hc' as [Hc'|[[Hc'|Hc'] _]]; [|congruence..].
        rewrite Hw1 in Hc'. injection Hc' as <-.
        by rewrite left_by_replace_twice in Hw'.
  - rewrite (mbind_raise _ _ _ _ _ Ho) in Hfin. cbn in Hfin. by simplify_eq.
Qed.

(** However [_write_direct_to_h5] ends, it has made directories where
    nothing was and changed nothing else outside the container's path; the
    container is as it was or holds what the block leaves. *)
Lemma write_direct_final env self fuel fp value w w' :
  final_world (_write_direct_to_h5 env self fuel fp value w) = Some w' →
  let archive := (_get_archive_key_name self fp).1 in
  let key := (_get_archive_key_name self fp).2 in
  (∀ q, q ≠ archive →
        fs w' !! q = fs w !! q ∨ (fs w !! q = None ∧ fs w' !! q = Some Dir))
  ∧ (fs w' !! archive = fs w !! archive
     ∨ ∃ c, h5py.opens_on (fs w) archive c
            ∧ fs w' !! archive = Some (Hdf5File (h5py.left_by_replace key value c))).
Proof.
  unfold _write_direct_to_h5. pose proof (archive_ne_root self fp) as Hroot.
  destruct (_get_archive_key_name self fp) as [archive key]. cbn [fst snd] in *.
  unfold mbind, M_bind, bind, on_tree.
  destruct (os.makedirs (fs w) (posixpath.split archive).1 true) as [e|t1] eqn:Hmk.
  { cbn. intros [= <-]. split; [by left|by left]. }
  pose proof (makedirs_frame _ _ _ _ Hmk) as Hframe.
  set (w1 := {| fs := t1; ticks := ticks w |}).
  intros Hret.
  assert (t1 !! archive = fs w !! archive) as Harch1.
  { destruct (Hframe archive) as [?|(_ & _ & Hpre)]; [done|].
    exfalso. change (posixpath.split archive).1 with (os.dirname archive) in Hpre.
    apply prefix_length in Hpre.
    destruct (exists_last Hroot) as (d & s & ->). rewrite dirname_snoc in Hpre.
    rewrite length_app in Hpre. simpl in Hpre. lia. }
  assert (w' = w1 ∨ final_world (_toh5 env self fuel archive key value w1) = Some w')
    as [->|Hfin].
  { destruct (distribuited self); [|by right].
    unfold try_except, with_lock, any_exception, ret in Hret.
    destruct (lock_available env).
    - right. destruct (_toh5 env self fuel archive key value w1); cbn in *; by simplify_eq.
    - left. cbn in Hret. by simplify_eq. }
  { cbn [fs w1]. split; [|by left].
    intros q Hq. destruct (Hframe q) as [Heq|(Hnone & Hdir & _)]; [by left|by right]. }
  apply (toh5_frame _ _ _ _ _ _ Hroot) in Hfin as [Hother Harch].
  cbn [fs w1] in *.
  split.
  - intros q Hq. rewrite Hother by done.
    destruct (Hframe q) as [Heq|(Hnone & Hdir & _)]; [by left|by right].
  - unfold h5py.opens_on in *. rewrite <- Harch1. exact Harch.
Qed.

(** Where the store takes the distributed lock and cannot, the put is
    dropped: the call returns once the container's directory is there, and
    nothing is written. *)
Lemma write_direct_locked_out_dropped env self fuel fp value w t1 :
  write_locked_out env self = true →
  os.makedirs (fs w) (os.dirname (_get_archive_key_name self fp).1) true = inr t1 →
  _write_direct_to_h5 env self fuel fp value w
  = Return tt {| fs := t1; ticks := ticks w |}.
Proof.
  unfold write_locked_out, _write_direct_to_h5. intros [Hd Hl%negb_true_iff]%andb_true_iff.
  destruct (_get_archive_key_name self fp) as [archive key]. cbn [fst].
  intros Hmk. unfold mbind, M_bind, bind, on_tree.
  change (posixpath.split archive).1 with (os.dirname archive).
  rewrite Hmk, Hd. unfold try_except, with_lock. by rewrite Hl.
Qed.

(** A container that is there and free, or can be made, takes a value that
    has bytes at the first round. *)
Lemma toh5_stores env self archive key value w fuel :
  value ≠ [] →
  archive ≠ [] →
  (∃ c, fs w !! archive = Some (Hdf5File c) ∧ h5_busy env (ticks w) = false)
  ∨ fs w !! archive = Some (RawFile [])
  ∨ (fs w !! archive = None ∧ os.stat (fs w) (os.dirname archive) = Some Dir) →
  ∃ c w1,
    _toh5 env self (S fuel) archive key value w = Return tt w1
    ∧ h5py.opens_on (fs w) archive c
    ∧ fs w1 = <[archive := Hdf5File (h5py.put key value c)]> (fs w).
Proof.
  intros Hv Hne Hcase.
  assert (∃ c w1,
            try_except (f ← h5py.open_a env archive;
                        h5py.replace_dataset archive key value f)
              is_OSError (λ _, ret tt) w = Return tt w1
            ∧ h5py.opens_on (fs w) archive c
            ∧ fs w1 = <[archive := Hdf5File (h5py.put key value c)]> (fs w))
    as (c & w1 & Hatt & Hopen & Hfs).
  { unfold try_except, mbind, M_bind, bind, h5py.open_a.
    rewrite (stat_lookup _ _ Hne).
    destruct Hcase as [(c & Hc & ->)|[Hc|[Hc ->]]]; rewrite Hc.
    - exists c. rewrite replace_dataset_value by done. eexists. split; [done|].
      split; [by left|done].
    - exists ∅. rewrite replace_dataset_value by done. eexists. split; [done|].
      split; [right; eauto|]. cbn [fs]. by rewrite insert_insert_eq.
    - exists ∅. rewrite replace_dataset_value by done. eexists. split; [done|].
      split; [right; eauto|]. cbn [fs]. by rewrite insert_insert_eq. }
  exists c, w1. split; [|done]. cbn [_toh5].
  rewrite (mbind_return _ _ _ _ _ Hatt).
  destruct (auto_verify_write self); [|done].
  unfold mbind, M_bind, bind, try_except.
  rewrite fromh5_hdf5 with (c := h5py.put key value c).
  2: { rewrite Hfs. by apply stat_insert_eq. }
  unfold h5py.put at 1. rewrite lookup_insert_eq. unfold ret.
  by rewrite bool_decide_eq_true_2.
Qed.

(** ** Where [os.makedirs] goes through *)

Lemma mkdir_or_there t name exist_ok :
  name ≠ [] →
  os.isdir t (os.dirname name) = true →
  os.isfile t name = false →
  exist_ok = true ∨ os.exists_ t name = false →
  ∃ t', match os.mkdir t name with
        | inl e => if exist_ok && os.isdir t name then inr t else inl e
        | inr t2 => inr t2
        end = inr t'
        ∧ os.isdir t' name = true.
Proof.
  intros Hne Hpar Hnf Hok. unfold os.mkdir.
  apply isdir_stat in Hpar. rewrite Hpar.
  unfold os.isfile, os.exists_, os.isdir in *.
  destruct (os.stat t name) as [[| b | c]|] eqn:Hold; try done.
  - destruct Hok as [->|?]; [|done]. exists t. by rewrite Hold.
  - eexists. split; [done|]. by rewrite stat_insert_eq.
Qed.

(** [os.makedirs(name)] goes through and leaves a directory at [name] where
    no component of [name] is the empty name, no file is at [name] or above
    it, and [name] may be there already or is not. *)
Lemma makedirs_creates t name :
  ∀ exist_ok,
    Forall (λ s, s ≠ EmptyString) name →
    (∀ q, q `prefix_of` name → os.isfile t q = false) →
    exist_ok = true ∨ os.exists_ t name = false →
    ∃ t', os.makedirs t name exist_ok = inr t' ∧ os.isdir t' name = true.
Proof.
  unfold os.makedirs.
  induction name as [|s p IH] using rev_ind; intros exist_ok Hnames Hfiles Hok.
  - destruct Hok as [->|Hex]; [|done]. by exists t.
  - rewrite length_app, Nat.add_1_r. cbn [os.makedirs_rec]. rewrite split_snoc.
    apply Forall_app in Hnames as [Hp Hs]. apply Forall_cons_1 in Hs as [Hs _].
    rewrite bool_decide_eq_false_2 by done. cbn [negb andb].
    assert (p ++ [s] ≠ []) as Hne by (by destruct p).
    pose proof (Hfiles (p ++ [s]) (reflexivity _)) as Hnf.
    pose proof (Hfiles p (prefix_app_r p p [s] (reflexivity _))) as Hnfp.
    destruct (os.exists_ t p) eqn:Hex; cbn [negb].
    + apply mkdir_or_there; [done| |done|done].
      rewrite dirname_snoc. unfold os.exists_, os.isfile, os.isdir in *.
      by destruct (os.stat t p) as [[]|].
    + destruct (IH exist_ok Hp) as (t1 & Hmk & Hd).
      { intros q Hq. apply Hfiles. by apply prefix_app_r. }
      { by right. }
      rewrite Hmk.
      assert (os.stat t1 (p ++ [s]) = os.stat t (p ++ [s])) as Hsame.
      { rewrite !stat_lookup by done.
        destruct (makedirs_rec_frame _ _ _ _ _ Hmk (p ++ [s])) as [?|(_ & _ & Hpre)];
          [done|].
        apply prefix_length in Hpre. rewrite length_app in Hpre. simpl in Hpre. lia. }
      apply mkdir_or_there.
      * done.
      * by rewrite dirname_snoc.
      * unfold os.isfile in *. by rewrite Hsame.
      * unfold os.exists_ in *. by rewrite Hsame.
Qed.

(** The paths at [p] and above it, read off the lengths. *)
Lemma no_file_above t p :
  forallb (λ n, negb (os.isfile t (take n p))) (seq 0 (S (length p))) = true →
  ∀ q, q `prefix_of` p → os.isfile t q = false.
Proof.
  intros Hall q [k ->]. rewrite forallb_forall in Hall.
  specialize (Hall (length q)). rewrite take_app_length in Hall.
  apply negb_true_iff, Hall, in_seq. rewrite length_app. lia.
Qed.

(** ** What a call keeps, however it ends *)

Lemma preserves_bind {A B : Type} I (m : M A) (k : A → M B) :
  preserves I m → (∀ a, preserves I (k a)) → preserves I (bind m k).
Proof.
  intros Hm Hk w w' HI. unfold bind.
  destruct (m w) as [a w1|e w1|] eqn:Hmw; [|cbn|done].
  - apply Hk. apply (Hm w); [done|by rewrite Hmw].
  - intros [= <-]. apply (Hm w); [done|by rewrite Hmw].
Qed.

Lemma preserves_ret {A : Type} I (a : A) : preserves I (ret a).
Proof. intros w w' HI [= <-]. done. Qed.

Lemma preserves_raise {A : Type} I (e : exn) : preserves I (raise e : M A).
Proof. intros w w' HI [= <-]. done. Qed.

Lemma preserves_try_except {A : Type} I (m : M A) caught h :
  preserves I m → (∀ e, preserves I (h e)) → preserves I (try_except m caught h).
Proof.
  intros Hm Hh w w' HI. unfold try_except.
  destruct (m w) as [a w1|e w1|] eqn:Hmw; [cbn|destruct (caught e); [|cbn]|done].
  - intros [= <-]. apply (Hm w); [done|by rewrite Hmw].
  - apply Hh. apply (Hm w); [done|by rewrite Hmw].
  - intros [= <-]. apply (Hm w); [done|by rewrite Hmw].
Qed.

Lemma preserves_try_finally {A : Type} I (m : M A) c :
  preserves I m → preserves I c → preserves I (try_finally m c).
Proof.
  intros Hm Hc w w' HI. unfold try_finally.
  destruct (m w) as [a w1|e w1|] eqn:Hmw; [| |done].
  - apply preserves_bind; [done|intros; apply preserves_ret|].
    apply (Hm w); [done|by rewrite Hmw].
  - apply preserves_bind; [done|intros; apply preserves_raise|].
    apply (Hm w); [done|by rewrite Hmw].
Qed.

Lemma preserves_on_tree I f :
  (∀ t t', I t → f t = inr t' → I t') → preserves I (on_tree f).
Proof.
  intros Hf w w' HI. unfold on_tree.
  destruct (f (fs w)) as [e|t'] eqn:Hfw; intros [= <-]; [done|].
  by apply (Hf (fs w)).
Qed.

Lemma preserves_tofile I env self fuel a fn :
  (∀ t b, I t → I (<[fn := RawFile b]> t)) →
  preserves I (_tofile env self fuel a fn).
Proof.
  intros Hins. induction fuel as [|fuel IH]; [done|].
  cbn [_tofile]. apply preserves_bind.
  - intros w w' HI. unfold open_wb_write.
    destruct (os.isdir (fs w) fn); [by intros [= <-]|].
    destruct (os.stat (fs w) (os.dirname fn)) as [[]|]; intros [= <-]; try done.
    by apply Hins.
  - intros _. destruct (auto_verify_write self); [|apply preserves_ret].
    apply preserves_bind.
    + intros w w' HI. unfold _fromfile.
      by destruct (os.stat (fs w) fn) as [[]|]; intros [= <-].
    + intros back. case_bool_decide; [apply preserves_ret|done].
Qed.

(** Once the directory tree at [fp] has gone, the rest of [_setitem_nested]
    puts nothing below [fp] and no directory at [fp], however it ends. *)
Lemma setitem_nested_final env self fuel key fp value w w' :
  fp ≠ [] →
  os.isdir (fs w) fp = true →
  final_world (_setitem_nested env self fuel key fp value w) = Some w' →
  (∀ q, fp `prefix_of` q → q ≠ fp → fs w' !! q = None)
  ∧ os.isdir (fs w') fp = false.
Proof.
  intros Hfp Hdir.
  set (I := λ t : gmap fspath node,
         (∀ q, fp `prefix_of` q → q ≠ fp → t !! q = None) ∧ t !! fp ≠ Some Dir).
  intros Hfin. cut (I (fs w')).
  { intros [Hbelow Hnd]. split; [done|]. unfold os.isdir.
    rewrite stat_lookup by done. by destruct (fs w' !! fp) as [[]|]. }
  revert Hfin. unfold _setitem_nested, mbind, M_bind.
  unfold bind at 1 2, os_path_isdir. rewrite Hdir.
  unfold on_tree at 1, os.rmtree. rewrite Hdir.
  destruct (split_nonempty fp Hfp) as (d & s & Hfp' & Hsplit). rewrite Hsplit.
  set (w1 := {| fs := filter (λ kv, ¬ fp `prefix_of` kv.1) (fs w); ticks := ticks w |}).
  assert (I (fs w1)) as HI1.
  { split.
    - intros q Hq _. apply map_lookup_filter_None. right. intros n _ Hn. by apply Hn.
    - intros [_ Hn]%map_lookup_filter_Some. by apply Hn. }
  assert (∀ q, q `prefix_of` d → ¬ fp `prefix_of` q) as Habove.
  { intros q Hq Hp. apply prefix_length in Hq, Hp. rewrite Hfp', length_app in Hp.
    simpl in Hp. lia. }
  assert (∀ name, name ≠ s → ∀ t, I t → I (delete (d ++ [name]) t)) as Hdel.
  { intros name Hname t [Hbelow Hnd]. split.
    - intros q Hq Hne. apply lookup_delete_None. right. by apply Hbelow.
    - rewrite lookup_delete_ne; [done|]. rewrite Hfp'. intros Heq. apply app_inj_tail in Heq as [_ Heq]. done. }
  intros Hfin. generalize (Hfin). apply (λ H, H w1 w' HI1). clear Hfin.
  apply preserves_bind; [by intros ? ? ? [= <-]|]. intros dir_is_file.
  destruct dir_is_file; [apply preserves_raise|].
  apply preserves_bind; [by intros ? ? ? [= <-]|]. intros dir_exists.
  apply preserves_bind.
  { destruct dir_exists; [apply preserves_ret|].
    apply preserves_try_except.
    - apply preserves_on_tree. intros t t' [Hbelow Hnd] Hmk.
      pose proof (makedirs_frame _ _ _ _ Hmk) as Hframe. split.
      + intros q Hq Hne. destruct (Hframe q) as [->|(_ & _ & Hpre)]; [by apply Hbelow|].
        by destruct (Habove q Hpre).
      + destruct (Hframe fp) as [->|(_ & _ & Hpre)]; [done|].
        by destruct (Habove fp Hpre).
    - intros e. case_bool_decide; [apply preserves_ret|apply preserves_raise]. }
  intros _. apply preserves_bind; [by intros ? ? ? [= <-]|]. intros hex.
  set (temp_name := s +:+ "." +:+ hex +:+ ".partial").
  assert (temp_name ≠ s) as Htemp by apply temp_name_ne.
  assert (d ++ [temp_name] ≠ fp) as Htp.
  { rewrite Hfp'. intros Heq. apply app_inj_tail in Heq as [_ Heq]. done. }
  assert (¬ fp `prefix_of` d ++ [temp_name]) as Htb.
  { intros [k Hk]. rewrite Hfp' in Hk. apply (f_equal length) in Hk as Hlen.
    rewrite !length_app in Hlen. simpl in Hlen. destruct k; [|simpl in Hlen; lia].
    rewrite app_nil_r in Hk. apply app_inj_tail in Hk as [_ Hk]. done. }
  apply preserves_try_finally.
  - apply preserves_bind.
    + apply preserves_tofile. intros t b [Hbelow Hnd]. split.
      * intros q Hq Hne. rewrite lookup_insert_ne; [by apply Hbelow|].
        intros <-. done.
      * by rewrite lookup_insert_ne.
    + intros _. apply preserves_on_tree. intros t t' HI Hrep.
      apply replace_inv in Hrep as (_ & _ & n & _ & Hn & ->).
      apply (Hdel temp_name Htemp) in HI as [Hbelow Hnd]. split.
      * intros q Hq Hne. rewrite lookup_insert_ne by done. by apply Hbelow.
      * rewrite lookup_insert_eq. congruence.
  - apply preserves_bind; [by intros ? ? ? [= <-]|]. intros left_over.
    destruct left_over; [|apply preserves_ret].
    apply preserves_on_tree. intros t t' HI. unfold os.remove.
    destruct (os.stat t (d ++ [temp_name])) as [[]|]; intros [= <-];
      by apply Hdel.
Qed.

(** ** Where the two ways of writing go through *)

Lemma try_finally_return {A : Type} (m : M A) (c : M unit) w a w1 w2 :
  m w = Return a w1 → c w1 = Return tt w2 → try_finally m c w = Return a w2.
Proof. intros Hm Hc. unfold try_finally, bind. by rewrite Hm, Hc. Qed.

(** The first round of [_tofile] is the last where the medium keeps the
    bytes or nothing is verified. *)
Lemma tofile_writes env self fuel a fn w :
  os.isdir (fs w) fn = false →
  os.stat (fs w) (os.dirname fn) = Some Dir →
  (auto_verify_write self = true → medium env (ticks w) a = a) →
  _tofile env self (S fuel) a fn w
  = Return tt {| fs := <[fn := RawFile (medium env (ticks w) a)]> (fs w);
                 ticks := S (ticks w) |}.
Proof.
  intros Hnd Hpar Hkept. cbn [_tofile].
  unfold mbind, M_bind, bind, open_wb_write. rewrite Hnd, Hpar.
  destruct (auto_verify_write self); [|done].
  unfold _fromfile. cbn [fs].
  rewrite stat_insert_eq by (by eapply isdir_false_ne_root).
  by rewrite bool_decide_eq_true_2 by (by apply Hkept).
Qed.

(** Where no file is at the directory of [fp] or above it and no directory
    has the temporary file's name, [_setitem_nested] returns at the first
    round: what the medium keeps of the value is in a plain file at [fp],
    and the temporary file is gone. *)
Lemma setitem_nested_succeeds env self fuel key fp value w :
  let dir_path := (posixpath.split fp).1 in
  let file_name := (posixpath.split fp).2 in
  let temp_path :=
    dir_path ++ [file_name +:+ "." +:+ uuid4_hex env (ticks w) +:+ ".partial"] in
  fp ≠ [] →
  Forall (λ s, s ≠ EmptyString) dir_path →
  (∀ q, q `prefix_of` dir_path → os.isfile (fs w) q = false) →
  os.isdir (fs w) temp_path = false →
  (auto_verify_write self = true → medium env (S (ticks w)) value = value) →
  ∃ w', _setitem_nested env self (S fuel) key fp value w = Return tt w'
        ∧ fs w' !! fp = Some (RawFile (medium env (S (ticks w)) value))
        ∧ fs w' !! temp_path = None.
Proof.
  intros dir_path file_name temp_path Hfp Hnames Hfiles Htempdir Hkept.
  destruct (split_nonempty fp Hfp) as (d & s & Hfp' & Hsplit).
  subst dir_path file_name temp_path. rewrite Hsplit in *. cbn [fst snd] in *.
  destruct w as [t0 n0]. cbn [fs ticks] in *.
  set (temp_path := d ++ [s +:+ "." +:+ uuid4_hex env n0 +:+ ".partial"]) in *.
  assert (temp_path ≠ fp) as Htp.
  { rewrite Hfp'. intros Heq%app_inj_tail. destruct Heq as [_ Heq].
    by apply temp_name_ne in Heq. }
  assert (¬ fp `prefix_of` temp_path) as Htb.
  { intros [k Hk]. apply (f_equal length) in Hk as Hlen. unfold temp_path in Hlen.
    rewrite Hfp', !length_app in Hlen. simpl in Hlen. destruct k; [|simpl in Hlen; lia].
    rewrite app_nil_r in Hk. done. }
  assert (∀ q, q `prefix_of` d → ¬ fp `prefix_of` q) as Habove.
  { intros q Hq Hp. apply prefix_length in Hq, Hp. rewrite Hfp', length_app in Hp.
    simpl in Hp. lia. }
  assert (temp_path ≠ []) as Htne by (unfold temp_path; by destruct d).
  assert (¬ temp_path `prefix_of` d) as Htd.
  { intros Hp%prefix_length. unfold temp_path in Hp. rewrite length_app in Hp.
    simpl in Hp. lia. }
  assert (¬ fp `prefix_of` d) as Hfd by (by apply Habove).
  (* the directory in the way *)
  unfold _setitem_nested, mbind, M_bind. unfold bind at 1 2, os_path_isdir.
  cbn [fs]. rewrite Hsplit.
  assert (∃ t1, (if os.isdir t0 fp then on_tree (λ t, os.rmtree t fp) else ret tt)
                  {| fs := t0; ticks := n0 |} = Return tt {| fs := t1; ticks := n0 |}
                ∧ (∀ q, ¬ fp `prefix_of` q → t1 !! q = t0 !! q)
                ∧ t1 !! fp ≠ Some Dir) as (t1 & -> & Hout1 & Hfp1).
  { destruct (os.isdir t0 fp) eqn:Hisd.
    - unfold on_tree, os.rmtree. cbn [fs ticks]. rewrite Hisd. eexists. split; [done|].
      split.
      + intros q Hq. destruct (t0 !! q) as [n|] eqn:Hold.
        * by apply map_lookup_filter_Some.
        * apply map_lookup_filter_None. by left.
      + intros [_ Hn]%map_lookup_filter_Some. by apply Hn.
    - exists t0. split; [done|]. split; [done|].
      unfold os.isdir in Hisd. rewrite stat_lookup in Hisd by done.
      intros Heq. by rewrite Heq in Hisd. }
  assert (∀ q, ¬ fp `prefix_of` q → os.stat t1 q = os.stat t0 q) as Hstat1.
  { intros q Hq. destruct q; [done|]. by apply Hout1. }
  (* the containing directory *)
  unfold bind at 1, os_path_isfile. cbn [fs].
  replace (os.isfile t1 d) with false.
  2: { unfold os.isfile. rewrite Hstat1 by done. symmetry. by apply Hfiles. }
  unfold bind at 1, os_path_exists. cbn [fs].
  assert (∃ t2, (if os.exists_ t1 d then ret tt
                 else try_except (on_tree (λ t, os.makedirs t d false)) is_OSError
                        (λ e, if bool_decide (e = OSError EEXIST) then ret tt
                              else raise (KeyError key)))
                  {| fs := t1; ticks := n0 |} = Return tt {| fs := t2; ticks := n0 |}
                ∧ os.isdir t2 d = true
                ∧ (∀ q, ¬ q `prefix_of` d → t2 !! q = t1 !! q)) as (t2 & Hmk & Hd2 & Hout2).
  { destruct (os.exists_ t1 d) eqn:Hex.
    - exists t1. split; [done|]. split; [|done].
      pose proof (Hfiles d (reflexivity _)) as Hnf.
      unfold os.exists_, os.isfile, os.isdir in *. rewrite Hstat1 in * by done.
      by destruct (os.stat t0 d) as [[]|].
    - destruct (makedirs_creates t1 d false Hnames) as (t2 & Hmk & Hd2).
      { intros q Hq. unfold os.isfile. rewrite Hstat1 by (by apply Habove).
        by apply Hfiles. }
      { by right. }
      exists t2. unfold try_except, on_tree. cbn [fs ticks]. rewrite Hmk.
      split; [done|]. split; [done|].
      intros q Hq. by destruct (makedirs_frame _ _ _ _ Hmk q) as [?|(_ & _ & ?)]. }
  unfold bind at 1. rewrite Hmk. clear Hmk.
  unfold bind at 1, uuid4, tick. cbn [fs ticks]. fold temp_path.
  (* the temporary file and its move into place *)
  set (kept := medium env (S n0) value).
  set (t3 := <[temp_path := RawFile kept]> t2).
  set (t4 := <[fp := RawFile kept]> (delete temp_path t3)).
  exists {| fs := t4; ticks := S (S n0) |}. split; [|split].
  - apply try_finally_return with (w1 := {| fs := t4; ticks := S (S n0) |}).
    + unfold bind. rewrite tofile_writes; cbn [fs ticks].
      * unfold on_tree, os.replace. cbn [fs ticks]. fold kept t3.
        unfold t3 at 1. rewrite stat_insert_eq by done.
        replace (os.isdir t3 fp) with false.
        2: { unfold os.isdir, t3. rewrite stat_insert_ne, stat_lookup by done.
             rewrite Hout2 by done. by destruct (t1 !! fp) as [[]|]. }
        replace (os.isdir t3 (os.dirname fp)) with true; [done|].
        rewrite Hfp', dirname_snoc. unfold os.isdir, t3.
        rewrite stat_insert_ne; [symmetry; exact Hd2|].
        unfold temp_path. intros Heq. apply (f_equal length) in Heq.
        rewrite length_app in Heq. simpl in Heq. lia.
      * unfold os.isdir. rewrite stat_lookup, Hout2, Hout1 by done.
        unfold os.isdir in Htempdir. by rewrite stat_lookup in Htempdir.
      * unfold temp_path. rewrite dirname_snoc. by apply isdir_stat.
      * done.
    + unfold bind, os_path_exists, os.exists_. cbn [fs]. unfold t4.
      by rewrite stat_insert_ne, stat_lookup, lookup_delete_eq by done.
  - cbn [fs]. unfold t4. by rewrite lookup_insert_eq.
  - cbn [fs]. unfold t4. rewrite lookup_insert_ne by done. by rewrite lookup_delete_eq.
Qed.

(** Where the container's directory can be made, the lock can be taken where
    one is used, and the container is free or can be made, a value that has
    bytes is in the container when [_write_direct_to_h5] returns, which it
    does at the first round. *)
Lemma write_direct_succeeds env self fuel fp value w :
  let archive := (_get_archive_key_name self fp).1 in
  let h_key := (_get_archive_key_name self fp).2 in
  value ≠ [] →
  write_locked_out env self = false →
  Forall (λ s, s ≠ EmptyString) (os.dirname archive) →
  (∀ q, q `prefix_of` os.dirname archive → os.isfile (fs w) q = false) →
  os.isdir (fs w) archive = false →
  (∀ b, fs w !! archive = Some (RawFile b) → b = []) →
  h5_busy env (ticks w) = false →
  ∃ c w', _write_direct_to_h5 env self (S fuel) fp value w = Return tt w'
          ∧ h5py.opens_on (fs w) archive c
          ∧ fs w' !! archive = Some (Hdf5File (h5py.put h_key value c)).
Proof.
  intros archive h_key. subst archive h_key. unfold _write_direct_to_h5.
  pose proof (archive_ne_root self fp) as Hroot.
  destruct (_get_archive_key_name self fp) as [archive h_key]. cbn [fst snd] in *.
  intros Hv Hlock Hnames Hfiles Hnodir Hraw Hfree.
  unfold mbind, M_bind. unfold bind at 1, on_tree.
  change (posixpath.split archive).1 with (os.dirname archive).
  destruct (makedirs_creates (fs w) (os.dirname archive) true Hnames Hfiles)
    as (t1 & Hmk & Hpar); [by left|]. rewrite Hmk.
  assert (t1 !! archive = fs w !! archive) as Harch1.
  { destruct (makedirs_frame _ _ _ _ Hmk archive) as [?|(_ & _ & Hpre)]; [done|].
    exfalso. apply prefix_length in Hpre.
    destruct (exists_last Hroot) as (d & s & Heq). rewrite Heq in Hpre.
    rewrite dirname_snoc, length_app in Hpre. simpl in Hpre. lia. }
  set (w1 := {| fs := t1; ticks := ticks w |}).
  destruct (toh5_stores env self archive h_key value w1 fuel Hv Hroot)
    as (c & w2 & Hput & Hopen & Hfs).
  { cbn [fs ticks w1]. rewrite Harch1.
    unfold os.isdir in Hnodir. rewrite stat_lookup in Hnodir by done.
    destruct (fs w !! archive) as [[| b | c]|] eqn:Hold.
    - done.
    - right. left. by rewrite (Hraw b).
    - left. eauto.
    - right. right. split; [done|]. by apply isdir_stat. }
  exists c, w2. split; [|split].
  - unfold write_locked_out in Hlock. destruct (distribuited self); [|done].
    unfold try_except, with_lock. cbn [andb negb] in Hlock.
    apply negb_false_iff in Hlock. by rewrite Hlock, Hput.
  - unfold h5py.opens_on in *. cbn [fs w1] in Hopen. by rewrite <- Harch1.
  - rewrite Hfs. by rewrite lookup_insert_eq.
Qed.

(** The directory of the container is the directory of the key's path or
    one above it. *)
Lemma dirname_mono (p q : fspath) : p `prefix_of` q → os.dirname p `prefix_of` os.dirname q.
Proof.
  intros [k ->]. destruct (decide (k = [])) as [->|Hk].
  - by rewrite app_nil_r.
  - destruct (exists_last Hk) as (k' & x & ->).
    rewrite app_assoc, dirname_snoc.
    etrans; [apply dirname_prefix|]. by apply prefix_app_r.
Qed.

Lemma archive_key_loop_prefix n :
  ∀ p key, (_archive_key_loop n p key).1 `prefix_of` p.
Proof.
  induction n as [|n IH]; intros p key; [done|]. cbn [_archive_key_loop].
  pose proof (dirname_prefix p) as Hpre. unfold os.dirname in Hpre.
  destruct (posixpath.split p) as [h t]. cbn [fst] in Hpre.
  etrans; [apply IH|done].
Qed.

Lemma dirname_add_suffix p suffix :
  os.dirname (posixpath.add_suffix p suffix) = os.dirname p.
Proof.
  destruct (decide (p = [])) as [->|Hne]; [done|].
  destruct (exists_last Hne) as (q & s & ->).
  by rewrite add_suffix_snoc, !dirname_snoc.
Qed.

Lemma archive_dirname_prefix self fp :
  os.dirname (_get_archive_key_name self fp).1 `prefix_of` os.dirname fp.
Proof.
  unfold _get_archive_key_name.
  pose proof (archive_key_loop_prefix
                (Z.to_nat (_consolidate_depth self - 2)) fp EmptyString) as Hloop.
  destruct (_archive_key_loop _ fp EmptyString) as [p1 k1]. cbn [fst] in Hloop.
  pose proof (dirname_prefix p1) as Hsplit. unfold os.dirname in Hsplit.
  destruct (posixpath.split p1) as [p2 last]. cbn [fst] in *.
  rewrite dirname_add_suffix. apply dirname_mono. by etrans.
Qed.

(** ** Dots in a key *)

Lemma split_ne_nil c s : pystr.split c s ≠ [].
Proof.
  destruct s as [|a s]; [done|]. cbn [pystr.split].
  destruct (decide (a = c)); [done|]. by destruct (pystr.split c s).
Qed.

(** A character other than the separator is in the text exactly when it is
    in one of the pieces. *)
Lemma contains_split (c sep : ascii) (s : string) :
  c ≠ sep →
  pystr.contains c s = existsb (pystr.contains c) (pystr.split sep s).
Proof.
  intros Hc. induction s as [|a s IH]; [done|].
  cbn [pystr.split pystr.contains].
  destruct (decide (a = sep)) as [->|Hsep].
  - destruct (decide (sep = c)); [congruence|]. by rewrite IH.
  - pose proof (split_ne_nil sep s) as Hnil.
    destruct (pystr.split sep s) as [|h t]; [done|].
    cbn [existsb pystr.contains] in *.
    destruct (decide (a = c)); [done|]. done.
Qed.

Lemma contains_components (s : string) :
  pystr.contains "." s = existsb (pystr.contains ".") (posixpath.components s).
Proof.
  unfold posixpath.components. rewrite (contains_split "." "/") by done.
  induction (pystr.split "/" s) as [|x l IH]; [done|].
  rewrite filter_cons. cbn [existsb]. destruct (decide (x ≠ EmptyString)) as [Hx|Hx].
  - cbn [existsb]. by rewrite IH.
  - apply dec_stable in Hx. subst x. by rewrite IH.
Qed.

(** Where the segments before the last have no dot, the key has a dot
    exactly when its last segment, the file name, has one. *)
Lemma contains_dot_name (key : string) :
  Forall (λ s, pystr.contains "." s = false) (posixpath.split (posixpath.components key)).1 →
  pystr.contains "." key = pystr.contains "." (posixpath.split (posixpath.components key)).2.
Proof.
  rewrite contains_components.
  destruct (decide (posixpath.components key = [])) as [->|Hne]; [done|].
  destruct (exists_last Hne) as (l & x & ->). rewrite split_snoc. cbn [fst snd].
  intros Hl. rewrite existsb_app. cbn [existsb]. rewrite orb_false_r.
  replace (existsb (pystr.contains ".") l) with false; [done|].
  symmetry. apply not_true_iff_false. intros (y & Hy & Hdot)%existsb_exists.
  rewrite Forall_forall in Hl. apply list_elem_of_In in Hy. apply Hl in Hy. congruence.
Qed.
(** ** C10: a directory in the way of a plain file *)

Lemma setitem_raw_branch env self fuel key value w :
  let key' := _normalize_key self key in
  let file_path := posixpath.join (path self) key' in
  _write_direct self && negb (pystr.contains "." key')
  && negb (os.isfile (fs w) file_path) = false →
  __setitem__ env self fuel key value w
  = _setitem_nested env self fuel key' file_path value w.
Proof.
  intros key' file_path Hguard. unfold __setitem__. fold key' file_path.
  unfold mbind at 1, M_bind at 1, bind at 1, os_path_isfile. by rewrite Hguard.
Qed.

Lemma setitem_direct_branch env self fuel key value w :
  let key' := _normalize_key self key in
  let file_path := posixpath.join (path self) key' in
  _write_direct self && negb (pystr.contains "." key')
  && negb (os.isfile (fs w) file_path) = true →
  __setitem__ env self fuel key value w
  = _write_direct_to_h5 env self fuel file_path value w.
Proof.
  intros key' file_path Hguard. unfold __setitem__. fold key' file_path.
  unfold mbind at 1, M_bind at 1, bind at 1, os_path_isfile. by rewrite Hguard.
Qed.

(** Nothing of the tree that stood at [fp] is left by a [_setitem_nested]
    that returns. *)
Lemma setitem_nested_clears env self fuel key fp value w w' :
  os.isdir (fs w) fp = true →
  _setitem_nested env self fuel key fp value w = Return tt w' →
  ∀ q, fp `prefix_of` q → q ≠ fp → fs w' !! q = None.
Proof.
  intros Hdir (Hfp & _ & _ & Hframe)%setitem_nested_return q Hpre Hq.
  destruct (fs w' !! q) as [n|] eqn:Hlook; [exfalso|done].
  destruct (Hframe q n Hq Hlook) as [[_ Hup]|[_ Hout]].
  - pose proof (prefix_length _ _ Hpre) as Hlen1.
    pose proof (prefix_length _ _ Hup) as Hlen2.
    destruct (exists_last Hfp) as (d & s & Heq). rewrite Heq in Hlen1, Hlen2.
    rewrite dirname_snoc in Hlen2. rewrite length_app in Hlen1. simpl in Hlen1. lia.
  - by apply Hout.
Qed.

(** C10.  [__setitem__] takes the plain-file path (direct writing is off, or
    the key has a dot) and a directory stands at the key's path.  Then,
    however the call ends, and so also when the write that follows fails, it
    leaves no entry below that path and no directory at it: the tree is
    removed first.  And where no file is at the directory of the path or
    above it, no directory has the temporary file's name and the medium
    keeps the bytes when they are verified, the call returns at its first
    round with what the medium kept of the value in a plain file at the
    path, and nothing below it. *)
Theorem C10_directory_in_the_way (env : environment) (self : H5_Nested_Store)
    (fuel : nat) (key : string) (value : bytes) (w : world) :
  let key' := _normalize_key self key in
  let file_path := posixpath.join (path self) key' in
  let dir_path := os.dirname file_path in
  let temp_path :=
    dir_path ++ [(posixpath.split file_path).2 +:+ "." +:+ uuid4_hex env (ticks w)
                 +:+ ".partial"] in
  file_path ≠ [] →
  os.isdir (fs w) file_path = true →
  _write_direct self = false ∨ pystr.contains "." key' = true →
  (∀ w', final_world (__setitem__ env self fuel key value w) = Some w' →
         (∀ q, file_path `prefix_of` q → q ≠ file_path → fs w' !! q = None)
         ∧ os.isdir (fs w') file_path = false)
  ∧ (Forall (λ s, s ≠ EmptyString) dir_path →
     (∀ q, q `prefix_of` dir_path → os.isfile (fs w) q = false) →
     os.isdir (fs w) temp_path = false →
     (auto_verify_write self = true → medium env (S (ticks w)) value = value) →
     ∃ w', __setitem__ env self (S fuel) key value w = Return tt w'
           ∧ fs w' !! file_path = Some (RawFile (medium env (S (ticks w)) value))
           ∧ ∀ q, file_path `prefix_of` q → q ≠ file_path → fs w' !! q = None).
Proof.
  intros key' file_path dir_path temp_path Hfp Hdir Hraw.
  assert (_write_direct self && negb (pystr.contains "." key')
          && negb (os.isfile (fs w) file_path) = false) as Hguard.
  { destruct Hraw as [-> | ->]; [done|]. by rewrite andb_false_r. }
  split.
  - intros w'. rewrite setitem_raw_branch by done. by apply setitem_nested_final.
  - intros Hnames Hfiles Htemp Hkept. rewrite setitem_raw_branch by done.
    destruct (setitem_nested_succeeds env self fuel key' file_path value w
                Hfp Hnames Hfiles Htemp Hkept) as (w' & Hret & Hfile & _).
    exists w'. split; [done|]. split; [done|].
    by eapply setitem_nested_clears.
Qed.

(** C10 on the rank-5 array: [store['a/0'] = b'\x09'] on the flat store
    removes the chunk files below [a/0] and leaves the one file. *)
Lemma C10_witness :
  fs world_rank5 !! ["data"; "a"; "0"; "0"; "4"; "6"; "7"] = Some (RawFile [x01])
  ∧ ∃ w', __setitem__ quiet flat_store 1 "a/0" [x09] world_rank5 = Return tt w'
          ∧ fs w' !! ["data"; "a"; "0"] = Some (RawFile [x09])
          ∧ ∀ q, ["data"; "a"; "0"] `prefix_of` q → q ≠ ["data"; "a"; "0"] →
                 fs w' !! q = None.
Proof.
  split; [by vm_compute|].
  destruct (C10_directory_in_the_way quiet flat_store 0 "a/0" [x09] world_rank5)
    as [_ Hwrites]; [done | by vm_compute | by left |].
  apply Hwrites.
  - by repeat constructor.
  - apply no_file_above. by vm_compute.
  - by vm_compute.
  - done.
Defined.

(** ** C5: which way [__setitem__] takes *)

(** C5 as stated fails: the key [a/0/0/1.5] is no metadata key by the
    claim's rule (its final segment does not start with a dot), direct
    writing is on and no file is at its path, yet the value goes to a plain
    file and the container is left alone. *)
Lemma C5_counterexample :
  _write_direct default_store = true
  ∧ final_segment_dot_prefixed "a/0/0/1.5" = false
  ∧ os.isfile (fs world_sharded) ["data"; "a"; "0"; "0"; "1.5"] = false
  ∧ __setitem__ quiet default_store 1 "a/0/0/1.5" [x01] world_sharded
    = Return tt {| fs := tree_sharded_dotted; ticks := 2 |}
  ∧ tree_sharded_dotted !! ["data"; "a"; "0"; "0"; "1.5"] = Some (RawFile [x01])
  ∧ tree_sharded_dotted !! ["data"; "a"; "0.h5"] = tree_sharded !! ["data"; "a"; "0.h5"].
Proof. repeat split; by vm_compute. Qed.

(** The guard tests the whole key and not the file name: the chunk key
    [v1.0/0/0/1], whose file name has no dot, goes to a plain file because
    of the dot in its first segment, and no container is made for it. *)
Lemma setitem_dotted_directory_goes_raw :
  pystr.contains "." (posixpath.split (posixpath.components "v1.0/0/0/1")).2 = false
  ∧ match __setitem__ quiet default_store 1 "v1.0/0/0/1" [x01] world_sharded with
    | Return _ w' =>
        fs w' !! ["data"; "v1.0"; "0"; "0"; "1"] = Some (RawFile [x01])
        ∧ fs w' !! ["data"; "v1.0"; "0.h5"] = None
    | _ => False
    end.
Proof. split; [by vm_compute|]. vm_compute. by split. Qed.

(** C5, as amended.  The key's segments before the last have no dot, no
    file is at the directory of the key's path or above it, and no name on
    the way is empty.
    Where direct writing is on, the last segment (the file name) has no dot
    and no file is at the key's path, [__setitem__] writes into the
    container: for a value that has bytes, a lock that can be taken where
    one is used, and a container that is free or can be made, the call
    returns at its first round, the container holds the datasets it had with
    the value under the key's name, and apart from the container nothing but
    directories is created.
    In every other case [__setitem__] writes a plain file: where no
    directory has the temporary file's name and the medium keeps the bytes
    when they are verified, the call returns at its first round, what the
    medium kept of the value is in a plain file at the key's path, inside a
    directory, the temporary file is gone, and apart from that file nothing
    but directories is created: no container is written. *)
Theorem C5_setitem_branch (env : environment) (self : H5_Nested_Store)
    (fuel : nat) (key : string) (value : bytes) (w : world) :
  let key' := _normalize_key self key in
  let file_path := posixpath.join (path self) key' in
  let archive := (_get_archive_key_name self file_path).1 in
  let h_key := (_get_archive_key_name self file_path).2 in
  let dir_path := os.dirname file_path in
  let file_name := (posixpath.split (posixpath.components key')).2 in
  let temp_path :=
    dir_path ++ [(posixpath.split file_path).2 +:+ "." +:+ uuid4_hex env (ticks w)
                 +:+ ".partial"] in
  Forall (λ s, pystr.contains "." s = false)
    (posixpath.split (posixpath.components key')).1 →
  file_path ≠ [] →
  Forall (λ s, s ≠ EmptyString) dir_path →
  (∀ q, q `prefix_of` dir_path → os.isfile (fs w) q = false) →
  (_write_direct self = true ∧ pystr.contains "." file_name = false
   ∧ os.isfile (fs w) file_path = false →
   value ≠ [] →
   write_locked_out env self = false →
   os.isdir (fs w) archive = false →
   (∀ b, fs w !! archive = Some (RawFile b) → b = []) →
   h5_busy env (ticks w) = false →
   ∃ c w', __setitem__ env self (S fuel) key value w = Return tt w'
           ∧ h5py.opens_on (fs w) archive c
           ∧ fs w' !! archive = Some (Hdf5File (h5py.put h_key value c))
           ∧ ∀ q n, q ≠ archive → fs w' !! q = Some n → n = Dir ∨ fs w !! q = Some n)
  ∧ (_write_direct self = false ∨ pystr.contains "." file_name = true
     ∨ os.isfile (fs w) file_path = true →
     os.isdir (fs w) temp_path = false →
     (auto_verify_write self = true → medium env (S (ticks w)) value = value) →
     ∃ w', __setitem__ env self (S fuel) key value w = Return tt w'
           ∧ fs w' !! file_path = Some (RawFile (medium env (S (ticks w)) value))
           ∧ os.isdir (fs w') dir_path = true
           ∧ fs w' !! temp_path = None
           ∧ ∀ q n, q ≠ file_path → fs w' !! q = Some n → n = Dir ∨ fs w !! q = Some n).
Proof.
  intros key' file_path archive h_key dir_path file_name temp_path
    Hdots Hfp Hnames Hfiles.
  pose proof (contains_dot_name key' Hdots) as Hdot. fold file_name in Hdot.
  split.
  - intros (Hwd & Hnodot & Hnofile) Hv Hlock Hnodir Hraw Hfree.
    rewrite setitem_direct_branch.
    2: { fold key' file_path. by rewrite Hwd, Hdot, Hnodot, Hnofile. }
    fold key' file_path.
    pose proof (archive_dirname_prefix self file_path) as Hpre. fold archive dir_path in Hpre.
    destruct (write_direct_succeeds env self fuel file_path value w)
      as (c & w' & Hret & Hopen & Harch); try done.
    { fold archive. destruct Hpre as [k Hk]. rewrite Hk in Hnames.
      by apply Forall_app in Hnames as [? _]. }
    { fold archive. intros q Hq. apply Hfiles. by etrans. }
    exists c, w'. split; [done|]. split; [done|]. split; [done|].
    intros q n Hq Hlook.
    assert (final_world (_write_direct_to_h5 env self (S fuel) file_path value w)
            = Some w') as Hfin by (by rewrite Hret).
    apply write_direct_final in Hfin as [Hother _].
    destruct (Hother q Hq) as [Heq|(_ & Hd)]; [right|left]; congruence.
  - intros Hcase Htemp Hkept.
    rewrite setitem_raw_branch.
    2: { fold key' file_path. rewrite Hdot.
         destruct Hcase as [->|[->| ->]]; [done|by rewrite andb_false_r..]. }
    fold key' file_path.
    destruct (setitem_nested_succeeds env self fuel key' file_path value w
                Hfp Hnames Hfiles Htemp Hkept) as (w' & Hret & Hfile & Hgone).
    exists w'. split; [done|]. split; [done|].
    apply setitem_nested_return in Hret as (_ & Hdir & _ & Hframe).
    split; [done|]. split; [done|].
    intros q n Hq Hlook. destruct (Hframe q n Hq Hlook) as [[-> _]|[? _]]; eauto.
Qed.

(** The amended C5 on the sharded array: a key without a dot goes into the
    container, a key with a dot in its file name to a plain file. *)
Lemma C5_witness :
  (∃ c w', __setitem__ quiet default_store 1 "a/0/0/1" [x01] world_sharded = Return tt w'
           ∧ h5py.opens_on tree_sharded ["data"; "a"; "0.h5"] c
           ∧ fs w' !! ["data"; "a"; "0.h5"] = Some (Hdf5File (h5py.put "0.1" [x01] c)))
  ∧ (∃ w', __setitem__ quiet default_store 1 "a/0/0/1.5" [x01] world_sharded = Return tt w'
           ∧ fs w' !! ["data"; "a"; "0"; "0"; "1.5"] = Some (RawFile [x01])
           ∧ os.isdir (fs w') ["data"; "a"; "0"; "0"] = true).
Proof.
  split.
  - destruct (C5_setitem_branch quiet default_store 0 "a/0/0/1" [x01] world_sharded)
      as [Hdirect _].
    { by repeat constructor. }
    { done. }
    { by repeat constructor. }
    { apply no_file_above. by vm_compute. }
    destruct Hdirect as (c & w' & Hret & Hopen & Harch & _).
    { by vm_compute. }
    { done. }
    { done. }
    { by vm_compute. }
    { intros b. by vm_compute. }
    { done. }
    exists c, w'. split; [exact Hret|]. split; [exact Hopen|exact Harch].
  - destruct (C5_setitem_branch quiet default_store 0 "a/0/0/1.5" [x01] world_sharded)
      as [_ Hraw].
    { by repeat constructor. }
    { done. }
    { by repeat constructor. }
    { apply no_file_above. by vm_compute. }
    destruct Hraw as (w' & Hret & Hfile & Hdir & _).
    { right. left. by vm_compute. }
    { by vm_compute. }
    { done. }
    exists w'. split; [exact Hret|]. split; [exact Hfile|exact Hdir].
Defined.
(** ** C9: [getsize] *)

Lemma below_spec (p q r : fspath) : os.below p q = Some r ↔ q = p ++ r.
Proof.
  revert q. induction p as [|a p IH]; intros q; simpl.
  - split; [by intros [= ->]|by intros ->].
  - destruct q as [|b q]; [split; [done|by intros [=]]|].
    case_decide as Hab.
    + subst b. rewrite IH. split; [by intros ->|by intros [= ->]].
    + split; [done|]. intros [= -> _]. done.
Qed.

(** [os.scandir(p)] lists exactly the entries one level below [p]. *)
Lemma elem_of_scandir t p s n :
  (s, n) ∈ os.scandir t p ↔ t !! (p ++ [s]) = Some n.
Proof.
  unfold os.scandir. rewrite list_elem_of_omap. split.
  - intros ([q m] & Hin & Hsel). apply elem_of_map_to_list in Hin.
    destruct (os.below p q) as [r|] eqn:Hbelow; [|done].
    destruct r as [|s' [|]]; simplify_eq. by apply below_spec in Hbelow as ->.
  - intros Hlook. exists (p ++ [s], n). split; [by apply elem_of_map_to_list|].
    by rewrite (proj2 (below_spec p (p ++ [s]) [s]) eq_refl).
Qed.

(** An entry two or more levels below [p] is not listed. *)
Lemma scandir_insert_deeper t p deeper x :
  (2 ≤ length deeper)%nat →
  os.scandir (<[p ++ deeper := x]> t) p ≡ₚ os.scandir t p.
Proof.
  intros Hlen. unfold os.scandir.
  set (sel := λ '(q, n), match os.below p q with
                         | Some [s] => Some (s, n)
                         | _ => None
                         end : option (string * node)).
  assert (∀ y, sel (p ++ deeper, y) = None) as Hsel.
  { intros y. unfold sel. rewrite (proj2 (below_spec p (p ++ deeper) deeper) eq_refl).
    by destruct deeper as [|? [|? ?]]; simpl in Hlen; try lia. }
  assert (map_to_list (<[p ++ deeper := x]> t)
          ≡ₚ (p ++ deeper, x) :: map_to_list (delete (p ++ deeper) t)) as Hnew.
  { rewrite <- insert_delete_eq. apply map_to_list_insert, lookup_delete_eq. }
  assert (omap sel (map_to_list t)
          ≡ₚ omap sel (map_to_list (delete (p ++ deeper) t))) as Hold.
  { destruct (t !! (p ++ deeper)) as [y|] eqn:Hlook.
    - rewrite <- (map_to_list_delete t (p ++ deeper) y Hlook).
      cbn [omap list_omap]. by rewrite Hsel.
    - by rewrite delete_id. }
  rewrite Hnew, Hold. cbn [omap list_omap]. by rewrite Hsel.
Qed.

Section sizes_facts.

Context (env : environment).

(** The loop of [getsize] adds the size of every entry: a directory's
    counts for nothing. *)
Lemma getsize_loop_sum (children : list (string * node)) :
  ∀ size,
    fold_left (λ size child,
                 if is_file child.2 then size + st_size env child.2 else size)
              children size
    = size + sum_sizes env children.
Proof.
  induction children as [|[s n] children IH]; intros size; simpl; [lia|].
  rewrite IH. destruct n; unfold st_size; simpl; lia.
Qed.

Lemma sum_sizes_Permutation (l1 l2 : list (string * node)) :
  l1 ≡ₚ l2 → sum_sizes env l1 = sum_sizes env l2.
Proof.
  induction 1 as [|x l1 l2 _ IH|x y l|l1 l2 l3 _ IH1 _ IH2]; simpl; lia.
Qed.

End sizes_facts.

(** C9 as stated fails: of the array [a], whose metadata file has 2 bytes
    and whose two chunk files, three levels down, have 1 byte each,
    [getsize] reports 2, not the 4 bytes of all plain files below [a]. *)
Lemma C9_counterexample :
  getsize quiet default_store (Some "a") world_rank5 = Return 2 world_rank5
  ∧ raw_bytes_below tree_rank5 ["data"; "a"] = 4.
Proof. split; by vm_compute. Qed.

(** C9, as amended.  [getsize] of a path that is a file is the file's size
    in bytes; of a path that is a directory it is the sum of the sizes of
    the files directly inside (a container file counts with its size on
    disk, its datasets are not looked at): the entries added up are exactly
    those one level below, and an entry two or more levels below changes
    nothing; of a path that does not exist it is 0. *)
Theorem C9_getsize_one_level (env : environment) (self : H5_Nested_Store)
    (path_arg : option string) (store_path : string) (w : world) :
  zarr_util.normalize_storage_path path_arg = inr store_path →
  let fs_path :=
    if bool_decide (store_path = EmptyString) then path self
    else posixpath.join (path self) store_path in
  (∀ n b, os.stat (fs w) fs_path = Some n → file_bytes env n = Some b →
          getsize env self path_arg w = Return (Z.of_nat (length b)) w)
  ∧ (os.isdir (fs w) fs_path = true →
     getsize env self path_arg w
     = Return (sum_sizes env (os.scandir (fs w) fs_path)) w
     ∧ (∀ s n, (s, n) ∈ os.scandir (fs w) fs_path ↔ fs w !! (fs_path ++ [s]) = Some n)
     ∧ (∀ deeper x, (2 ≤ length deeper)%nat →
          let w' := {| fs := <[fs_path ++ deeper := x]> (fs w); ticks := ticks w |} in
          getsize env self path_arg w'
          = Return (sum_sizes env (os.scandir (fs w) fs_path)) w'))
  ∧ (os.stat (fs w) fs_path = None → getsize env self path_arg w = Return 0 w).
Proof.
  intros Hnorm fs_path. unfold getsize. rewrite Hnorm. fold fs_path.
  assert (∀ w0, os.isdir (fs w0) fs_path = true →
            (isf ← os_path_isfile fs_path;
             if isf : bool then os_path_getsize env fs_path
             else isd ← os_path_isdir fs_path;
                  if isd : bool then
                    children ← os_scandir fs_path;
                    ret (fold_left (λ size child,
                           if is_file child.2 then size + st_size env child.2 else size)
                         children 0)
                  else ret 0) w0
            = Return (sum_sizes env (os.scandir (fs w0) fs_path)) w0) as Hdircase.
  { intros w0 Hd. unfold mbind, M_bind, bind, os_path_isfile, os_path_isdir, os_scandir.
    apply isdir_stat in Hd. unfold os.isfile, os.isdir. rewrite Hd.
    cbn beta iota. rewrite Hd. unfold ret. by rewrite getsize_loop_sum. }
  split; [|split].
  - intros n b Hn Hb. unfold mbind, M_bind, bind, os_path_isfile.
    rewrite (isfile_stat env _ _ _ _ Hn Hb). unfold os_path_getsize, st_size.
    by rewrite Hn, Hb.
  - intros Hd. split; [by apply Hdircase|]. split; [apply elem_of_scandir|].
    intros deeper x Hlen. cbn zeta. rewrite Hdircase.
    + cbn [fs]. f_equal. apply sum_sizes_Permutation.
      by apply scandir_insert_deeper.
    + cbn [fs]. unfold os.isdir in *. rewrite stat_insert_ne; [done|].
      intros Heq. apply (f_equal length) in Heq. rewrite length_app in Heq. lia.
  - intros Hnone. unfold mbind, M_bind, bind, os_path_isfile, os_path_isdir,
      os.isfile, os.isdir. rewrite Hnone. cbn beta iota. by rewrite Hnone.
Qed.

(** The amended C9 on the rank-5 array: [getsize('a')] is 2, the size of the
    one file directly inside, and stays 2 when a file is put three levels
    down. *)
Lemma C9_witness :
  getsize quiet default_store (Some "a") world_rank5 = Return 2 world_rank5
  ∧ (let w' := {| fs := <[["data"; "a"] ++ ["0"; "0"; "extra"] := RawFile [x01; x02; x03]]>
                        tree_rank5;
                  ticks := 0 |} in
     getsize quiet default_store (Some "a") w' = Return 2 w').
Proof.
  destruct (C9_getsize_one_level quiet default_store (Some "a") "a" world_rank5 eq_refl)
    as (_ & Hdir & _).
  destruct (Hdir eq_refl) as (Hget & _ & Hdeep).
  split.
  - rewrite Hget. by vm_compute.
  - cbn zeta. etrans; [apply (Hdeep ["0"; "0"; "extra"]); simpl; lia|].
    by vm_compute.
Defined.

(** ** A value set and read back where nothing goes wrong *)

Lemma read_lock_of_write env self :
  write_locked_out env self = false → read_locked_out env self = false.
Proof.
  unfold write_locked_out, read_locked_out.
  destruct (distribuited self), (lock_available env); try done.
  all: by rewrite ?andb_false_r.
Qed.

(** A container that is free or can be made refuses a value of no bytes at
    the first round. *)
Lemma toh5_refuses_empty env self archive key w fuel :
  archive ≠ [] →
  (∃ c, fs w !! archive = Some (Hdf5File c) ∧ h5_busy env (ticks w) = false)
  ∨ fs w !! archive = Some (RawFile [])
  ∨ (fs w !! archive = None ∧ os.stat (fs w) (os.dirname archive) = Some Dir) →
  ∃ w1, _toh5 env self (S fuel) archive key [] w = Raise ValueError w1.
Proof.
  intros Hne Hcase. cbn [_toh5].
  destruct Hcase as [(c & Hc & Hfree)|[Hc|[Hc Hpar]]];
    eexists; apply mbind_raise;
    unfold try_except, mbind, M_bind, bind, h5py.open_a;
    rewrite (stat_lookup _ _ Hne), Hc, ?Hfree, ?Hpar;
    by rewrite replace_dataset_empty.
Qed.

(** X1, round trip.  Where the key lies below a directory, the medium keeps
    every byte (or verification is on), the container is not open elsewhere,
    nothing but a container stands at its path, and the store takes no
    distributed lock or can take it and is given a value that has bytes, a
    call of [__setitem__] that returns is followed by a [__getitem__] that
    returns the value set: for a key that goes into the container and for
    one that goes to a plain file alike. *)
Theorem roundtrip_when_nothing_fails (env : environment) (self : H5_Nested_Store)
    (fuel : nat) (key : string) (value : bytes) (w w' : world) :
  let key' := _normalize_key self key in
  let file_path := posixpath.join (path self) key' in
  let archive := (_get_archive_key_name self file_path).1 in
  (2 ≤ length file_path)%nat →
  auto_verify_write self = true ∨ (∀ n b, medium env n b = b) →
  h5_busy env (ticks w) = false →
  os.isdir (fs w) archive = false →
  (∀ b, os.stat (fs w) archive ≠ Some (RawFile b)) →
  write_locked_out env self = false →
  (distribuited self = true → value ≠ []) →
  __setitem__ env self fuel key value w = Return tt w' →
  __getitem__ env self key w' = Return value w'.
Proof.
  intros key' file_path archive. subst archive.
  pose proof (archive_ne_path self file_path) as Hne.
  pose proof (archive_ne_root self file_path) as Hroot.
  destruct (_get_archive_key_name self file_path) as [archive h_key] eqn:Hcodec.
  cbn [fst] in *. intros Hlen Hmedium Hfree Hnodir Hnoraw Hlock Hbytes.
  specialize (Hne Hlen).
  pose proof (read_lock_of_write env self Hlock) as Hrlock.
  assert (file_path ≠ []) as Hfp by (intros Heq; rewrite Heq in Hlen; simpl in Hlen; lia).
  unfold __setitem__. fold key' file_path.
  unfold mbind at 1, M_bind at 1, bind at 1, os_path_isfile.
  destruct (_write_direct self && negb (pystr.contains "." key')
            && negb (os.isfile (fs w) file_path)) eqn:Hcond.
  - (* into the container *)
    apply andb_true_iff in Hcond as [_ Hnofile%negb_true_iff].
    unfold _write_direct_to_h5. rewrite Hcodec.
    unfold mbind, M_bind, bind, on_tree.
    change (posixpath.split archive).1 with (os.dirname archive).
    destruct (os.makedirs (fs w) (os.dirname archive) true) as [e|t1] eqn:Hmk; [done|].
    pose proof (makedirs_frame _ _ _ _ Hmk) as Hframe.
    pose proof (makedirs_isdir _ _ _ Hmk) as Hpar.
    assert (t1 !! archive = fs w !! archive) as Harch1.
    { destruct (Hframe archive) as [?|(_ & _ & Hpre)]; [done|].
      exfalso. apply prefix_length in Hpre.
      destruct (exists_last Hroot) as (d & s & Heq). rewrite Heq in Hpre.
      rewrite dirname_snoc, length_app in Hpre. simpl in Hpre. lia. }
    set (w1 := {| fs := t1; ticks := ticks w |}).
    destruct fuel as [|fuel].
    { unfold write_locked_out in Hlock. destruct (distribuited self); [|done].
      apply negb_false_iff in Hlock. unfold try_except, with_lock.
      by rewrite Hlock. }
    assert ((∃ c, fs w1 !! archive = Some (Hdf5File c) ∧ h5_busy env (ticks w1) = false)
            ∨ fs w1 !! archive = Some (RawFile [])
            ∨ (fs w1 !! archive = None
               ∧ os.stat (fs w1) (os.dirname archive) = Some Dir)) as Hcase.
    { cbn [fs ticks w1]. rewrite Harch1.
      rewrite stat_lookup in Hnoraw by done.
      unfold os.isdir in Hnodir. rewrite stat_lookup in Hnodir by done.
      destruct (fs w !! archive) as [[| b | c]|] eqn:Hold.
      - done.
      - by destruct (Hnoraw b).
      - left. eauto.
      - right. right. split; [done|]. by apply isdir_stat. }
    unfold write_locked_out in Hlock.
    destruct (decide (value = [])) as [->|Hv].
    { destruct (distribuited self); [by destruct Hbytes|].
      destruct (toh5_refuses_empty env self archive h_key w1 fuel Hroot Hcase)
        as (w2 & ->). done. }
    destruct (toh5_stores env self archive h_key value w1 fuel Hv Hroot Hcase)
      as (c & w2 & Hput & _ & Hfs).
    intros Hret.
    assert (w' = w2) as ->.
    { destruct (distribuited self).
      - unfold try_except, with_lock in Hret. cbn [andb] in Hlock.
        apply negb_false_iff in Hlock. rewrite Hlock, Hput in Hret. by simplify_eq.
      - rewrite Hput in Hret. by simplify_eq. }
    apply getitem_dataset with (c := h5py.put h_key value c); fold key' file_path.
    + done.
    + unfold os.isfile. rewrite stat_lookup, Hfs, lookup_insert_ne by done.
      cbn [fs w1]. unfold os.isfile in Hnofile. rewrite stat_lookup in Hnofile by done.
      destruct (Hframe file_path) as [Heq|(_ & Hd & _)]; [by rewrite Heq|by rewrite Hd].
    + rewrite Hcodec. cbn [fst]. rewrite Hfs. by apply stat_insert_eq.
    + rewrite Hcodec. cbn [snd]. unfold h5py.put. by rewrite lookup_insert_eq.
  - (* to a plain file *)
    intros (_ & _ & (k & Hfile & Hkept) & _)%setitem_nested_return.
    apply getitem_file with (n := RawFile value); fold key' file_path; [|done].
    rewrite stat_lookup, Hfile by done. do 2 f_equal.
    destruct Hmedium as [Hv|Hkeep]; [by apply Hkept|by apply Hkeep].
Qed.

(** The round trip on the sharded array, into the container and to a plain
    file. *)
Lemma roundtrip_witness :
  __getitem__ quiet default_store "a/0/0/1" {| fs := tree_sharded_put; ticks := 1 |}
  = Return [x01] {| fs := tree_sharded_put; ticks := 1 |}
  ∧ __getitem__ quiet default_store "a/0/0/1.5" {| fs := tree_sharded_dotted; ticks := 2 |}
    = Return [x01] {| fs := tree_sharded_dotted; ticks := 2 |}.
Proof.
  split.
  - apply (roundtrip_when_nothing_fails quiet default_store 1 "a/0/0/1" [x01]
             world_sharded).
    + simpl. lia.
    + by right.
    + done.
    + by vm_compute.
    + intros b. by vm_compute.
    + done.
    + done.
    + by vm_compute.
  - apply (roundtrip_when_nothing_fails quiet default_store 1 "a/0/0/1.5" [x01]
             world_sharded).
    + simpl. lia.
    + by right.
    + done.
    + by vm_compute.
    + intros b. by vm_compute.
    + done.
    + done.
    + by vm_compute.
Defined.

(** ** A key deleted *)

(** The first step of [__delitem__] always goes through and leaves no file
    at the path. *)
Lemma delitem_removal p w :
  p ≠ [] →
  ∃ w1,
    os.isfile (fs w1) p = false
    ∧ ∀ B (k : unit → M B),
        (isf ← os_path_isfile p;
         (if isf : bool then on_tree (λ t, os.remove t p)
          else isd ← os_path_isdir p;
               if isd : bool then on_tree (λ t, os.rmtree t p) else ret tt) ≫= k) w
        = k tt w1.
Proof.
  intros Hne. unfold mbind, M_bind, bind, os_path_isfile, os_path_isdir, on_tree.
  destruct (os.isfile (fs w) p) eqn:Hf.
  - unfold os.remove. unfold os.isfile in Hf.
    destruct (os.stat (fs w) p) as [[| b | c]|]; try done;
      (eexists; split; [|done]); cbn [fs]; unfold os.isfile;
      by rewrite stat_lookup, lookup_delete_eq.
  - destruct (os.isdir (fs w) p) eqn:Hd.
    + unfold os.rmtree. rewrite Hd. eexists. split; [|done]. cbn [fs].
      unfold os.isfile. rewrite stat_lookup by done.
      rewrite map_lookup_filter_None_2; [done|]. right. intros n _ Hnot.
      by apply Hnot.
    + by exists w.
Qed.

(** A key with no file at its path and no dataset in its container is not
    contained, and reading it raises [KeyError]. *)
Lemma absent_key env self key w :
  let key' := _normalize_key self key in
  let file_path := posixpath.join (path self) key' in
  let archive := (_get_archive_key_name self file_path).1 in
  let h_key := (_get_archive_key_name self file_path).2 in
  os.isfile (fs w) file_path = false →
  os.isfile (fs w) archive = false
  ∨ (∃ c, os.stat (fs w) archive = Some (Hdf5File c) ∧ c !! h_key = None) →
  __contains__ self key w = Return false w
  ∧ __getitem__ env self key w = Raise (KeyError key') w.
Proof.
  intros key' file_path archive h_key Hnofile Hcase.
  unfold __contains__, __getitem__. fold key' file_path. subst archive h_key.
  destruct (_get_archive_key_name self file_path) as [archive h_key].
  cbn [fst snd] in Hcase.
  unfold mbind, M_bind, bind, os_path_isfile. rewrite Hnofile.
  unfold ret, raise. cbn beta iota.
  destruct Hcase as [Hnoarch|(c & Hst & Hgone)].
  - by rewrite Hnoarch.
  - unfold os.isfile. rewrite Hst. rewrite sharded_read.
    unfold _dset_in, mbind, M_bind, bind, h5py.open_r, try_except, fmap, M_fmap, bind.
    rewrite Hst, (fromh5_hdf5 _ _ _ _ Hst), Hgone. split.
    + rewrite bool_decide_eq_false_2; [done|]. by intros [? ?].
    + by destruct (read_locked_out env self).
Qed.

(** When [_del_dset] returns, or raises [KeyError], the container is at its
    path without the dataset, and no other path has changed. *)
Lemma del_dset_outcome env archive h_key w w' k :
  archive ≠ [] →
  _del_dset env archive h_key w = Return tt w'
  ∨ _del_dset env archive h_key w = Raise (KeyError k) w' →
  (∀ q, q ≠ archive → fs w' !! q = fs w !! q)
  ∧ ∃ c, fs w' !! archive = Some (Hdf5File c) ∧ c !! h_key = None.
Proof.
  intros Hne. unfold _del_dset, mbind, M_bind, bind, h5py.open_a, h5py.close.
  rewrite (stat_lookup _ _ Hne).
  assert (∀ c : gmap string bytes,
            (if bool_decide (is_Some (c !! h_key)) then delete h_key c else c) !! h_key
            = None) as Hgone.
  { intros c. case_bool_decide as Hin; [apply lookup_delete_eq|].
    by apply eq_None_not_Some. }
  destruct (fs w !! archive) as [[| [|b0 b] | c]|] eqn:Hst.
  - by intros [?|?].
  - intros [Hret|?]; [|done]. simplify_eq. cbn [fs]. split.
    + intros q Hq. by rewrite !lookup_insert_ne.
    + eexists. rewrite lookup_insert_eq. split; [done|]. apply Hgone.
  - by intros [?|?].
  - destruct (h5_busy env (ticks w)); [by intros [?|?]|].
    intros [Hret|?]; [|done]. simplify_eq. cbn [fs tick]. split.
    + intros q Hq. by rewrite !lookup_insert_ne.
    + eexists. rewrite lookup_insert_eq. split; [done|]. apply Hgone.
  - destruct (os.stat (fs w) (os.dirname archive)) as [[| b | c]|];
      try (by intros [?|?]).
    intros [Hret|?]; [|done]. simplify_eq. cbn [fs]. split.
    + intros q Hq. by rewrite !lookup_insert_ne.
    + eexists. rewrite lookup_insert_eq. split; [done|]. apply Hgone.
Qed.

(** X2, delete completeness.  For a key that lies below a directory, after a
    [__delitem__] that returns, or that raises [KeyError], the key is not
    contained in the store and [__getitem__] raises [KeyError]. *)
Theorem delete_then_absent (env : environment) (self : H5_Nested_Store)
    (key : string) (w w' : world) :
  let key' := _normalize_key self key in
  let file_path := posixpath.join (path self) key' in
  (2 ≤ length file_path)%nat →
  __delitem__ env self key w = Return tt w'
  ∨ __delitem__ env self key w = Raise (KeyError key') w' →
  __contains__ self key w' = Return false w'
  ∧ __getitem__ env self key w' = Raise (KeyError key') w'.
Proof.
  intros key' file_path Hlen Hdel.
  pose proof (archive_ne_path self file_path Hlen) as Hne.
  pose proof (archive_ne_root self file_path) as Hroot.
  assert (file_path ≠ []) as Hfp by (intros Heq; rewrite Heq in Hlen; simpl in Hlen; lia).
  revert Hdel. unfold __delitem__. fold key' file_path.
  destruct (delitem_removal file_path w Hfp) as (w1 & Hnofile & Hrm).
  intros Hdel.
  assert (os.isfile (fs w') file_path = false
          ∧ (os.isfile (fs w') (_get_archive_key_name self file_path).1 = false
             ∨ ∃ c, os.stat (fs w') (_get_archive_key_name self file_path).1
                    = Some (Hdf5File c)
                    ∧ c !! (_get_archive_key_name self file_path).2 = None))
    as [Hnf Hcase]; [|by apply absent_key].
  destruct (_get_archive_key_name self file_path) as [archive h_key].
  cbn [fst snd] in *.
  rewrite !Hrm in Hdel. clear Hrm.
  unfold mbind, M_bind, bind, os_path_isfile in Hdel.
  destruct (os.isfile (fs w1) archive) eqn:Harch.
  - assert (_del_dset env archive h_key w1 = Return tt w'
            ∨ _del_dset env archive h_key w1 = Raise (KeyError key') w') as Hd.
    { destruct (distribuited self); [|done]. unfold with_lock in Hdel.
      destruct (lock_available env); [done|]. by destruct Hdel. }
    apply del_dset_outcome in Hd as [Hother (c & Hc & Hgone)]; [|done].
    split.
    + unfold os.isfile in *. rewrite stat_lookup in * by done.
      by rewrite Hother.
    + right. exists c. by rewrite stat_lookup.
  - destruct Hdel as [?|Hraise]; [done|]. unfold raise in Hraise. simplify_eq.
    split; [done|by left].
Qed.

(** Delete completeness on the sharded array, for a chunk in the container
    and for the metadata file (whose delete raises [KeyError], see C4). *)
Lemma delete_then_absent_witness :
  (__contains__ default_store "a/0/0/2"
     {| fs := <[["data"; "a"; "0.h5"] := Hdf5File ∅]> tree_sharded; ticks := 1 |}
   = Return false
       {| fs := <[["data"; "a"; "0.h5"] := Hdf5File ∅]> tree_sharded; ticks := 1 |}
   ∧ __getitem__ quiet default_store "a/0/0/2"
       {| fs := <[["data"; "a"; "0.h5"] := Hdf5File ∅]> tree_sharded; ticks := 1 |}
     = Raise (KeyError "a/0/0/2")
         {| fs := <[["data"; "a"; "0.h5"] := Hdf5File ∅]> tree_sharded; ticks := 1 |})
  ∧ (__contains__ default_store "a/.zarray"
       {| fs := delete ["data"; "a"; ".zarray"] tree_rank6; ticks := 0 |}
     = Return false {| fs := delete ["data"; "a"; ".zarray"] tree_rank6; ticks := 0 |}
     ∧ __getitem__ quiet default_store "a/.zarray"
         {| fs := delete ["data"; "a"; ".zarray"] tree_rank6; ticks := 0 |}
       = Raise (KeyError "a/.zarray")
           {| fs := delete ["data"; "a"; ".zarray"] tree_rank6; ticks := 0 |}).
Proof.
  split.
  - apply (delete_then_absent quiet default_store "a/0/0/2" world_sharded).
    + simpl. lia.
    + left. by vm_compute.
  - apply (delete_then_absent quiet default_store "a/.zarray" world_rank6).
    + simpl. lia.
    + right. by vm_compute.
Defined.

(** ** Keys of one container *)

Lemma append_cancel_r (a b e : string) : a +:+ e = b +:+ e → a = b.
Proof.
  revert b. induction a as [|x a IH]; intros [|y b] Heq.
  - done.
  - apply (f_equal String.length) in Heq. rewrite !string_length_append in Heq.
    simpl in Heq. lia.
  - apply (f_equal String.length) in Heq. rewrite !string_length_append in Heq.
    simpl in Heq. lia.
  - change (String x (a +:+ e) = String y (b +:+ e)) in Heq.
    injection Heq as -> Heq. f_equal. by apply IH.
Qed.

Lemma add_suffix_inj (p q : fspath) (suffix : string) :
  p ≠ [] → q ≠ [] →
  posixpath.add_suffix p suffix = posixpath.add_suffix q suffix → p = q.
Proof.
  intros Hp Hq.
  destruct (exists_last Hp) as (p' & s & ->).
  destruct (exists_last Hq) as (q' & s' & ->).
  rewrite !add_suffix_snoc. intros [-> Heq]%app_inj_tail.
  by apply append_cancel_r in Heq as ->.
Qed.

(** X3, shard grouping.  With D at least 2, two paths that end in D-1 coordinate
    components go to the same container exactly when the components before
    those agree; the name inside the container is the coordinates joined by
    a dot. *)
Theorem shard_grouping (self : H5_Nested_Store) (prefix1 prefix2 : fspath)
    (coords1 coords2 : list string) :
  2 ≤ _consolidate_depth self →
  Z.of_nat (length coords1) = _consolidate_depth self - 1 →
  Z.of_nat (length coords2) = _consolidate_depth self - 1 →
  prefix1 ≠ [] → prefix2 ≠ [] →
  ((_get_archive_key_name self (prefix1 ++ coords1)).1
   = (_get_archive_key_name self (prefix2 ++ coords2)).1
   ↔ prefix1 = prefix2)
  ∧ (_get_archive_key_name self (prefix1 ++ coords1)).2 = pystr.join "." coords1
  ∧ (_get_archive_key_name self (prefix2 ++ coords2)).2 = pystr.join "." coords2.
Proof.
  intros HD Hlen1 Hlen2 Hp1 Hp2.
  rewrite !archive_key_name_coords by lia. cbn [fst snd].
  split; [|done]. split.
  - by apply add_suffix_inj.
  - by intros ->.
Qed.

(** Shard grouping on the spec's example: [arr/0/0/4/6/7] and
    [arr/0/0/4/6/9] share a container and differ inside it, [arr/0/0/5/6/7]
    has another container. *)
Lemma shard_grouping_witness :
  (_get_archive_key_name default_store (["data"; "arr"; "0"; "0"; "4"] ++ ["6"; "7"])).1
  = (_get_archive_key_name default_store (["data"; "arr"; "0"; "0"; "4"] ++ ["6"; "9"])).1
  ∧ (_get_archive_key_name default_store (["data"; "arr"; "0"; "0"; "4"] ++ ["6"; "7"])).2
    ≠ (_get_archive_key_name default_store (["data"; "arr"; "0"; "0"; "4"] ++ ["6"; "9"])).2
  ∧ (_get_archive_key_name default_store (["data"; "arr"; "0"; "0"; "4"] ++ ["6"; "7"])).1
    ≠ (_get_archive_key_name default_store (["data"; "arr"; "0"; "0"; "5"] ++ ["6"; "7"])).1.
Proof.
  destruct (shard_grouping default_store ["data"; "arr"; "0"; "0"; "4"]
              ["data"; "arr"; "0"; "0"; "4"] ["6"; "7"] ["6"; "9"])
    as (Hsame & Hk1 & Hk2); [simpl; lia|done|done|done|done|].
  destruct (shard_grouping default_store ["data"; "arr"; "0"; "0"; "4"]
              ["data"; "arr"; "0"; "0"; "5"] ["6"; "7"] ["6"; "7"])
    as (Hother & _ & _); [simpl; lia|done|done|done|done|].
  split; [by apply Hsame|]. split.
  - rewrite Hk1, Hk2. by vm_compute.
  - intros Heq. apply Hother in Heq. discriminate.
Defined.

(** ** Moving chunk files into a container *)

Lemma stat_delete_ne t p q : p ≠ q → os.stat (delete p t) q = os.stat t q.
Proof. intros Hne. destruct q; [done|]. simpl. by rewrite lookup_delete_ne. Qed.

Lemma open_a_return env archive w h w1 :
  h5py.open_a env archive w = Return h w1 →
  os.stat (fs w1) archive = Some (Hdf5File h) ∧ archive ≠ [].
Proof.
  unfold h5py.open_a.
  destruct (os.stat (fs w) archive) as [[| [|b0 b] |c]|] eqn:Hst; try done.
  - intros [= <- <-]. cbn [fs ticks].
    assert (archive ≠ []) as Hne by (by intros ->).
    by rewrite stat_insert_eq.
  - destruct (h5_busy env (ticks w)); [done|]. intros [= <- <-].
    split; [done|]. by intros ->.
  - destruct (os.stat (fs w) (os.dirname archive)) as [[]|]; try done.
    intros [= <- <-]. cbn [fs ticks].
    assert (archive ≠ []) as Hne by (by intros ->).
    by rewrite stat_insert_eq.
Qed.

(** The loop of [_migrate_path_to_archive] over files that are there and
    have bytes: it ends, every file is gone from the tree, nothing else but
    the container changes, and the container holds each file's bytes under
    the file's key. *)
Lemma migrate_files_run env self archive files : ∀ h w,
  archive ≠ [] →
  NoDup ((λ f, (_get_archive_key_name self f).2) <$> files) →
  Forall (λ f, ∃ b, os.stat (fs w) f = Some (RawFile b) ∧ b ≠ []) files →
  ∃ h' t',
    _migrate_files env self archive files h w
    = Return tt {| fs := <[archive := Hdf5File h']> t'; ticks := ticks w |}
    ∧ (∀ f, f ∈ files → t' !! f = None)
    ∧ (∀ q, q ∉ files → t' !! q = fs w !! q)
    ∧ (∀ k, k ∉ ((λ f, (_get_archive_key_name self f).2) <$> files) → h' !! k = h !! k)
    ∧ (∀ f b, f ∈ files → os.stat (fs w) f = Some (RawFile b) →
              h' !! (_get_archive_key_name self f).2 = Some b).
Proof.
  induction files as [|filepath rest IH]; intros h w Hne Hkeys Hfiles.
  - exists h, (fs w). split; [done|]. split; [by intros f ?%elem_of_nil|].
    split; [done|]. split; [done|]. by intros f b ?%elem_of_nil.
  - apply Forall_cons in Hfiles as [(b & Hb & Hbytes) Hrest].
    rewrite fmap_cons in Hkeys. apply NoDup_cons in Hkeys as [Hfresh Hkeys].
    assert (filepath ∉ rest) as Hnotin.
    { intros Hin. apply Hfresh. apply list_elem_of_fmap. by exists filepath. }
    assert (filepath ≠ []) as Hfp by (by intros ->).
    set (w1 := {| fs := delete filepath (fs w); ticks := ticks w |}).
    set (key := (_get_archive_key_name self filepath).2) in *.
    destruct (IH (h5py.put key b h) w1 Hne Hkeys) as (h' & t' & Hrun & Hgone & Hframe & Hold & Hnew).
    { apply Forall_forall. intros f Hf.
      destruct (proj1 (Forall_forall _ _) Hrest f Hf) as (bf & Hbf & Hbfne).
      exists bf. split; [|done].
      unfold w1. cbn [fs]. rewrite stat_delete_ne; [done|]. by intros ->. }
    exists h', t'. split.
    { cbn [_migrate_files]. fold key.
      rewrite (mbind_return _ _ w b w).
      2:{ unfold try_except, _fromfile. by rewrite Hb. }
      unfold h5py.create_dataset. rewrite bool_decide_eq_false_2 by done.
      fold (h5py.put key b h).
      rewrite (mbind_return _ _ w tt w1); [exact Hrun|].
      unfold try_except, on_tree, os.remove. by rewrite Hb. }
    split.
    { intros f [->|Hf]%elem_of_cons; [|by apply Hgone].
      rewrite Hframe by done. unfold w1. cbn [fs]. by rewrite lookup_delete_eq. }
    split.
    { intros q Hq. apply not_elem_of_cons in Hq as [Hq1 Hq2].
      rewrite Hframe by done. unfold w1. cbn [fs]. by rewrite lookup_delete_ne. }
    split.
    { intros k Hk. rewrite fmap_cons in Hk. apply not_elem_of_cons in Hk as [Hk1 Hk2].
      rewrite Hold by done. unfold h5py.put.
      rewrite lookup_insert_ne by done. by rewrite lookup_delete_ne. }
    intros f bf [->|Hf]%elem_of_cons Hbf.
    + rewrite Hold by done. unfold h5py.put. rewrite lookup_insert_eq. congruence.
    + apply Hnew; [done|]. unfold w1. cbn [fs]. rewrite stat_delete_ne; [done|].
      by intros ->.
Qed.

(** X5, value preservation under migration.  The store reads its containers
    without the distributed lock, or can take it.  When the container opens
    and the files the walk of [path_name] lists are plain files that have
    bytes, with distinct keys, [_migrate_path_to_archive] ends, and a key
    whose path is one of these files and whose container is [archive] then
    has no file of its own and [__getitem__] returns the bytes the file
    held. *)
Theorem migration_preserves_values (env : environment) (self : H5_Nested_Store)
    (archive path_name : fspath) (w w1 : world) (h : gmap string bytes) :
  let files := walk_files (fs w1) path_name in
  h5py.open_a env archive w = Return h w1 →
  Forall (λ f, ∃ b, os.stat (fs w1) f = Some (RawFile b) ∧ b ≠ []) files →
  NoDup ((λ f, (_get_archive_key_name self f).2) <$> files) →
  read_locked_out env self = false →
  ∃ w',
    _migrate_path_to_archive env self archive path_name w = Return tt w'
    ∧ ∀ key b,
        let file_path := posixpath.join (path self) (_normalize_key self key) in
        file_path ∈ files →
        (_get_archive_key_name self file_path).1 = archive →
        os.stat (fs w1) file_path = Some (RawFile b) →
        os.isfile (fs w') file_path = false
        ∧ __getitem__ env self key w' = Return b w'.
Proof.
  intros files Hopen Hfiles Hkeys Hlock.
  destruct (open_a_return _ _ _ _ _ Hopen) as (Hst & Hne).
  destruct (migrate_files_run env self archive files h w1 Hne Hkeys Hfiles)
    as (h' & t' & Hrun & Hgone & Hframe & Hold & Hnew).
  eexists. split.
  { unfold _migrate_path_to_archive. rewrite (mbind_return _ _ w h w1 Hopen).
    unfold mbind, M_bind, bind. exact Hrun. }
  intros key b file_path Hin Harchive Hb.
  assert (file_path ≠ archive) as Hdiff by (intros Heq; rewrite Heq in Hb; congruence).
  assert (os.isfile (<[archive := Hdf5File h']> t') file_path = false) as Hnofile.
  { unfold os.isfile. rewrite stat_insert_ne by done.
    rewrite stat_lookup by (by intros Heq; rewrite Heq in Hb).
    by rewrite (Hgone _ Hin). }
  split; [exact Hnofile|].
  apply (getitem_dataset env self key _ h' b).
  - exact Hlock.
  - exact Hnofile.
  - fold file_path. rewrite Harchive. cbn [fs]. by apply stat_insert_eq.
  - fold file_path. by apply Hnew.
Qed.

(** The migration of the docstring's shard [a/0/0/4]: both chunks are read
    back from the container. *)
Lemma migration_preserves_values_witness :
  ∃ w',
    _migrate_path_to_archive quiet default_store
      ["data"; "a"; "0"; "0"; "4.h5"] ["data"; "a"; "0"; "0"; "4"]
      {| fs := tree_rank5; ticks := 0 |} = Return tt w'
    ∧ __getitem__ quiet default_store "a/0/0/4/6/7" w' = Return [x01] w'
    ∧ __getitem__ quiet default_store "a/0/0/4/6/9" w' = Return [x02] w'.
Proof.
  destruct (migration_preserves_values quiet default_store
              ["data"; "a"; "0"; "0"; "4.h5"] ["data"; "a"; "0"; "0"; "4"]
              {| fs := tree_rank5; ticks := 0 |}
              {| fs := <[["data"; "a"; "0"; "0"; "4.h5"] := Hdf5File ∅]> tree_rank5;
                 ticks := 0 |} ∅) as (w' & Hrun & Hget).
  - by vm_compute.
  - vm_compute. repeat constructor; eexists; (split; [reflexivity|done]).
  - refine (bool_decide_unpack _ _). by vm_compute.
  - done.
  - exists w'. split; [exact Hrun|]. split.
    + apply (Hget "a/0/0/4/6/7" [x01]); [vm_compute; repeat constructor|by vm_compute..].
    + apply (Hget "a/0/0/4/6/9" [x02]); [vm_compute; repeat constructor|by vm_compute..].
Defined.

(** ** The temporary file *)

(** X7.  Until [os.replace] runs, the destination is as it was: a [_tofile] to the
    temporary name [<file_name>.<hex>.partial] that returns has changed the
    temporary file and nothing else, the destination [file_name] of the same
    directory included. *)
Theorem temp_write_leaves_destination (env : environment) (self : H5_Nested_Store)
    (fuel : nat) (value : bytes) (dir_path : fspath) (file_name hex : string)
    (w w' : world) :
  let temp_path := dir_path ++ [file_name +:+ "." +:+ hex +:+ ".partial"] in
  _tofile env self fuel value temp_path w = Return tt w' →
  fs w' !! (dir_path ++ [file_name]) = fs w !! (dir_path ++ [file_name])
  ∧ ∀ q, q ≠ temp_path → fs w' !! q = fs w !! q.
Proof.
  intros temp_path Hret.
  destruct (tofile_return _ _ _ _ _ _ _ Hret) as (_ & k & -> & _).
  assert (∀ q, q ≠ temp_path →
               <[temp_path := RawFile (medium env k value)]> (fs w) !! q = fs w !! q)
    as Hframe by (intros q Hq; by rewrite lookup_insert_ne).
  split; [|exact Hframe].
  apply Hframe. intros [_ Heq]%app_inj_tail. symmetry in Heq.
  by apply temp_name_ne in Heq.
Qed.

(** Writing over the chunk [a/0/0/1] of the flat layout: the temporary write
    leaves the chunk's file with its old bytes. *)
Lemma temp_write_leaves_destination_witness :
  let temp_path := ["data"; "a"; "0"; "0"] ++ ["1" +:+ "." +:+ "f00d" +:+ ".partial"] in
  let w' := {| fs := <[temp_path := RawFile [x09]]> tree_both; ticks := 1 |} in
  _tofile quiet default_store 1 [x09] temp_path world_both = Return tt w'
  ∧ fs w' !! (["data"; "a"; "0"; "0"] ++ ["1"])
    = fs world_both !! (["data"; "a"; "0"; "0"] ++ ["1"]).
Proof.
  intros temp_path w'.
  assert (_tofile quiet default_store 1 [x09] temp_path world_both = Return tt w')
    as Hret by by vm_compute.
  split; [exact Hret|].
  exact (proj1 (temp_write_leaves_destination quiet default_store 1 [x09]
                  ["data"; "a"; "0"; "0"] "1" "f00d" world_both w' Hret)).
Defined.

(** ** What [__getitem__] and [__contains__] look at *)

(** [__getitem__] in closed form: the file at the key's path if there is
    one, else the key's dataset in the container at the key's container
    path, else [KeyError]; and [KeyError] without a file where the lock for
    reading the container cannot be taken. *)
Lemma getitem_cases env self key w :
  let key' := _normalize_key self key in
  let file_path := posixpath.join (path self) key' in
  let archive := (_get_archive_key_name self file_path).1 in
  let h_key := (_get_archive_key_name self file_path).2 in
  __getitem__ env self key w
  = match os.stat (fs w) file_path with
    | Some (RawFile b) => Return b w
    | Some (Hdf5File c) => Return (hdf5_signature ++ h5_image env c) w
    | _ =>
        if read_locked_out env self then Raise (KeyError key') w
        else
          match os.stat (fs w) archive with
          | Some (Hdf5File c) =>
              match c !! h_key with
              | Some data => Return data w
              | None => Raise (KeyError key') w
              end
          | _ => Raise (KeyError key') w
          end
    end.
Proof.
  intros key' file_path archive h_key.
  assert (∀ n, os.stat (fs w) file_path = Some n → file_bytes env n = None →
               os.isfile (fs w) file_path = false) as Hnf1.
  { intros n Hn Hb. unfold os.isfile. rewrite Hn. by destruct n. }
  assert (os.stat (fs w) file_path = None → os.isfile (fs w) file_path = false)
    as Hnf2 by (intros Hn; unfold os.isfile; by rewrite Hn).
  assert (os.isfile (fs w) file_path = false →
          __getitem__ env self key w
          = if read_locked_out env self then Raise (KeyError key') w
            else
              match os.stat (fs w) archive with
              | Some (Hdf5File c) =>
                  match c !! h_key with
                  | Some data => Return data w
                  | None => Raise (KeyError key') w
                  end
              | _ => Raise (KeyError key') w
              end) as Hshard.
  { intros Hnofile.
    unfold __getitem__. fold key' file_path.
    unfold mbind, M_bind, bind, os_path_isfile. rewrite Hnofile.
    unfold ret at 1. cbn beta iota.
    subst archive h_key.
    destruct (_get_archive_key_name self file_path) as [archive h_key].
    cbn [fst snd] in *. unfold os.isfile.
    destruct (os.stat (fs w) archive) as [[|d|c]|] eqn:Ha; cbn beta iota;
      rewrite ?sharded_read;
      unfold try_except, fmap, M_fmap, bind, _fromh5, mbind, M_bind, bind, h5py.open_r;
      rewrite ?Ha; destruct (read_locked_out env self); try done.
    by destruct (c !! h_key). }
  destruct (os.stat (fs w) file_path) as [[|b|c]|] eqn:Hfp.
  - by apply Hshard, (Hnf1 Dir).
  - by apply (getitem_file env self key w (RawFile b) b).
  - by apply (getitem_file env self key w (Hdf5File c) (hdf5_signature ++ h5_image env c)).
  - by apply Hshard, Hnf2.
Qed.

(** [__contains__] in closed form; a plain file at the container's path makes
    [h5py.File] raise. *)
Lemma contains_cases self key w :
  let key' := _normalize_key self key in
  let file_path := posixpath.join (path self) key' in
  let archive := (_get_archive_key_name self file_path).1 in
  let h_key := (_get_archive_key_name self file_path).2 in
  __contains__ self key w
  = match os.stat (fs w) file_path with
    | Some (RawFile _) | Some (Hdf5File _) => Return true w
    | _ =>
        match os.stat (fs w) archive with
        | Some (Hdf5File c) => Return (bool_decide (is_Some (c !! h_key))) w
        | Some (RawFile _) => Raise (OSError ENOTHDF5) w
        | _ => Return false w
        end
    end.
Proof.
  intros key' file_path archive h_key. unfold __contains__. fold key' file_path.
  subst archive h_key. destruct (_get_archive_key_name self file_path) as [archive h_key].
  cbn [fst snd]. unfold mbind, M_bind, bind, os_path_isfile, os.isfile.
  destruct (os.stat (fs w) file_path) as [[| |]|]; try done;
    cbn beta iota;
    destruct (os.stat (fs w) archive) as [[| |c]|] eqn:Ha; try done;
    unfold _dset_in, mbind, M_bind, bind, h5py.open_r; by rewrite Ha.
Qed.

(** X8.  [in] and [[]] agree in a store that reads its containers without
    the distributed lock, or can take it: whenever [__contains__] answers,
    it leaves the tree as it was, and [__getitem__] returns a value when the
    answer is [True] and raises [KeyError] when it is [False]. *)
Theorem contains_agrees_with_getitem (env : environment) (self : H5_Nested_Store)
    (key : string) (w w' : world) (b : bool) :
  read_locked_out env self = false →
  __contains__ self key w = Return b w' →
  w' = w
  ∧ if b then ∃ value, __getitem__ env self key w = Return value w
    else __getitem__ env self key w = Raise (KeyError (_normalize_key self key)) w.
Proof.
  intros Hlock. rewrite contains_cases, (getitem_cases env), Hlock.
  destruct (os.stat (fs w) _) as [[|d|c]|];
    try (intros [= <- <-]; split; [done|]; by eexists).
  - destruct (os.stat (fs w) _) as [[|d|c]|]; try (by intros [= <- <-]).
    intros [= <- <-]. split; [done|].
    destruct (c !! _) as [data|]; [by exists data|done].
  - destruct (os.stat (fs w) _) as [[|d|c]|]; try (by intros [= <- <-]).
    intros [= <- <-]. split; [done|].
    destruct (c !! _) as [data|]; [by exists data|done].
Qed.

(** The key [a/0/0/2] of the container and the key [a/0/0/3] it lacks. *)
Lemma contains_agrees_with_getitem_witness :
  (∃ value, __getitem__ quiet default_store "a/0/0/2" world_sharded
            = Return value world_sharded)
  ∧ __getitem__ quiet default_store "a/0/0/3" world_sharded
    = Raise (KeyError "a/0/0/3") world_sharded.
Proof.
  split.
  - apply (contains_agrees_with_getitem quiet default_store "a/0/0/2"
             world_sharded world_sharded true); [done|by vm_compute].
  - apply (contains_agrees_with_getitem quiet default_store "a/0/0/3"
             world_sharded world_sharded false); [done|by vm_compute].
Defined.

(** ** A chunk written into a container and the other keys *)

(** What [__getitem__] reads is decided by the file at the key's path and by
    the key's dataset in the container at the key's container path. *)
Lemma getitem_same_view env self key w w' :
  let file_path := posixpath.join (path self) (_normalize_key self key) in
  let archive := (_get_archive_key_name self file_path).1 in
  let h_key := (_get_archive_key_name self file_path).2 in
  (os.stat (fs w') file_path = os.stat (fs w) file_path
   ∨ (os.isfile (fs w) file_path = false ∧ os.isfile (fs w') file_path = false)) →
  match os.stat (fs w') archive with
  | Some (Hdf5File c) => c !! h_key
  | _ => None
  end
  = match os.stat (fs w) archive with
    | Some (Hdf5File c) => c !! h_key
    | _ => None
    end →
  __getitem__ env self key w' = with_world (__getitem__ env self key w) w'.
Proof.
  intros file_path archive h_key Hfile Hdset.
  rewrite !getitem_cases. fold file_path archive h_key.
  assert (∀ t, match os.stat t archive with
               | Some (Hdf5File c) =>
                   match c !! h_key with
                   | Some data => Return data w'
                   | None => Raise (KeyError (_normalize_key self key)) w'
                   end
               | _ => Raise (KeyError (_normalize_key self key)) w'
               end
               = match match os.stat t archive with
                       | Some (Hdf5File c) => c !! h_key
                       | _ => None
                       end with
                 | Some data => Return data w'
                 | None => Raise (KeyError (_normalize_key self key)) w'
                 end) as Hview.
  { intros t. by destruct (os.stat t archive) as [[| |c]|]. }
  assert (match os.stat (fs w') archive with
          | Some (Hdf5File c) =>
              match c !! h_key with
              | Some data => Return data w'
              | None => Raise (KeyError (_normalize_key self key)) w'
              end
          | _ => Raise (KeyError (_normalize_key self key)) w'
          end
          = with_world
              match os.stat (fs w) archive with
              | Some (Hdf5File c) =>
                  match c !! h_key with
                  | Some data => Return data w
                  | None => Raise (KeyError (_normalize_key self key)) w
                  end
              | _ => Raise (KeyError (_normalize_key self key)) w
              end w') as Hshard.
  { rewrite Hview, Hdset.
    by destruct (os.stat (fs w) archive) as [[| |c]|]; [| |destruct (c !! h_key)|]. }
  destruct Hfile as [->|[Hf Hf']].
  - destruct (os.stat (fs w) file_path) as [[| |]|]; try done;
      by destruct (read_locked_out env self).
  - unfold os.isfile in Hf, Hf'.
    destruct (os.stat (fs w) file_path) as [[| |]|];
      destruct (os.stat (fs w') file_path) as [[| |]|]; try done;
      by destruct (read_locked_out env self).
Qed.

(** X9.  A chunk written into its container leaves every other key as it
    was: when [__setitem__] takes the direct path and returns, a key whose
    path is not the container's path and whose container path or dataset
    name is another reads afterwards what it read before. *)
Theorem direct_set_leaves_other_keys (env : environment) (self : H5_Nested_Store)
    (fuel : nat) (key other : string) (value : bytes) (w w' : world) :
  let file_path := posixpath.join (path self) (_normalize_key self key) in
  let other_path := posixpath.join (path self) (_normalize_key self other) in
  _write_direct self = true →
  pystr.contains "." (_normalize_key self key) = false →
  os.isfile (fs w) file_path = false →
  __setitem__ env self fuel key value w = Return tt w' →
  other_path ≠ (_get_archive_key_name self file_path).1 →
  _get_archive_key_name self other_path ≠ _get_archive_key_name self file_path →
  __getitem__ env self other w' = with_world (__getitem__ env self other w) w'.
Proof.
  intros file_path other_path Hdirect Hdot Hnofile Hset Hpath Hcodec.
  unfold __setitem__ in Hset. fold file_path in Hset.
  unfold mbind, M_bind, bind, os_path_isfile in Hset.
  rewrite Hdirect, Hdot, Hnofile in Hset. cbn [andb negb] in Hset.
  assert (final_world (_write_direct_to_h5 env self fuel file_path value w) = Some w')
    as Hfin by (by rewrite Hset).
  apply write_direct_final in Hfin as [Hother Harch].
  pose proof (archive_ne_root self file_path) as Hroot.
  pose proof (archive_ne_root self other_path) as Hroot2.
  destruct (_get_archive_key_name self file_path) as [archive h_key] eqn:Hc1.
  cbn [fst snd] in *.
  apply getitem_same_view; fold other_path.
  - destruct (decide (other_path = [])) as [->|Hne]; [by left|].
    rewrite !stat_lookup by done. unfold os.isfile. rewrite !stat_lookup by done.
    destruct (Hother other_path Hpath) as [->|[-> ->]]; [by left|by right].
  - destruct (_get_archive_key_name self other_path) as [archive2 h_key2] eqn:Hc2.
    cbn [fst snd] in *. rewrite !stat_lookup by done.
    destruct (decide (archive2 = archive)) as [->|Hne].
    + assert (h_key2 ≠ h_key) as Hk by congruence.
      destruct Harch as [->|(c & Hc & ->)]; [done|].
      rewrite left_by_replace_lookup_ne by done.
      by destruct Hc as [->|[[->| ->] ->]].
    + by destruct (Hother archive2 Hne) as [->|[-> ->]].
Qed.

(** Writing the chunk [a/0/0/1] next to the chunk [a/0/0/2] of the same
    container. *)
Lemma direct_set_leaves_other_keys_witness :
  __getitem__ quiet default_store "a/0/0/2" {| fs := tree_sharded_put; ticks := 1 |}
  = with_world (__getitem__ quiet default_store "a/0/0/2" world_sharded)
      {| fs := tree_sharded_put; ticks := 1 |}.
Proof.
  apply (direct_set_leaves_other_keys quiet default_store 1 "a/0/0/1" "a/0/0/2" [x01]
           world_sharded); by vm_compute.
Defined.

(** ** The walk and the archive locations *)

(** Every triple of a walk describes a directory at or below [top]: its
    sub-directories and its other entries, as [scandir] has them. *)
Lemma walk_rec_sound n topdown t :
  ∀ top root dirs files,
    (root, dirs, files) ∈ os.walk_rec n topdown t top →
    top `prefix_of` root
    ∧ dirs = (filter (λ e, e.2 = Dir) (os.scandir t root)).*1
    ∧ files = (filter (λ e, e.2 ≠ Dir) (os.scandir t root)).*1.
Proof.
  induction n as [|n IH]; intros top root dirs files Hin; [by apply elem_of_nil in Hin|].
  cbn [os.walk_rec] in Hin.
  assert ((root, dirs, files) = (top, (filter (λ e, e.2 = Dir) (os.scandir t top)).*1,
                                 (filter (λ e, e.2 ≠ Dir) (os.scandir t top)).*1)
          ∨ (root, dirs, files)
            ∈ mjoin ((λ d, os.walk_rec n topdown t (top ++ [d]))
                       <$> (filter (λ e, e.2 = Dir) (os.scandir t top)).*1)) as [Heq|Hdeep].
  { destruct topdown.
    - apply elem_of_cons in Hin as [?|?]; eauto.
    - apply elem_of_app in Hin as [?|Hin]; [eauto|].
      apply list_elem_of_singleton in Hin. eauto. }
  - by simplify_eq.
  - apply list_elem_of_join in Hdeep as (l & Hl & Hfrom).
    apply list_elem_of_fmap in Hfrom as (d & -> & Hd).
    apply IH in Hl as (Hpre & Hdirs & Hfiles). split; [|done].
    etrans; [|exact Hpre]. by apply prefix_app_r.
Qed.

Lemma walk_sound t top topdown root dirs files :
  (root, dirs, files) ∈ os.walk t top topdown →
  top `prefix_of` root
  ∧ dirs = (filter (λ e, e.2 = Dir) (os.scandir t root)).*1
  ∧ files = (filter (λ e, e.2 ≠ Dir) (os.scandir t root)).*1.
Proof.
  unfold os.walk. destruct (os.isdir t top); [apply walk_rec_sound|].
  by intros ?%elem_of_nil.
Qed.

(** A name among the files of a walked directory is an entry of the tree
    that is not a directory. *)
Lemma elem_of_nondirs t root f :
  f ∈ (filter (λ e, e.2 ≠ Dir) (os.scandir t root)).*1 →
  ∃ n, t !! (root ++ [f]) = Some n ∧ n ≠ Dir.
Proof.
  intros ([s n] & -> & Hin)%list_elem_of_fmap.
  apply list_elem_of_filter in Hin as [Hn Hin]. apply elem_of_scandir in Hin. eauto.
Qed.

Lemma elem_of_dirs t root d :
  d ∈ (filter (λ e, e.2 = Dir) (os.scandir t root)).*1 →
  t !! (root ++ [d]) = Some Dir.
Proof.
  intros ([s n] & -> & Hin)%list_elem_of_fmap.
  apply list_elem_of_filter in Hin as [Hn Hin]. apply elem_of_scandir in Hin.
  cbn in *. by subst.
Qed.

(** The dictionary of [get_unique_archive_locations]: nothing is yielded
    twice, nothing that was seen is yielded, and everything else is. *)
Lemma yield_unique_spec l :
  ∀ seen,
    NoDup (yield_unique seen l)
    ∧ ∀ a, a ∈ yield_unique seen l ↔ a ∈ l ∧ a ∉ seen.
Proof.
  induction l as [|x l IH]; intros seen.
  - split; [constructor|]. intros a. split; [by intros ?%elem_of_nil|].
    by intros [?%elem_of_nil _].
  - cbn [yield_unique]. destruct (decide (x ∈ seen)) as [Hx|Hx].
    + destruct (IH seen) as [Hnd Hel]. split; [done|]. intros a. rewrite Hel.
      rewrite elem_of_cons. intuition congruence.
    + destruct (IH (x :: seen)) as [Hnd Hel]. split.
      * constructor; [|done]. rewrite Hel. rewrite elem_of_cons. intuition congruence.
      * intros a. rewrite elem_of_cons, Hel, !elem_of_cons.
        destruct (decide (a = x)); intuition congruence.
Qed.

(** X10.  The archive locations of a scan: no container path is yielded
    twice, and each one is the container path of a file of the tree that lies
    below an array root (a directory holding [.zarray]), more than D levels
    below it, and whose name has no [.z] in it. *)
Theorem archive_locations_spec (self : H5_Nested_Store) (t : gmap fspath node) :
  NoDup (get_unique_archive_locations self t)
  ∧ ∀ archive,
      archive ∈ get_unique_archive_locations self t →
      ∃ array root f n,
        archive = (_get_archive_key_name self (root ++ [f])).1
        ∧ t !! (root ++ [f]) = Some n ∧ n ≠ Dir
        ∧ array `prefix_of` root
        ∧ os.exists_ t (array ++ [".zarray"]) = true
        ∧ pystr.has_substring ".z" f = false
        ∧ path_depth self (root ++ [f]) (Some array) > _consolidate_depth self.
Proof.
  unfold get_unique_archive_locations.
  split; [apply yield_unique_spec|].
  intros archive [Hin _]%yield_unique_spec.
  apply list_elem_of_bind in Hin as (array & Hin & Harray).
  apply list_elem_of_bind in Hin as ([[root dirs] files] & Hin & Hwalk).
  apply list_elem_of_bind in Hin as (f & Hin & Hf).
  apply walk_sound in Hwalk as (Hpre & _ & ->).
  apply elem_of_nondirs in Hf as (n & Hn & Hnd).
  destruct (pystr.has_substring ".z" f) eqn:Hz; [by apply elem_of_nil in Hin|].
  cbn [negb andb] in Hin. case_bool_decide as Hdepth; [|by apply elem_of_nil in Hin].
  apply list_elem_of_singleton in Hin as ->.
  exists array, root, f, n. repeat split; try done.
  unfold _arrays in Harray.
  destruct (os.isfile t (path self ++ [".zarray"])) eqn:Hroot.
  - apply list_elem_of_singleton in Harray as ->.
    unfold os.exists_. unfold os.isfile in Hroot.
    by destruct (os.stat t (path self ++ [".zarray"])).
  - apply list_elem_of_bind in Harray as ([[r ds] fs'] & Hin & _).
    apply list_elem_of_bind in Hin as (d & Hin & _).
    destruct (os.exists_ t (r ++ [d; ".zarray"])) eqn:Hex; [|by apply elem_of_nil in Hin].
    apply list_elem_of_singleton in Hin as ->.
    by rewrite <- app_assoc.
Qed.

(** ** [getsize] never fails on the tree *)

Lemma st_size_nonneg env n : 0 ≤ st_size env n.
Proof. unfold st_size. destruct (file_bytes env n); lia. Qed.

Lemma sum_sizes_nonneg env children : 0 ≤ sum_sizes env children.
Proof.
  induction children as [|child children IH]; [done|].
  cbn [sum_sizes foldr]. fold (sum_sizes env children).
  pose proof (st_size_nonneg env child.2). lia.
Qed.

(** X11.  [getsize] leaves the tree as it was and raises nothing but the
    [ValueError] of [normalize_storage_path] for a path with a [.] or [..]
    segment; otherwise it returns a size that is not negative, and 0 for a
    path at which there is nothing. *)
Theorem getsize_outcome (env : environment) (self : H5_Nested_Store)
    (path_arg : option string) (w : world) :
  match zarr_util.normalize_storage_path path_arg with
  | inl e => getsize env self path_arg w = Raise e w
  | inr store_path =>
      let fs_path := if bool_decide (store_path = EmptyString) then path self
                     else posixpath.join (path self) store_path in
      ∃ size, getsize env self path_arg w = Return size w ∧ 0 ≤ size
              ∧ (os.stat (fs w) fs_path = None → size = 0)
  end.
Proof.
  unfold getsize. destruct (zarr_util.normalize_storage_path path_arg) as [e|store_path];
    [done|].
  cbn zeta. set (fs_path := if bool_decide (store_path = EmptyString) then _ else _).
  unfold mbind, M_bind, bind, os_path_isfile, os_path_isdir, os_scandir, os_path_getsize,
    os.isfile, os.isdir.
  destruct (os.stat (fs w) fs_path) as [[|b|c]|] eqn:Hst; cbn beta iota.
  - rewrite Hst. cbn beta iota. eexists. split; [done|]. split; [|done].
    rewrite getsize_loop_sum. pose proof (sum_sizes_nonneg env (os.scandir (fs w) fs_path)).
    lia.
  - rewrite Hst. eexists. split; [done|]. split; [apply st_size_nonneg|done].
  - rewrite Hst. eexists. split; [done|]. split; [apply st_size_nonneg|done].
  - exists 0. by rewrite ?Hst.
Qed.

(** ** [clear] and [rmdir] *)

Lemma rmtree_lookup t p t' :
  os.rmtree t p = inr t' →
  os.isdir t p = true
  ∧ ∀ q, t' !! q = if decide (p `prefix_of` q) then None else t !! q.
Proof.
  unfold os.rmtree. destruct (os.isdir t p) eqn:Hd.
  - intros [= <-]. split; [done|]. intros q. case_decide as Hpre.
    + apply map_lookup_filter_None. right. intros x _ Hnot. by apply Hnot.
    + destruct (t !! q) as [x|] eqn:Hq.
      * by apply map_lookup_filter_Some.
      * apply map_lookup_filter_None. by left.
  - by destruct (os.stat t p).
Qed.

Lemma join_relative p key :
  String.prefix "/" key = false → posixpath.join p key = p ++ posixpath.components key.
Proof. intros H. unfold posixpath.join. by rewrite H. Qed.

(** A key of D or more components has its path and its container's path
    below the store's root. *)
Lemma deep_key_below_root self key :
  let file_path := posixpath.join (path self) key in
  String.prefix "/" key = false →
  2 ≤ _consolidate_depth self →
  _consolidate_depth self ≤ Z.of_nat (length (posixpath.components key)) →
  file_path ≠ []
  ∧ path self `prefix_of` file_path
  ∧ path self `prefix_of` (_get_archive_key_name self file_path).1.
Proof.
  intros file_path Hrel HD Hlen. subst file_path. rewrite (join_relative _ _ Hrel).
  set (comps := posixpath.components key) in *.
  set (n := S (Z.to_nat (_consolidate_depth self - 2))).
  assert (n < length comps)%nat as Hn by (unfold n; lia).
  rewrite <- (take_drop (length comps - n) comps).
  set (pre := take (length comps - n) comps).
  set (coords := drop (length comps - n) comps).
  assert (length coords = n) as Hcoords by (unfold coords; rewrite length_drop; lia).
  assert (pre ≠ []) as Hpre.
  { intros Heq. apply (f_equal length) in Heq. unfold pre in Heq.
    rewrite length_take in Heq. simpl in Heq. lia. }
  split; [|split].
  - intros Heq. apply (f_equal length) in Heq. rewrite !length_app in Heq.
    simpl in Heq. destruct pre; [done|]. simpl in Heq. lia.
  - by apply prefix_app_r.
  - rewrite app_assoc, archive_key_name_coords by done. cbn [fst].
    destruct (exists_last Hpre) as (pre' & s & Hs). rewrite Hs.
    rewrite app_assoc, add_suffix_snoc, <- app_assoc. by apply prefix_app_r.
Qed.

(** The keys of a store whose root is gone or empty. *)
Lemma keys_of_nothing self w :
  (∀ q, path self `prefix_of` q → fs w !! q = None) →
  keys self w = Return [] w.
Proof.
  intros Hgone. unfold keys, mbind, M_bind, bind, os_path_exists, os.exists_.
  destruct (path self) as [|s p] eqn:Hpath.
  2: { cbn [os.stat]. by rewrite (Hgone (s :: p)). }
  cbn [os.stat]. unfold _keys_fast, mbind, M_bind, bind. rewrite Hpath.
  assert (fs w = ∅) as ->.
  { apply map_eq. intros q. rewrite lookup_empty. apply Hgone, prefix_nil. }
  change (os.walk ∅ [] true) with [([] : fspath, [] : list string, [] : list string)].
  cbn [yield_from]. unfold relpath. rewrite Hpath. done.
Qed.

(** X12.  After [clear] the store is empty: [keys()] yields nothing, and no
    key of D or more components is contained or can be read. *)
Theorem clear_empties_store (self : H5_Nested_Store) (w w' : world) :
  clear self w = Return tt w' →
  keys self w' = Return [] w'
  ∧ ∀ env key,
      let key' := _normalize_key self key in
      String.prefix "/" key' = false →
      2 ≤ _consolidate_depth self →
      _consolidate_depth self ≤ Z.of_nat (length (posixpath.components key')) →
      __contains__ self key w' = Return false w'
      ∧ __getitem__ env self key w' = Raise (KeyError key') w'.
Proof.
  unfold clear, on_tree. destruct (os.rmtree (fs w) (path self)) as [e|t'] eqn:Hrm; [done|].
  intros [= <-]. apply rmtree_lookup in Hrm as [Hd Hlook].
  assert (∀ q, path self `prefix_of` q → t' !! q = None) as Hgone.
  { intros q Hq. rewrite Hlook. by rewrite decide_True. }
  split; [by apply keys_of_nothing|].
  intros env key Hrel HD Hlen. set (key' := _normalize_key self key) in *.
  destruct (deep_key_below_root self key' Hrel HD Hlen) as (Hne & Hfp & Harch).
  apply absent_key; fold key'.
  - unfold os.isfile. rewrite stat_lookup by done. cbn [fs]. by rewrite (Hgone _ Hfp).
  - left. unfold os.isfile. rewrite stat_lookup by apply archive_ne_root.
    cbn [fs]. by rewrite (Hgone _ Harch).
Qed.

(** Clearing the store of the sharded array [a]. *)
Lemma clear_empties_store_witness :
  clear default_store world_sharded = Return tt {| fs := ∅; ticks := 0 |}
  ∧ keys default_store {| fs := ∅; ticks := 0 |} = Return [] {| fs := ∅; ticks := 0 |}
  ∧ __contains__ default_store "a/0/0/2" {| fs := ∅; ticks := 0 |}
    = Return false {| fs := ∅; ticks := 0 |}.
Proof.
  assert (clear default_store world_sharded = Return tt {| fs := ∅; ticks := 0 |})
    as Hclear by by vm_compute.
  split; [exact Hclear|].
  destruct (clear_empties_store default_store world_sharded _ Hclear) as [Hkeys Habsent].
  split; [exact Hkeys|].
  apply (Habsent quiet "a/0/0/2"); [done|done|by vm_compute].
Defined.

(** What [rmdir] does to the tree: nothing when the path is not a directory,
    else it removes the entries at and below the path and no other. *)
Lemma rmdir_tree self path_arg store_path w w' :
  zarr_util.normalize_storage_path path_arg = inr store_path →
  rmdir self path_arg w = Return tt w' →
  let dir_path := if bool_decide (store_path = EmptyString) then path self
                  else posixpath.join (path self) store_path in
  ticks w' = ticks w
  ∧ ∀ q, fs w' !! q = if os.isdir (fs w) dir_path && bool_decide (dir_path `prefix_of` q)
                      then None else fs w !! q.
Proof.
  intros Hnorm. unfold rmdir. rewrite Hnorm. cbn zeta.
  set (dir_path := if bool_decide (store_path = EmptyString) then _ else _).
  unfold mbind, M_bind, bind, os_path_isdir, on_tree.
  destruct (os.isdir (fs w) dir_path) eqn:Hd.
  - destruct (os.rmtree (fs w) dir_path) as [e|t'] eqn:Hrm; [done|].
    intros [= <-]. split; [done|]. intros q. cbn [fs andb].
    apply rmtree_lookup in Hrm as [_ Hlook]. rewrite Hlook.
    by destruct (decide (dir_path `prefix_of` q));
      [rewrite bool_decide_eq_true_2|rewrite bool_decide_eq_false_2].
  - by intros [= <-].
Qed.

(** X13.  [rmdir(path)] and the keys.  When it returns, a key whose path and
    whose container's path are not at or below the directory reads what it
    read before; and if the path is a directory, a key whose path and whose
    container's path are at or below it is gone.  A path that is no
    directory (a file, or nothing) leaves every key as it was. *)
Theorem rmdir_and_the_keys (env : environment) (self : H5_Nested_Store)
    (path_arg : option string) (store_path key : string) (w w' : world) :
  let dir_path := if bool_decide (store_path = EmptyString) then path self
                  else posixpath.join (path self) store_path in
  let key' := _normalize_key self key in
  let file_path := posixpath.join (path self) key' in
  let archive := (_get_archive_key_name self file_path).1 in
  zarr_util.normalize_storage_path path_arg = inr store_path →
  rmdir self path_arg w = Return tt w' →
  (os.isdir (fs w) dir_path = false
   ∨ (¬ dir_path `prefix_of` file_path ∧ ¬ dir_path `prefix_of` archive) →
   __getitem__ env self key w' = with_world (__getitem__ env self key w) w')
  ∧ (os.isdir (fs w) dir_path = true →
     file_path ≠ [] → dir_path `prefix_of` file_path → dir_path `prefix_of` archive →
     __contains__ self key w' = Return false w'
     ∧ __getitem__ env self key w' = Raise (KeyError key') w').
Proof.
  intros dir_path key' file_path archive Hnorm Hret.
  destruct (rmdir_tree self path_arg store_path w w' Hnorm Hret) as [_ Hlook].
  fold dir_path in Hlook.
  pose proof (archive_ne_root self file_path) as Hroot. fold archive in Hroot.
  split.
  - intros Hkeep.
    assert (∀ q, q = file_path ∨ q = archive → fs w' !! q = fs w !! q) as Hsame.
    { intros q Hq. rewrite Hlook. destruct Hkeep as [->|[Hfp Harch]]; [done|].
      rewrite bool_decide_eq_false_2, andb_false_r; [done|].
      by destruct Hq as [-> | ->]. }
    apply getitem_same_view; fold key' file_path archive.
    + left. destruct (decide (file_path = [])) as [->|Hne]; [done|].
      rewrite !stat_lookup by done. apply Hsame. by left.
    + rewrite !stat_lookup by done. rewrite Hsame; [done|by right].
  - intros Hd Hne Hfp Harch. apply absent_key; fold key' file_path archive.
    + unfold os.isfile. rewrite stat_lookup by done.
      by rewrite Hlook, Hd, bool_decide_eq_true_2.
    + left. unfold os.isfile. rewrite stat_lookup by done.
      by rewrite Hlook, Hd, bool_decide_eq_true_2.
Qed.

(** Removing the directory [a/0/0] of the flat layout: the chunks below it
    are gone; and removing [a/0/0/4/6/7], a file, changes nothing. *)
Lemma rmdir_and_the_keys_witness :
  let gone := {| fs := {[ ["data"] := Dir;
                          ["data"; "a"] := Dir;
                          ["data"; "a"; ".zarray"] := RawFile [x7b; x7d];
                          ["data"; "a"; "0"] := Dir ]};
                 ticks := 0 |} in
  rmdir default_store (Some "a/0/0") world_rank5 = Return tt gone
  ∧ __getitem__ quiet default_store "a/0/0/4/6/7" gone = Raise (KeyError "a/0/0/4/6/7") gone
  ∧ __getitem__ quiet default_store "a/.zarray" gone = Return [x7b; x7d] gone
  ∧ rmdir default_store (Some "a/0/0/4/6/7") world_rank5 = Return tt world_rank5
  ∧ __getitem__ quiet default_store "a/0/0/4/6/7" world_rank5 = Return [x01] world_rank5.
Proof.
  intros gone.
  assert (rmdir default_store (Some "a/0/0") world_rank5 = Return tt gone)
    as Hrm by (vm_compute; reflexivity).
  assert (rmdir default_store (Some "a/0/0/4/6/7") world_rank5 = Return tt world_rank5)
    as Hfile by (vm_compute; reflexivity).
  split; [exact Hrm|]. split; [|split; [|split; [exact Hfile|]]].
  - apply (proj2 (rmdir_and_the_keys quiet default_store (Some "a/0/0") "a/0/0"
                    "a/0/0/4/6/7" world_rank5 gone eq_refl Hrm)).
    + vm_compute; reflexivity.
    + vm_compute; discriminate.
    + exists ["4"; "6"; "7"]. vm_compute; reflexivity.
    + exists ["4.h5"]. vm_compute; reflexivity.
  - rewrite (proj1 (rmdir_and_the_keys quiet default_store (Some "a/0/0") "a/0/0"
                      "a/.zarray" world_rank5 gone eq_refl Hrm)); [vm_compute; reflexivity|].
    right. split; intros [k Hk]; vm_compute in Hk; discriminate.
  - rewrite (proj1 (rmdir_and_the_keys quiet default_store (Some "a/0/0/4/6/7")
                      "a/0/0/4/6/7" "a/0/0/4/6/7" world_rank5 world_rank5 eq_refl Hfile));
      [vm_compute; reflexivity|]. left. vm_compute; reflexivity.
Defined.

(** ** Chunks of an array at the store's root *)

(** A key of D-1 components has its container beside the store's root
    directory, at the root's path with the extension glued on. *)
Lemma shallow_key_container self key :
  let file_path := posixpath.join (path self) key in
  String.prefix "/" key = false →
  2 ≤ _consolidate_depth self →
  Z.of_nat (length (posixpath.components key)) = _consolidate_depth self - 1 →
  _get_archive_key_name self file_path
  = (posixpath.add_suffix (path self) (container_ext self),
     pystr.join "." (posixpath.components key)).
Proof.
  intros file_path Hrel HD Hlen. subst file_path. rewrite (join_relative _ _ Hrel).
  apply archive_key_name_coords. lia.
Qed.

Lemma add_suffix_not_below p suffix :
  p ≠ [] → suffix ≠ EmptyString → ¬ p `prefix_of` posixpath.add_suffix p suffix.
Proof.
  intros Hp Hs [k Hk]. destruct (exists_last Hp) as (p' & s & ->).
  rewrite add_suffix_snoc in Hk.
  assert (k = []) as ->.
  { apply (f_equal length) in Hk. rewrite !length_app in Hk. simpl in Hk.
    destruct k; [done|]. simpl in Hk. lia. }
  rewrite app_nil_r in Hk. apply app_inj_tail in Hk as [_ Hk].
  apply (f_equal String.length) in Hk. rewrite string_length_append in Hk.
  destruct suffix; [done|]. simpl in Hk. lia.
Qed.

(** X14.  The chunks of an array that sits at the store's root and has D-1
    dimensions are kept outside the store: the container of a key of D-1
    components is the file [<root><ext>] beside the root directory, so
    [clear] does not remove it, and a key that had no file of its own reads
    after [clear] what it read before. *)
Theorem clear_keeps_shallow_chunks (env : environment) (self : H5_Nested_Store)
    (key : string) (w w' : world) :
  let key' := _normalize_key self key in
  let file_path := posixpath.join (path self) key' in
  String.prefix "/" key' = false →
  2 ≤ _consolidate_depth self →
  Z.of_nat (length (posixpath.components key')) = _consolidate_depth self - 1 →
  path self ≠ [] → container_ext self ≠ EmptyString →
  os.isfile (fs w) file_path = false →
  clear self w = Return tt w' →
  (_get_archive_key_name self file_path).1
  = posixpath.add_suffix (path self) (container_ext self)
  ∧ __getitem__ env self key w' = with_world (__getitem__ env self key w) w'.
Proof.
  intros key' file_path Hrel HD Hlen Hpath Hext Hnofile.
  unfold clear, on_tree.
  destruct (os.rmtree (fs w) (path self)) as [e|t'] eqn:Hrm; [done|].
  intros [= <-]. apply rmtree_lookup in Hrm as [Hd Hlook].
  pose proof (shallow_key_container self key' Hrel HD Hlen) as Hcodec.
  fold file_path in Hcodec. split; [by rewrite Hcodec|].
  apply getitem_same_view; fold key' file_path; rewrite ?Hcodec; cbn [fst snd fs].
  - right. split; [done|]. unfold os.isfile.
    destruct (decide (file_path = [])) as [Hnil|Hne].
    { by rewrite Hnil. }
    rewrite stat_lookup by done. rewrite Hlook, decide_True; [done|].
    unfold file_path. rewrite (join_relative _ _ Hrel). by apply prefix_app_r.
  - rewrite !stat_lookup by apply add_suffix_ne_root.
    rewrite Hlook, decide_False; [done|]. by apply add_suffix_not_below.
Qed.

(** The chunk [0/1] of the array at the root of [/data]: a direct write puts
    it into [/data.h5], and it is read after [clear]. *)
Lemma clear_keeps_shallow_chunks_witness :
  let before := {| fs := {[ ["data"] := Dir;
                            ["data"; ".zarray"] := RawFile [x7b; x7d] ]};
                   ticks := 0 |} in
  let written := {| fs := tree_beside; ticks := 0 |} in
  let cleared := {| fs := {[ ["data.h5"] := Hdf5File {[ "0.1" := [x01] ]} ]};
                    ticks := 0 |} in
  __setitem__ quiet default_store 1 "0/1" [x01] before = Return tt written
  ∧ clear default_store written = Return tt cleared
  ∧ keys default_store cleared = Return [] cleared
  ∧ __getitem__ quiet default_store "0/1" cleared = Return [x01] cleared.
Proof.
  intros before written cleared.
  assert (clear default_store written = Return tt cleared) as Hclear by by vm_compute.
  split; [by vm_compute|]. split; [exact Hclear|]. split; [by vm_compute|].
  rewrite (proj2 (clear_keeps_shallow_chunks quiet default_store "0/1" written cleared
                    eq_refl ltac:(done) eq_refl ltac:(done) ltac:(done) eq_refl Hclear)).
  by vm_compute.
Defined.


(** ** Construction *)

Lemma connect_spec cl remaining :
  ∀ attempt,
    _connect cl remaining attempt = true
    ↔ ∃ i, (attempt ≤ i < attempt + remaining)%nat ∧ worker_client cl i = true.
Proof.
  induction remaining as [|remaining IH]; intros attempt; cbn [_connect].
  - split; [done|]. intros (i & Hi & _). lia.
  - destruct (worker_client cl attempt) eqn:Hw.
    + split; [|done]. intros _. exists attempt. split; [lia|done].
    + rewrite IH. split.
      * intros (i & Hi & Hc). exists i. split; [lia|done].
      * intros (i & Hi & Hc). exists i. split; [|done].
        destruct (decide (i = attempt)) as [->|]; [congruence|lia].
Qed.

(** X15.  What [__init__] guarantees of a store it builds: the extension
    starts with a dot (so it is not empty), the separator is ['/'], the path
    is the one given and is not a file, the store takes the distributed lock
    only when direct writing is on, the lock was asked for, [distributed]
    could be imported and one of at most ten calls of [worker_client] gave a
    client; and without [consolidate=True] the tree is as it was: the root
    directory is not created. *)
Theorem init_guarantees (env : environment) (cl : cluster) (a : init_args)
    (w w' : world) (i : instance) :
  __init__ env cl a w = Built i w' →
  pystr.head (container_ext (store i)) = Some "."%char
  ∧ _dimension_separator i = "/"
  ∧ path (store i) = arg_path a
  ∧ os.isfile (fs w) (arg_path a) = false
  ∧ _consolidate i = false
  ∧ (distribuited (store i) = true ↔
     arg_write_direct a = true ∧ arg_distribuited_lock a = true
     ∧ distributed_importable cl = true
     ∧ ∃ n, (n < 10)%nat ∧ worker_client cl n = true)
  ∧ (arg_consolidate a = false → w' = w).
Proof.
  unfold __init__.
  destruct (os.exists_ (fs w) (arg_path a) && negb (os.isdir (fs w) (arg_path a)))
    eqn:Hguard; [done|].
  assert (os.isfile (fs w) (arg_path a) = false) as Hnofile.
  { unfold os.exists_, os.isdir, os.isfile in *.
    by destruct (os.stat (fs w) (arg_path a)) as [[| |]|]. }
  cbv zeta.
  clear Hguard. destruct (negb _) eqn:Hsep; [done|].
  destruct (pystr.head (arg_container_ext a)) as [c|] eqn:Hhead; [|done].
  set (ext := if bool_decide (c = "."%char) then _ else _).
  assert (pystr.head ext = Some "."%char) as Hext.
  { unfold ext. case_bool_decide as Hc; [by rewrite Hhead, Hc|done]. }
  set (lock := if arg_distribuited_lock a && arg_write_direct a then _ else _).
  destruct (_setup_dist_lock cl (arg_write_direct a) lock) as [e|connected] eqn:Hsetup;
    [done|].
  assert (connected = true ↔
          arg_write_direct a = true ∧ arg_distribuited_lock a = true
          ∧ distributed_importable cl = true
          ∧ ∃ n, (n < 10)%nat ∧ worker_client cl n = true) as Hconn.
  { unfold _setup_dist_lock, lock in Hsetup.
    destruct (arg_write_direct a), (arg_distribuited_lock a),
      (distributed_importable cl); cbn [andb] in Hsetup; simplify_eq;
      try (split; [done|by intros (? & ? & ? & ?)]).
    destruct (_connect cl 10 0) eqn:Hc; simplify_eq.
    apply connect_spec in Hc as (n & Hn & Hw).
    split; [|done]. intros _. repeat split; try done. exists n. split; [lia|done]. }
  destruct (arg_consolidate a).
  - destruct (consolidate env _ w) as [[] w1|e w1|]; [|done..].
    intros [= <- <-]. cbn [store container_ext _dimension_separator path _consolidate
      distribuited]. by split_and!.
  - intros [= <- <-]. cbn [store container_ext _dimension_separator path _consolidate
      distribuited]. by split_and!.
Qed.

(** [H5_Nested_Store('/data')] where there is no [/data] yet. *)
Lemma init_guarantees_witness :
  __init__ quiet no_cluster default_args {| fs := ∅; ticks := 0 |}
  = Built {| store := default_store;
             _dimension_separator := "/";
             swmr := false;
             distribuited_lock := false;
             _consolidate := false;
             _consolidate_parallel := true |} {| fs := ∅; ticks := 0 |}
  ∧ pystr.head (container_ext default_store) = Some "."%char.
Proof.
  assert (__init__ quiet no_cluster default_args {| fs := ∅; ticks := 0 |}
          = Built {| store := default_store;
                     _dimension_separator := "/";
                     swmr := false;
                     distribuited_lock := false;
                     _consolidate := false;
                     _consolidate_parallel := true |} {| fs := ∅; ticks := 0 |})
    as Hinit by by vm_compute.
  split; [exact Hinit|].
  exact (proj1 (init_guarantees quiet no_cluster default_args _ _ _ Hinit)).
Defined.

(** X16.  What makes [__init__] fail before it builds anything, in the order
    of the checks: a file at the path ([FSPathExistNotDir]), a separator
    other than ['/'] ([ValueError]), an empty [container_ext] (the
    [IndexError] of [container_ext[0]]), and a lock that was asked for and
    for which none of the ten calls of [worker_client] gives a client
    ([NotImplementedError]).  The tree is left as it was. *)
Theorem init_failures (env : environment) (cl : cluster) (a : init_args) (w : world) :
  (os.isfile (fs w) (arg_path a) = true →
   __init__ env cl a w = Failed (FSPathExistNotDir (arg_path a)) w)
  ∧ (os.isfile (fs w) (arg_path a) = false →
     (∃ sep, arg_dimension_separator a = Some sep ∧ sep ≠ "/") →
     __init__ env cl a w = Failed SeparatorValueError w)
  ∧ (os.isfile (fs w) (arg_path a) = false →
     arg_dimension_separator a = None ∨ arg_dimension_separator a = Some "/" →
     arg_container_ext a = EmptyString →
     __init__ env cl a w = Failed IndexError w)
  ∧ (os.isfile (fs w) (arg_path a) = false →
     arg_dimension_separator a = None ∨ arg_dimension_separator a = Some "/" →
     arg_container_ext a ≠ EmptyString →
     arg_write_direct a = true → arg_distribuited_lock a = true →
     distributed_importable cl = true →
     (∀ n, (n < 10)%nat → worker_client cl n = false) →
     __init__ env cl a w = Failed NotImplementedError w).
Proof.
  assert (os.isfile (fs w) (arg_path a)
          = os.exists_ (fs w) (arg_path a) && negb (os.isdir (fs w) (arg_path a)))
    as Hguard.
  { unfold os.exists_, os.isdir, os.isfile.
    by destruct (os.stat (fs w) (arg_path a)) as [[| |]|]. }
  unfold __init__. rewrite <- Hguard.
  split; [by intros ->|]. split; [|split].
  - intros -> (sep & -> & Hsep). by rewrite bool_decide_eq_false_2.
  - intros -> Hsep ->. by destruct Hsep as [-> | ->].
  - intros -> Hsep Hext -> -> Himp Hnone.
    assert (negb match arg_dimension_separator a with
                 | Some sep => bool_decide (sep = "/")
                 | None => true
                 end = false) as -> by (by destruct Hsep as [-> | ->]).
    destruct (arg_container_ext a) as [|c rest]; [done|]. cbn [pystr.head andb].
    unfold _setup_dist_lock. rewrite Himp. cbn [andb].
    destruct (_connect cl 10 0) eqn:Hc; [|done].
    apply connect_spec in Hc as (n & Hn & Hw). rewrite Hnone in Hw; [done|lia].
Qed.

(** A file at [/data/a/.zarray] given as the root, and an empty extension. *)
Lemma init_failures_witness :
  __init__ quiet no_cluster args_path_of_a_file world_sharded
  = Failed (FSPathExistNotDir ["data"; "a"; ".zarray"]) world_sharded
  ∧ __init__ quiet no_cluster args_empty_extension world_sharded
    = Failed IndexError world_sharded.
Proof.
  split.
  - exact (proj1 (init_failures quiet no_cluster args_path_of_a_file world_sharded)
             eq_refl).
  - exact (proj1 (proj2 (proj2 (init_failures quiet no_cluster args_empty_extension
                                  world_sharded)))
             eq_refl (or_introl eq_refl) eq_refl).
Defined.

(** X17.  The extension may be given with or without its dot:
    [container_ext='h5'] and [container_ext='.h5'] build the same store. *)
Theorem init_extension_dot (env : environment) (cl : cluster) (a : init_args)
    (w : world) (c : ascii) (rest : string) :
  arg_container_ext a = String c rest → c ≠ "."%char →
  __init__ env cl a w
  = __init__ env cl
      {| arg_path := arg_path a;
         arg_normalize_keys := arg_normalize_keys a;
         arg_dimension_separator := arg_dimension_separator a;
         arg_write_direct := arg_write_direct a;
         arg_swmr := arg_swmr a;
         arg_container_ext := "." +:+ arg_container_ext a;
         arg_distribuited_lock := arg_distribuited_lock a;
         arg_consolidate := arg_consolidate a;
         arg_consolidate_depth := arg_consolidate_depth a;
         arg_consolidate_parallel := arg_consolidate_parallel a;
         arg_auto_verify_write := arg_auto_verify_write a;
         arg_mode := arg_mode a |} w.
Proof.
  intros Hext Hc. unfold __init__. cbn [arg_path arg_normalize_keys
    arg_dimension_separator arg_write_direct arg_swmr arg_container_ext
    arg_distribuited_lock arg_consolidate arg_consolidate_depth
    arg_consolidate_parallel arg_auto_verify_write arg_mode].
  rewrite Hext. change ("." +:+ String c rest) with (String "." (String c rest)).
  cbn [pystr.head]. rewrite bool_decide_eq_false_2 by done.
  by rewrite bool_decide_eq_true_2 by done.
Qed.

(** [container_ext='h5'], the default, and [container_ext='.h5']. *)
Lemma init_extension_dot_witness :
  __init__ quiet no_cluster default_args {| fs := ∅; ticks := 0 |}
  = __init__ quiet no_cluster args_dotted_extension {| fs := ∅; ticks := 0 |}.
Proof.
  exact (init_extension_dot quiet no_cluster default_args {| fs := ∅; ticks := 0 |}
           "h" "5" eq_refl ltac:(discriminate)).
Defined.

(** ** The slices of an array's chunks *)

Lemma elem_of_product (ls : list (list Z)) :
  ∀ idx, idx ∈ product ls ↔ Forall2 (λ c l, c ∈ l) idx ls.
Proof.
  induction ls as [|l ls IH]; intros idx; cbn [product foldr].
  - rewrite list_elem_of_singleton. split; [intros ->; constructor|].
    by intros ->%Forall2_nil_inv_r.
  - fold (product ls). rewrite list_elem_of_bind. split.
    + intros (a & Hin & Ha). apply list_elem_of_bind in Hin as (t & Hin & Ht).
      apply list_elem_of_singleton in Hin as ->. constructor; [done|]. by apply IH.
    + intros (a & t & Ha & Ht & ->)%Forall2_cons_inv_r.
      exists a. split; [|done]. apply list_elem_of_bind. exists t.
      split; [by apply list_elem_of_singleton|]. by apply IH.
Qed.

(** The number of chunks along one dimension is the length divided by the
    chunk's length, rounded up. *)
Lemma ceil_count (x y : Z) :
  0 < y →
  let m := if bool_decide (x `mod` y = 0) then x `div` y else x `div` y + 1 in
  x ≤ m * y < x + y.
Proof.
  intros Hy m. pose proof (Z.div_mod x y ltac:(lia)) as Hdm.
  pose proof (Z.mod_pos_bound x y Hy) as Hmod. subst m.
  case_bool_decide as Hz; nia.
Qed.

Lemma chunk_generator_max (array_shape chunk_shape : list Z) idxs max_chunks :
  chunk_generator array_shape chunk_shape = Some (idxs, max_chunks) →
  max_chunks
  = (λ '(x, y), if bool_decide (x `mod` y = 0) then x `div` y else x `div` y + 1)
      <$> zip array_shape chunk_shape
  ∧ ∀ idx, idx ∈ idxs ↔ Forall2 (λ c m, 0 ≤ c ≤ m) idx max_chunks.
Proof.
  unfold chunk_generator. destruct (existsb _ _); [done|]. intros [= <- <-].
  assert ((λ '(c, m), if bool_decide (m = 0) then c else c + 1)
            <$> zip ((λ '(x, y), x `div` y) <$> zip array_shape chunk_shape)
                    ((λ '(x, y), x `mod` y) <$> zip array_shape chunk_shape)
          = (λ '(x, y), if bool_decide (x `mod` y = 0) then x `div` y else x `div` y + 1)
              <$> zip array_shape chunk_shape) as ->.
  { induction (zip array_shape chunk_shape) as [|[x y] l IH]; [done|].
    cbn. by rewrite <- IH. }
  split; [done|]. intros idx. rewrite elem_of_product.
  rewrite Forall2_fmap_r.
  split; intros H; eapply Forall2_impl; [exact H| |exact H|];
    intros c m; cbn; rewrite elem_of_seqZ; lia.
Qed.

(** X18.  The chunk slices tile the array.  For chunk lengths above 0,
    [chunk_generator] counts along each dimension the chunks needed to cover
    it ([x <= m*y < x+y]), and lists the index tuples with every index from 0
    to that count included, one more than the chunks there are.  For an index
    tuple it lists, [chunk_to_slice] gives in each dimension the slice from
    [c*y]: for [c] below the count it is not empty, ends where the next one
    starts and, for the last chunk, at the end of the array; for [c] equal to
    the count it is empty. *)
Theorem chunk_slices_tile (array_shape chunk_shape : list Z)
    (idxs : list (list Z)) (max_chunks : list Z) :
  length chunk_shape = length array_shape →
  Forall (λ y, 0 < y) chunk_shape →
  chunk_generator array_shape chunk_shape = Some (idxs, max_chunks) →
  length max_chunks = length array_shape
  ∧ (∀ idx, idx ∈ idxs ↔ Forall2 (λ c m, 0 ≤ c ≤ m) idx max_chunks)
  ∧ ∀ idx i x y m c,
      idx ∈ idxs →
      array_shape !! i = Some x → chunk_shape !! i = Some y →
      max_chunks !! i = Some m → idx !! i = Some c →
      x ≤ m * y < x + y
      ∧ ∃ stop,
          chunk_to_slice idx array_shape chunk_shape !! i = Some (c * y, stop)
          ∧ (c < m → c * y < stop ≤ x)
          ∧ (c + 1 < m → stop = (c + 1) * y)
          ∧ (c + 1 = m → stop = x)
          ∧ (c = m → stop ≤ c * y).
Proof.
  intros Hlen Hpos Hgen.
  apply chunk_generator_max in Hgen as [-> Hidx].
  split; [by rewrite length_fmap, length_zip, Hlen, Nat.min_id|].
  split; [exact Hidx|].
  intros idx i x y m c Hin Hx Hy Hm Hc.
  apply Hidx in Hin.
  assert (0 < y) as Hypos by (by eapply (proj1 (Forall_lookup _ _) Hpos)).
  assert (m = if bool_decide (x `mod` y = 0) then x `div` y else x `div` y + 1) as Hmdef.
  { rewrite list_lookup_fmap in Hm.
    rewrite (proj2 (lookup_zip_with_Some pair array_shape chunk_shape i (x, y))) in Hm
      by (exists x, y; done).
    cbn in Hm. by injection Hm as <-. }
  pose proof (ceil_count x y Hypos) as Hceil. cbn zeta in Hceil. rewrite <- Hmdef in Hceil.
  split; [exact Hceil|].
  assert (0 ≤ c ≤ m) as Hcm.
  { eapply (Forall2_lookup_lr _ _ _ _ _ _ Hin); done. }
  exists (if bool_decide (c * y + y < x) then c * y + y else x). split.
  - unfold chunk_to_slice.
    apply lookup_zip_with_Some. eexists _, _. split; [done|]. split.
    + rewrite list_lookup_fmap.
      rewrite (proj2 (lookup_zip_with_Some pair idx chunk_shape i (c, y)))
        by (exists c, y; done). done.
    + rewrite list_lookup_fmap.
      rewrite (proj2 (lookup_zip_with_Some pair _ array_shape i (c * y, y, x))); [done|].
      exists (c * y, y), x. split; [done|]. split; [|done].
      apply lookup_zip_with_Some. exists (c * y), y. split; [done|]. split; [|done].
      rewrite list_lookup_fmap.
      rewrite (proj2 (lookup_zip_with_Some pair idx chunk_shape i (c, y)))
        by (exists c, y; done). done.
  - assert (∀ a b, a ≤ b → a * y ≤ b * y) as Hmul by (intros; nia).
    clear Hmdef Hm Hin Hidx.
    case_bool_decide as Hstop; split_and!; intros Hc'.
    + lia.
    + lia.
    + pose proof (Hmul (c + 1) m ltac:(lia)). pose proof (Hmul m (c + 1) ltac:(lia)). lia.
    + subst c. lia.
    + pose proof (Hmul (c + 1) m ltac:(lia)). lia.
    + pose proof (Hmul (c + 2) m ltac:(lia)). lia.
    + done.
    + subst c. lia.
Qed.

(** An array of 10 by 7 in chunks of 4 by 7: three chunks by one; the slices
    of the index tuple (2, 0), the last chunk, and of (3, 1), which is past
    the chunks. *)
Lemma chunk_slices_tile_witness :
  chunk_generator [10; 7] [4; 7]
  = Some ([[0; 0]; [0; 1]; [1; 0]; [1; 1]; [2; 0]; [2; 1]; [3; 0]; [3; 1]], [3; 1])
  ∧ chunk_to_slice [2; 0] [10; 7] [4; 7] = [(8, 10); (0, 7)]
  ∧ chunk_to_slice [3; 1] [10; 7] [4; 7] = [(12, 10); (7, 7)]
  ∧ 10 ≤ 3 * 4 < 10 + 4.
Proof.
  assert (chunk_generator [10; 7] [4; 7]
          = Some ([[0; 0]; [0; 1]; [1; 0]; [1; 1]; [2; 0]; [2; 1]; [3; 0]; [3; 1]], [3; 1]))
    as Hgen by by vm_compute.
  split; [exact Hgen|]. split; [by vm_compute|]. split; [by vm_compute|].
  refine (proj1 (proj2 (proj2 (chunk_slices_tile [10; 7] [4; 7] _ _ eq_refl _ Hgen))
                  [2; 0] 0%nat 10 4 3 2 _ eq_refl eq_refl eq_refl eq_refl)).
  - repeat constructor.
  - repeat constructor.
Defined.

(** ** Calls that end *)

Lemma bind_ends {A B} (m : M A) (k : A → M B) w :
  m w ≠ Running → (∀ a w1, k a w1 ≠ Running) → (m ≫= k) w ≠ Running.
Proof.
  intros Hm Hk. unfold mbind, M_bind, bind. destruct (m w) as [a w1|e w1|]; [apply Hk|done..].
Qed.

Lemma try_except_ends {A} (m : M A) caught (h : exn → M A) w :
  m w ≠ Running → (∀ e w1, h e w1 ≠ Running) → try_except m caught h w ≠ Running.
Proof.
  intros Hm Hh. unfold try_except. destruct (m w) as [a w1|e w1|]; [done| |done].
  destruct (caught e); [apply Hh|done].
Qed.

Lemma try_finally_ends {A} (m : M A) (c : M unit) w :
  m w ≠ Running → (∀ w1, c w1 ≠ Running) → try_finally m c w ≠ Running.
Proof.
  intros Hm Hc. unfold try_finally. destruct (m w) as [a w1|e w1|]; [| |done].
  - apply (bind_ends c); [apply Hc|done].
  - apply (bind_ends c); [apply Hc|done].
Qed.

Lemma on_tree_ends f w : on_tree f w ≠ Running.
Proof. unfold on_tree. by destruct (f (fs w)). Qed.

Lemma tofile_ends env self fuel a fn w :
  auto_verify_write self = false → _tofile env self (S fuel) a fn w ≠ Running.
Proof.
  intros Hv. cbn [_tofile]. rewrite Hv. apply bind_ends; [|done].
  unfold open_wb_write. destruct (os.isdir (fs w) fn); [done|].
  by destruct (os.stat (fs w) (os.dirname fn)) as [[| |]|].
Qed.

Lemma toh5_ends env self fuel archive key value w :
  auto_verify_write self = false → _toh5 env self (S fuel) archive key value w ≠ Running.
Proof.
  intros Hv. cbn [_toh5]. rewrite Hv. apply bind_ends; [|done].
  apply try_except_ends; [|done]. apply bind_ends.
  - unfold h5py.open_a. destruct (os.stat (fs w) archive) as [[| [|b0 b] |c]|]; try done.
    + by destruct (h5_busy env (ticks w)).
    + by destruct (os.stat (fs w) (os.dirname archive)) as [[| |]|].
  - intros f w1. rewrite replace_dataset_cases. cbv zeta. by case_bool_decide.
Qed.

(** X19.  With write-verification off, [__setitem__] ends: one round of
    [_tofile] or of [_toh5] is all it takes, so it returns or raises whatever
    the surroundings do. *)
Theorem set_ends_without_verification (env : environment) (self : H5_Nested_Store)
    (fuel : nat) (key : string) (value : bytes) (w : world) :
  auto_verify_write self = false →
  __setitem__ env self (S fuel) key value w ≠ Running.
Proof.
  intros Hv. unfold __setitem__. apply bind_ends; [done|]. intros isf w1.
  destruct (_write_direct self && negb _ && negb isf).
  - unfold _write_direct_to_h5.
    destruct (_get_archive_key_name self _) as [archive h_key].
    apply bind_ends; [apply on_tree_ends|]. intros _ w2.
    destruct (distribuited self).
    + apply try_except_ends; [|done]. unfold with_lock.
      destruct (lock_available env); [by apply toh5_ends|done].
    + by apply toh5_ends.
  - unfold _setitem_nested. apply bind_ends; [done|]. intros isd w2.
    apply bind_ends; [destruct isd; [apply on_tree_ends|done]|]. intros _ w3.
    destruct (posixpath.split _) as [dir_path file_name].
    apply bind_ends; [done|]. intros dir_is_file w4.
    destruct dir_is_file; [done|].
    apply bind_ends; [done|]. intros dir_exists w5.
    apply bind_ends.
    { destruct dir_exists; [done|].
      apply try_except_ends; [apply on_tree_ends|]. intros e w6.
      by case_bool_decide. }
    intros _ w6. apply bind_ends; [done|]. intros hex w7.
    apply try_finally_ends.
    + apply bind_ends; [by apply tofile_ends|]. intros _ w8. apply on_tree_ends.
    + intros w8. apply bind_ends; [done|]. intros left_over w9.
      destruct left_over; [apply on_tree_ends|done].
Qed.

(** The default store in surroundings where every container is busy and the
    medium keeps nothing. *)
Lemma set_ends_without_verification_witness :
  __setitem__ hostile default_store 1 "a/0/0/2" [x01] world_sharded ≠ Running
  ∧ __setitem__ hostile default_store 1 "a/.zattrs" [x01] world_sharded ≠ Running.
Proof.
  split.
  - exact (set_ends_without_verification hostile default_store 0 "a/0/0/2" [x01]
             world_sharded eq_refl).
  - exact (set_ends_without_verification hostile default_store 0 "a/.zattrs" [x01]
             world_sharded eq_refl).
Defined.

